(** * pg_comparative.py: comparative diagnostic of two PostgreSQL servers

    A shallow embedding of [src/pg_comparative.py] and the properties of
    its recommendation rules, its SQL classification queries, its report
    layout, and its handling of failures and connections.

    Layout:
    - [Float64]  Python floats (IEEE 754 binary64) and the [.1f] format;
    - [Py]       the Python values held by query rows, with [dict.get],
                 truthiness, [or], [int()], [float()], [str()], [!=];
    - [Sql]      the SQL expressions of the cache-hit,
                 performance-issue, connection, lock, index and bloat
                 queries;
    - the class [PostgreSQLComparativeDiagnostic] and [main], in a section
      whose variables are the services the program takes from its
      runtime (psycopg2, tabulate, json, the string parsers of CPython). *)

From Stdlib Require Import ZArith Lia Bool List.
From Stdlib Require Import Floats.SpecFloat.
From stdpp Require Import base option list gmap strings pretty sorting.

Open Scope Z_scope.

(** The newline character of Python's ["\n"]. *)
Definition nl : string := String (Ascii.ascii_of_nat 10) EmptyString.

(** [sep.join(parts)]. *)
Fixpoint join (sep : string) (parts : list string) : string :=
  match parts with
  | [] => ""
  | [p] => p
  | p :: rest => p +:+ sep +:+ join sep rest
  end.

(** [s.startswith(p)]. *)
Fixpoint startswith (p s : string) : bool :=
  match p, s with
  | EmptyString, _ => true
  | String a p', String b s' => if Ascii.eqb a b then startswith p' s' else false
  | String _ _, EmptyString => false
  end.

(** [needle in s], for strings. *)
Fixpoint contains (needle s : string) : bool :=
  startswith needle s ||
  match s with
  | EmptyString => false
  | String _ s' => contains needle s'
  end.

(** ** Python floats *)

Module Float64.

(** A Python [float] is an IEEE 754 binary64 number: 53 bits of
    precision, exponent bound 1024. *)
Definition float : Type := spec_float.
Definition prec : Z := 53.
Definition emax : Z := 1024.

Definition sub : float -> float -> float := SFsub prec emax.
Definition div : float -> float -> float := SFdiv prec emax.
Definition ltb : float -> float -> bool := SFltb.
Definition abs : float -> float := SFabs.

(** The integer [z] rounded to the nearest float, ties to even; an
    infinity when [z] is beyond the largest finite float. *)
Definition of_Z (z : Z) : float := binary_normalize prec emax z 0 false.

(** The quotient [m / 10^s] rounded once to the nearest float: the
    division of two integers taken as exact (unnormalised) operands. *)
Definition of_scaled (m : Z) (s : nat) : float :=
  let den := S754_finite false (Z.to_pos (10 ^ Z.of_nat s)) 0 in
  match m with
  | Z0 => S754_zero false
  | Zpos p => div (S754_finite false p 0) den
  | Zneg p => div (S754_finite true p 0) den
  end.

Definition is_finite (x : float) : bool :=
  match x with
  | S754_zero _ | S754_finite _ _ _ => true
  | _ => false
  end.

(** [num / den] rounded to the nearest integer, ties to even
    ([0 <= num], [0 < den]). *)
Definition round_half_even (num den : Z) : Z :=
  let q := num / den in
  match (2 * (num mod den)) ?= den with
  | Lt => q
  | Gt => q + 1
  | Eq => if Z.even q then q else q + 1
  end.

(** The magnitude of a finite float in tenths, rounded to the nearest
    tenth of its exact binary value, ties to even. *)
Definition tenths (m : positive) (e : Z) : Z :=
  match e with
  | Zneg k => round_half_even (Zpos m * 10) (2 ^ Zpos k)
  | _ => Zpos m * 10 * 2 ^ e
  end.

(** [format(x, ".1f")]. *)
Definition format_1f (x : float) : string :=
  match x with
  | S754_nan => "nan"
  | S754_infinity s => if s then "-inf" else "inf"
  | S754_zero s => if s then "-0.0" else "0.0"
  | S754_finite s m e =>
      let n := tenths m e in
      (if s then "-" else "") +:+ pretty (n / 10) +:+ "." +:+ pretty (n mod 10)
  end.

End Float64.

(** ** Python values and dictionaries *)

Module Py.
Import Float64.

(** A finite [decimal.Decimal] with a non-positive exponent:
    [unscaled * 10^(-scale)].  This is what psycopg2 builds from a
    PostgreSQL [numeric], which is printed without exponent and has no
    negative zero. *)
Record PyDecimal := Dec { unscaled : Z; scale : nat }.

(** The values a [RealDictCursor] row holds for the columns this
    program reads: SQL NULL is [None], integer types are [int],
    [numeric] is [Decimal], text is [str].  (The [float8] and timestamp
    columns of the version and autovacuum statements only travel to
    [tabulate]; no expression of the program inspects them.) *)
Inductive value :=
| VNone
| VInt (z : Z)
| VDecimal (d : PyDecimal)
| VStr (s : string).

(** A row, or any [Dict] of the program: field name to value. *)
Abbreviation dict := (gmap string value).

Inductive exn := TypeError | ValueError | OverflowError.

(** The outcome of an expression that may raise. *)
Inductive result (A : Type) :=
| Ok (a : A)
| Raise (e : exn).
Arguments Ok {A} a.
Arguments Raise {A} e.

#[export] Instance result_ret : MRet result := fun A a => Ok a.
#[export] Instance result_bind : MBind result := fun A B k r =>
  match r with
  | Ok a => k a
  | Raise e => Raise e
  end.

(** [d.get(k, dflt)]. *)
Definition dict_get (d : dict) (k : string) (dflt : value) : value :=
  default dflt (d !! k).

(** [d.get(k)]. *)
Definition dict_get_none (d : dict) (k : string) : value := dict_get d k VNone.

(** [bool(v)]. *)
Definition truthy (v : value) : bool :=
  match v with
  | VNone => false
  | VInt z => negb (z =? 0)
  | VDecimal d => negb (unscaled d =? 0)
  | VStr s => negb (String.eqb s "")
  end.

(** [a or b]. *)
Definition py_or (a b : value) : value := if truthy a then a else b.

(** [a == b]: numbers compare by value across [int] and [Decimal],
    strings with strings, [None] with [None]. *)
Definition py_eq (a b : value) : bool :=
  match a, b with
  | VNone, VNone => true
  | VInt x, VInt y => x =? y
  | VInt x, VDecimal d => x * 10 ^ Z.of_nat (scale d) =? unscaled d
  | VDecimal d, VInt y => unscaled d =? y * 10 ^ Z.of_nat (scale d)
  | VDecimal d, VDecimal d' =>
      unscaled d * 10 ^ Z.of_nat (scale d') =? unscaled d' * 10 ^ Z.of_nat (scale d)
  | VStr s, VStr t => String.eqb s t
  | _, _ => false
  end.

(** [str(Decimal)], for the decimals of [PyDecimal]: plain notation
    while the leftmost digit is within six places of the point,
    scientific notation ([E-n]) below. *)
Definition zeros (n : nat) : string := join "" (replicate n "0").

Definition str_decimal (d : PyDecimal) : string :=
  let digits := pretty (Z.abs (unscaled d)) in
  let len := Z.of_nat (String.length digits) in
  let leftdigits := len - Z.of_nat (scale d) in
  let dotplace := if -6 <? leftdigits then leftdigits else 1 in
  let mantissa :=
    if dotplace <=? 0 then
      "0." +:+ zeros (Z.to_nat (- dotplace)) +:+ digits
    else if len <=? dotplace then
      digits +:+ zeros (Z.to_nat (dotplace - len))
    else
      String.substring 0 (Z.to_nat dotplace) digits +:+ "." +:+
      String.substring (Z.to_nat dotplace) (Z.to_nat (len - dotplace)) digits in
  let exponent :=
    if leftdigits =? dotplace then ""
    else "E" +:+ (if 0 <=? leftdigits - dotplace then "+" else "") +:+
         pretty (leftdigits - dotplace) in
  (if unscaled d <? 0 then "-" else "") +:+ mantissa +:+ exponent.

(** [str(v)], which is what an f-string field [{v}] prints. *)
Definition str (v : value) : string :=
  match v with
  | VNone => "None"
  | VInt z => pretty z
  | VDecimal d => str_decimal d
  | VStr s => s
  end.

Section Parsers.
(** CPython's parsers of numeric text behind [float(str)] and [int(str)];
    text they reject ([None]) is a [ValueError]. *)
Variable str_to_float : string -> option float.
Variable str_to_int : string -> option Z.

(** [float(v)]. *)
Definition py_float (v : value) : result float :=
  match v with
  | VNone => Raise TypeError
  | VInt z =>
      let x := of_Z z in
      if is_finite x then Ok x else Raise OverflowError
  | VDecimal d => Ok (of_scaled (unscaled d) (scale d))
  | VStr s =>
      match str_to_float s with
      | Some x => Ok x
      | None => Raise ValueError
      end
  end.

(** [int(v)]: a [Decimal] is truncated towards zero. *)
Definition py_int (v : value) : result Z :=
  match v with
  | VNone => Raise TypeError
  | VInt z => Ok z
  | VDecimal d => Ok (Z.quot (unscaled d) (10 ^ Z.of_nat (scale d)))
  | VStr s =>
      match str_to_int s with
      | Some z => Ok z
      | None => Raise ValueError
      end
  end.
End Parsers.

End Py.

Import Float64 Py.

(** ** The SQL expressions of the queries

    The text of six queries is modelled down to its expressions: the
    cache-hit ratio of [get_cache_hit_ratio], the classification of
    [get_query_performance_issues], the percentages of
    [get_connection_stats], [get_index_stats] and [get_table_bloat],
    and the counts of [get_lock_stats].
    PostgreSQL evaluates them; this module follows its rules for
    [numeric] and [bigint] arithmetic, for NULL, and for the errors an
    expression can raise. *)

Module Sql.

Inductive sql_error := DivisionByZero | BigintOutOfRange.

(** What an SQL expression evaluates to: a value, NULL, or an error
    that aborts the statement. *)
Inductive sql (A : Type) :=
| Value (a : A)
| Null
| Error (e : sql_error).
Arguments Value {A} a.
Arguments Null {A}.
Arguments Error {A} e.

(** A strict binary operator: an error in either operand aborts, else a
    NULL operand gives NULL. *)
Definition strict2 {A B C} (f : A -> B -> sql C) (x : sql A) (y : sql B) : sql C :=
  match x, y with
  | Error e, _ => Error e
  | _, Error e => Error e
  | Null, _ | _, Null => Null
  | Value a, Value b => f a b
  end.

Definition strict1 {A B} (f : A -> sql B) (x : sql A) : sql B :=
  match x with
  | Error e => Error e
  | Null => Null
  | Value a => f a
  end.

Definition of_column {A} (c : option A) : sql A :=
  match c with
  | Some a => Value a
  | None => Null
  end.

(** *** [bigint] *)

Definition int8_min : Z := - 2 ^ 63.
Definition int8_max : Z := 2 ^ 63 - 1.

Definition in_int8 (z : Z) : bool := (int8_min <=? z) && (z <=? int8_max).

(** [a * b] on [bigint]: out of range is an error, not a wrap-around. *)
Definition int8_mul (a b : Z) : sql Z :=
  if in_int8 (a * b) then Value (a * b) else Error BigintOutOfRange.

(** Comparisons and the three-valued connectives; [AND] and [OR] stop at
    the first operand that decides the result. *)
Definition sql_eq : sql Z -> sql Z -> sql bool := strict2 (fun a b => Value (a =? b)).
Definition sql_gt : sql Z -> sql Z -> sql bool := strict2 (fun a b => Value (b <? a)).

Definition sql_and (x y : sql bool) : sql bool :=
  match x with
  | Error e => Error e
  | Value false => Value false
  | Value true => y
  | Null =>
      match y with
      | Error e => Error e
      | Value false => Value false
      | _ => Null
      end
  end.

Definition sql_or (x y : sql bool) : sql bool :=
  match x with
  | Error e => Error e
  | Value true => Value true
  | Value false => y
  | Null =>
      match y with
      | Error e => Error e
      | Value true => Value true
      | _ => Null
      end
  end.

(** *** [numeric] *)

(** A [numeric]: [nval * 10^(-dscale)], [dscale] being its display
    scale (the digits it prints after the point). *)
Record numeric := Num { nval : Z; dscale : nat }.

Definition pow10 (n : nat) : Z := 10 ^ Z.of_nat n.

(** [nval] of [a] once written with [s >= dscale a] fractional digits. *)
Definition at_scale (a : numeric) (s : nat) : Z := nval a * pow10 (s - dscale a).

Definition num_of_int (z : Z) : numeric := Num z 0.

Definition num_mul (a b : numeric) : numeric :=
  Num (nval a * nval b) (dscale a + dscale b).

Definition num_add (a b : numeric) : numeric :=
  let s := Nat.max (dscale a) (dscale b) in
  Num (at_scale a s + at_scale b s) s.

Definition num_sub (a b : numeric) : numeric :=
  let s := Nat.max (dscale a) (dscale b) in
  Num (at_scale a s - at_scale b s) s.

Definition num_eqb (a b : numeric) : bool :=
  let s := Nat.max (dscale a) (dscale b) in
  at_scale a s =? at_scale b s.

(** [n / d] rounded to the nearest integer, ties away from zero
    ([d <> 0]). *)
Definition div_half_away (n d : Z) : Z :=
  Z.sgn n * Z.sgn d * ((2 * Z.abs n + Z.abs d) / (2 * Z.abs d)).

(** The position and the value of the first non-zero base-10000 digit,
    as [select_div_scale] reads them ([0, 0] for zero). *)
Definition decimal_digits (n : Z) : Z := Z.of_nat (String.length (pretty (Z.abs n))).

Definition weight_and_first_digit (a : numeric) : Z * Z :=
  if nval a =? 0 then (0, 0)
  else
    let w := (decimal_digits (nval a) - 1 - Z.of_nat (dscale a)) / 4 in
    let shift := Z.of_nat (dscale a) + 4 * w in
    let first :=
      if 0 <=? shift then Z.abs (nval a) / 10 ^ shift
      else Z.abs (nval a) * 10 ^ (- shift) in
    (w, first).

(** The scale of a quotient: at least 16 significant digits, and no
    fewer fractional digits than either operand. *)
Definition select_div_scale (a b : numeric) : nat :=
  let '(w1, f1) := weight_and_first_digit a in
  let '(w2, f2) := weight_and_first_digit b in
  let qweight := w1 - w2 - (if f1 <=? f2 then 1 else 0) in
  let rscale := 16 - qweight * 4 in
  let rscale := Z.max rscale (Z.of_nat (dscale a)) in
  let rscale := Z.max rscale (Z.of_nat (dscale b)) in
  let rscale := Z.max rscale 0 in
  let rscale := Z.min rscale 1000 in
  Z.to_nat rscale.

(** [a / b]: the quotient rounded at the selected scale. *)
Definition num_div (a b : numeric) : sql numeric :=
  if nval b =? 0 then Error DivisionByZero
  else
    let s := select_div_scale a b in
    Value (Num (div_half_away (nval a * pow10 (dscale b + s)) (nval b * pow10 (dscale a))) s).

(** [ROUND(a, s)]: ties away from zero, display scale [s]. *)
Definition num_round (a : numeric) (s : nat) : numeric :=
  if (dscale a <=? s)%nat then Num (at_scale a s) s
  else Num (div_half_away (nval a) (pow10 (dscale a - s))) s.

(** [NULLIF(a, b)]. *)
Definition nullif (a b : numeric) : sql numeric :=
  if num_eqb a b then Null else Value a.

(** [sum(col)] over the rows of a table: NULL when no row has a value;
    the sum of a [bigint] column is a [numeric]. *)
Definition sum_column (col : list (option Z)) : sql numeric :=
  match omap id col with
  | [] => Null
  | xs => Value (num_of_int (foldr Z.add 0 xs))
  end.

(** How psycopg2 hands a result column to Python. *)
Definition py_of_numeric (x : sql numeric) : value :=
  match x with
  | Value a => VDecimal (Dec (nval a) (dscale a))
  | _ => VNone
  end.

(** *** [get_cache_hit_ratio]

<<
  ROUND(100.0 * sum(heap_blks_hit)
        / NULLIF(sum(heap_blks_hit) + sum(heap_blks_read), 0), 2)
>> *)

Definition hundred : numeric := Num 1000 1.

Definition hit_percent (hit read : sql numeric) : sql numeric :=
  strict1 (fun q => Value (num_round q 2))
    (strict2 num_div
       (strict2 (fun a b => Value (num_mul a b)) (Value hundred) hit)
       (strict2 nullif
          (strict2 (fun a b => Value (num_add a b)) hit read)
          (Value (num_of_int 0)))).

(** A row of [pg_statio_user_tables]; the index counters are NULL for a
    table without indexes. *)
Record statio_row := {
  heap_blks_read : option Z;
  heap_blks_hit : option Z;
  idx_blks_read : option Z;
  idx_blks_hit : option Z;
}.

(** The one row the query of [get_cache_hit_ratio] returns, or the
    error that aborts it. *)
Definition cache_query (t : list statio_row) : sql_error + dict :=
  let heap_read := sum_column (heap_blks_read <$> t) in
  let heap_hit := sum_column (heap_blks_hit <$> t) in
  let idx_read := sum_column (idx_blks_read <$> t) in
  let idx_hit := sum_column (idx_blks_hit <$> t) in
  match hit_percent heap_hit heap_read, hit_percent idx_hit idx_read with
  | Error e, _ => inl e
  | _, Error e => inl e
  | heap_pct, idx_pct =>
      inr (<[ "heap_read" := py_of_numeric heap_read ]>
          (<[ "heap_hit" := py_of_numeric heap_hit ]>
          (<[ "cache_hit_percent" := py_of_numeric heap_pct ]>
          (<[ "idx_read" := py_of_numeric idx_read ]>
          (<[ "idx_hit" := py_of_numeric idx_hit ]>
          (<[ "idx_cache_hit_percent" := py_of_numeric idx_pct ]> ∅))))))
  end.

(** *** [get_query_performance_issues]

<<
  SELECT schemaname, relname as table_name,
         ROUND(seq_scan - idx_scan::numeric, 0) as seq_vs_idx_diff,
         seq_scan, idx_scan,
         CASE WHEN idx_scan = 0 AND seq_scan > 100 THEN 'MISSING_INDEX'
              WHEN seq_scan > idx_scan * 10 THEN 'FULL_TABLE_SCANS'
              ELSE 'OK' END as issue_type,
         pg_size_pretty(pg_total_relation_size(...)) as table_size
  FROM pg_stat_user_tables
  WHERE (idx_scan = 0 AND seq_scan > 100) OR (seq_scan > idx_scan * 10)
  ORDER BY seq_scan DESC
  LIMIT 15
>> *)

(** A row of [pg_stat_user_tables], with the size text the query prints
    for the table; [idx_scan] is NULL for a table without indexes. *)
Record stat_row := {
  schemaname : string;
  relname : string;
  seq_scan : option Z;
  idx_scan : option Z;
  table_size : string;
}.

Definition missing_index (r : stat_row) : sql bool :=
  sql_and (sql_eq (of_column (idx_scan r)) (Value 0))
          (sql_gt (of_column (seq_scan r)) (Value 100)).

Definition full_table_scans (r : stat_row) : sql bool :=
  sql_gt (of_column (seq_scan r))
         (strict2 int8_mul (of_column (idx_scan r)) (Value 10)).

Definition where_clause (r : stat_row) : sql bool :=
  sql_or (missing_index r) (full_table_scans r).

Definition issue_type (r : stat_row) : sql string :=
  match missing_index r with
  | Error e => Error e
  | Value true => Value "MISSING_INDEX"
  | _ =>
      match full_table_scans r with
      | Error e => Error e
      | Value true => Value "FULL_TABLE_SCANS"
      | _ => Value "OK"
      end
  end.

Definition seq_vs_idx_diff (r : stat_row) : sql numeric :=
  strict1 (fun d => Value (num_round d 0))
    (strict2 (fun s i => Value (num_sub (num_of_int s) (num_of_int i)))
       (of_column (seq_scan r)) (of_column (idx_scan r))).

Definition py_of_int (x : option Z) : value :=
  match x with
  | Some z => VInt z
  | None => VNone
  end.

Definition py_of_text (x : sql string) : value :=
  match x with
  | Value s => VStr s
  | _ => VNone
  end.

(** The select list, for a row the WHERE clause kept. *)
Definition select_list (r : stat_row) : dict :=
  <[ "schemaname" := VStr (schemaname r) ]>
  (<[ "table_name" := VStr (relname r) ]>
  (<[ "seq_vs_idx_diff" := py_of_numeric (seq_vs_idx_diff r) ]>
  (<[ "seq_scan" := py_of_int (seq_scan r) ]>
  (<[ "idx_scan" := py_of_int (idx_scan r) ]>
  (<[ "issue_type" := py_of_text (issue_type r) ]>
  (<[ "table_size" := VStr (table_size r) ]> ∅)))))).

(** The rows the WHERE clause keeps, in table order; an error on any
    row aborts the statement. *)
Fixpoint select_where (t : list stat_row) : sql_error + list stat_row :=
  match t with
  | [] => inr []
  | r :: t' =>
      match where_clause r with
      | Error e => inl e
      | Value true =>
          match select_where t' with
          | inl e => inl e
          | inr kept => inr (r :: kept)
          end
      | _ => select_where t'
      end
  end.

(** [ORDER BY seq_scan DESC]: larger first, NULL before any value. *)
Definition seq_scan_desc (a b : stat_row) : Prop :=
  match seq_scan a, seq_scan b with
  | None, _ => True
  | Some _, None => False
  | Some x, Some y => y <= x
  end.

#[export] Instance seq_scan_desc_dec a b : Decision (seq_scan_desc a b).
Proof.
  unfold seq_scan_desc.
  destruct (seq_scan a), (seq_scan b); try apply _.
Defined.

(** The two conditions on a table's counters, in the words of the
    specification: no index scan and more than 100 sequential scans;
    more sequential scans than ten times the index scans. *)
Definition is_missing_index (s i : Z) : bool := (i =? 0) && (100 <? s).
Definition is_full_table_scans (s i : Z) : bool := 10 * i <? s.

(** A table row with both counters set that meets one of the two. *)
Definition qualifies (r : stat_row) : bool :=
  match seq_scan r, idx_scan r with
  | Some s, Some i => is_missing_index s i || is_full_table_scans s i
  | _, _ => false
  end.

(** The product [idx_scan * 10] of the row is a [bigint]. *)
Definition scans_in_range (r : stat_row) : bool :=
  match idx_scan r with
  | Some i => in_int8 (i * 10)
  | None => true
  end.

(** A result row carries both counters, meets one of the conditions,
    and is labelled by the first one it meets. *)
Definition classified (row : dict) : Prop :=
  exists s i,
    row !! "seq_scan" = Some (VInt s) /\
    row !! "idx_scan" = Some (VInt i) /\
    is_missing_index s i || is_full_table_scans s i = true /\
    row !! "issue_type" =
      Some (VStr (if is_missing_index s i then "MISSING_INDEX" else "FULL_TABLE_SCANS")).

(** The [seq_scan] field of a result row. *)
Definition row_seq_scan (row : dict) : Z :=
  match row !! "seq_scan" with
  | Some (VInt s) => s
  | _ => 0
  end.

(** The rows of the statement: filter, sort, keep 15, project. *)
Definition performance_query (t : list stat_row) : sql_error + list dict :=
  match select_where t with
  | inl e => inl e
  | inr kept => inr (select_list <$> take 15 (merge_sort seq_scan_desc kept))
  end.

(** *** Percentages of two [bigint] operands

    [ROUND(100.0 * n / d, k)], the shape of the percentages of the
    connection, index and bloat statements ([ROUND(x)] is [k = 0]):
    the operands are cast to [numeric], the quotient is rounded at the
    scale [select_div_scale] picks, and [ROUND] rounds it again. *)

(** [a + b] on [bigint]. *)
Definition int8_add (a b : Z) : sql Z :=
  if in_int8 (a + b) then Value (a + b) else Error BigintOutOfRange.

(** [NULLIF(a, b)] on [bigint]. *)
Definition nullif_int (a b : Z) : sql Z :=
  if a =? b then Null else Value a.

Definition int_to_numeric : sql Z -> sql numeric :=
  strict1 (fun z => Value (num_of_int z)).

Definition percent (n d : sql Z) (k : nat) : sql numeric :=
  strict1 (fun q => Value (num_round q k))
    (strict2 num_div
       (strict2 (fun a b => Value (num_mul a b)) (Value hundred) (int_to_numeric n))
       (int_to_numeric d)).

(** [sum(x)] of [integer] values, a [bigint], and [AVG(x)] of [bigint]
    values, the [numeric] quotient of their sum by their number; both
    are NULL over no rows. *)
Definition sum_int (xs : list Z) : sql Z :=
  match xs with
  | [] => Null
  | _ => Value (foldr Z.add 0 xs)
  end.

Definition avg_int (xs : list Z) : sql numeric :=
  match xs with
  | [] => Null
  | _ => num_div (num_of_int (foldr Z.add 0 xs)) (num_of_int (Z.of_nat (length xs)))
  end.

(** [count( * ) ... WHERE p]. *)
Definition count_rows {A} (p : A -> bool) (t : list A) : Z :=
  Z.of_nat (length (List.filter p t)).

Definition py_of_bigint (x : sql Z) : value :=
  match x with
  | Value z => VInt z
  | _ => VNone
  end.

(** The integer field [k] of a result row. *)
Definition row_int (k : string) (row : dict) : Z :=
  match row !! k with
  | Some (VInt z) => z
  | _ => 0
  end.

(** *** [get_connection_stats]

<<
  SELECT
    (SELECT count( * ) FROM pg_stat_activity) as current_connections,
    (SELECT setting::int FROM pg_settings
      WHERE name = 'max_connections') as max_connections,
    (SELECT count( * ) FROM pg_stat_activity
      WHERE state = 'active') as active_connections,
    (SELECT count( * ) FROM pg_stat_activity
      WHERE state = 'idle') as idle_connections,
    (SELECT ROUND(100.0 * count( * ) / (SELECT setting::int FROM pg_settings
                                       WHERE name = 'max_connections'))
       FROM pg_stat_activity) as connection_usage_percent
>> *)

(** A row of [pg_stat_activity], as far as the statements of the
    catalog filter on it; a background process has no state. *)
Record activity_row := {
  state : option string;
  wait_event_type : option string;
}.

(** [state = s], NULL counting as false. *)
Definition in_state (s : string) (r : activity_row) : bool :=
  match state r with
  | Some x => String.eqb x s
  | None => false
  end.

(** The one row of the statement, or the error that aborts it;
    [max_connections] is the setting of the server as an integer. *)
Definition connection_query (activity : list activity_row) (max_connections : Z)
  : sql_error + dict :=
  let current := Z.of_nat (length activity) in
  match percent (Value current) (Value max_connections) 0 with
  | Error e => inl e
  | usage =>
      inr (<[ "current_connections" := VInt current ]>
          (<[ "max_connections" := VInt max_connections ]>
          (<[ "active_connections" := VInt (count_rows (in_state "active") activity) ]>
          (<[ "idle_connections" := VInt (count_rows (in_state "idle") activity) ]>
          (<[ "connection_usage_percent" := py_of_numeric usage ]> ∅)))))
  end.

(** *** [get_lock_stats]

<<
  SELECT
    (SELECT count( * ) FROM pg_locks WHERE NOT granted) as blocked_locks,
    (SELECT count( * ) FROM pg_locks WHERE granted) as active_locks,
    (SELECT count( * ) FROM pg_stat_activity
      WHERE wait_event_type IS NOT NULL) as waiting_queries
>> *)



(** *** [get_index_stats]

<<
  SELECT count( * ) as total_indexes,
         sum(CASE WHEN idx_scan = 0 THEN 1 ELSE 0 END) as unused_indexes,
         ROUND(100.0 * sum(CASE WHEN idx_scan = 0 THEN 1 ELSE 0 END)
               / count( * ), 2) as unused_indexes_percent,
         ROUND(AVG(idx_scan)::numeric, 2) as avg_index_scans
  FROM pg_stat_user_indexes
>> *)

(** [CASE WHEN idx_scan = 0 THEN 1 ELSE 0 END]. *)
Definition unused (idx_scan : Z) : Z := if idx_scan =? 0 then 1 else 0.

(** The one row of the statement over the [idx_scan] column of
    [pg_stat_user_indexes] (a [bigint] that is never NULL). *)
Definition index_query (idx_scans : list Z) : sql_error + dict :=
  let total := Z.of_nat (length idx_scans) in
  let unused_indexes := sum_int (unused <$> idx_scans) in
  match percent unused_indexes (Value total) 2,
        strict1 (fun q => Value (num_round q 2)) (avg_int idx_scans) with
  | Error e, _ => inl e
  | _, Error e => inl e
  | unused_percent, avg_scans =>
      inr (<[ "total_indexes" := VInt total ]>
          (<[ "unused_indexes" := py_of_bigint unused_indexes ]>
          (<[ "unused_indexes_percent" := py_of_numeric unused_percent ]>
          (<[ "avg_index_scans" := py_of_numeric avg_scans ]> ∅))))
  end.

(** *** [get_table_bloat]

<<
  SELECT schemaname, relname as table_name,
         n_live_tup as live_rows, n_dead_tup as dead_rows,
         ROUND(100.0 * n_dead_tup
               / NULLIF(n_live_tup + n_dead_tup, 0), 2) as dead_rows_percent,
         pg_size_pretty(pg_total_relation_size(...)) as table_size
  FROM pg_stat_user_tables
  WHERE n_dead_tup > 1000
  ORDER BY n_dead_tup DESC
  LIMIT 10
>> *)

(** A row of [pg_stat_user_tables] with its tuple counters ([bigint],
    never NULL) and the size text the statement prints for the table,
    taken as the server computes it. *)
Record tuples_row := {
  tbl_schemaname : string;
  tbl_relname : string;
  n_live_tup : Z;
  n_dead_tup : Z;
  tbl_size : string;
}.

Definition dead_rows_percent (r : tuples_row) : sql numeric :=
  percent (Value (n_dead_tup r))
    (strict1 (fun total => nullif_int total 0) (int8_add (n_live_tup r) (n_dead_tup r)))
    2.

(** The select list for a row; an error in it aborts the statement. *)
Definition bloat_select (r : tuples_row) : sql_error + dict :=
  match dead_rows_percent r with
  | Error e => inl e
  | pct =>
      inr (<[ "schemaname" := VStr (tbl_schemaname r) ]>
          (<[ "table_name" := VStr (tbl_relname r) ]>
          (<[ "live_rows" := VInt (n_live_tup r) ]>
          (<[ "dead_rows" := VInt (n_dead_tup r) ]>
          (<[ "dead_rows_percent" := py_of_numeric pct ]>
          (<[ "table_size" := VStr (tbl_size r) ]> ∅))))))
  end.

(** A select list over rows, in their order. *)
Fixpoint select_rows {A} (f : A -> sql_error + dict) (t : list A)
  : sql_error + list dict :=
  match t with
  | [] => inr []
  | r :: t' =>
      match f r with
      | inl e => inl e
      | inr row =>
          match select_rows f t' with
          | inl e => inl e
          | inr rows => inr (row :: rows)
          end
      end
  end.

(** [WHERE n_dead_tup > 1000] and [ORDER BY n_dead_tup DESC]. *)
Definition bloated (r : tuples_row) : bool := 1000 <? n_dead_tup r.

Definition dead_desc (a b : tuples_row) : Prop := n_dead_tup b <= n_dead_tup a.

#[export] Instance dead_desc_dec a b : Decision (dead_desc a b).
Proof. unfold dead_desc. apply _. Defined.

(** The rows of the statement: filter, sort, project, keep 10.  The
    percentage is computed for every row the filter keeps, before the
    limit applies. *)
Definition bloat_query (t : list tuples_row) : sql_error + list dict :=
  match select_rows bloat_select (merge_sort dead_desc (List.filter bloated t)) with
  | inl e => inl e
  | inr rows => inr (take 10 rows)
  end.

(** *** [get_table_count_and_stats]

<<
  SELECT count( * ) as total_tables,
         ROUND(AVG(n_live_tup)::numeric, 0) as avg_rows_per_table,
         MAX(n_live_tup) as max_rows_in_table,
         ROUND(AVG(n_dead_tup)::numeric, 0) as avg_dead_rows,
         SUM(n_dead_tup) as total_dead_rows
  FROM pg_stat_user_tables
>> *)

(** [MAX(x)] of [bigint] values, NULL over no rows. *)
Definition max_int (xs : list Z) : sql Z :=
  match xs with
  | [] => Null
  | x :: rest => Value (foldr Z.max x rest)
  end.

(** The one row of the statement, or the error that aborts it. *)
Definition table_query (t : list tuples_row) : sql_error + dict :=
  let live := n_live_tup <$> t in
  let dead := n_dead_tup <$> t in
  match strict1 (fun q => Value (num_round q 0)) (avg_int live),
        strict1 (fun q => Value (num_round q 0)) (avg_int dead) with
  | Error e, _ => inl e
  | _, Error e => inl e
  | avg_live, avg_dead =>
      inr (<[ "total_tables" := VInt (Z.of_nat (length t)) ]>
          (<[ "avg_rows_per_table" := py_of_numeric avg_live ]>
          (<[ "max_rows_in_table" := py_of_bigint (max_int live) ]>
          (<[ "avg_dead_rows" := py_of_numeric avg_dead ]>
          (<[ "total_dead_rows" := py_of_numeric (sum_column (Some <$> dead)) ]> ∅)))))
  end.

(** A result row of the bloat statement: more than 1000 dead rows, and
    the percentage of dead rows among all rows, to two decimals, ties
    away from zero. *)
Definition bloat_row_ok (row : dict) : Prop :=
  exists live dead,
    row !! "live_rows" = Some (VInt live) /\
    row !! "dead_rows" = Some (VInt dead) /\
    1000 < dead /\
    row !! "dead_rows_percent" =
      Some (VDecimal (Dec (div_half_away (10000 * dead) (live + dead)) 2)) /\
    0 <= div_half_away (10000 * dead) (live + dead) <= 10000.

End Sql.

Import Sql.

(** ** The class [PostgreSQLComparativeDiagnostic] and [main] *)

(** [ServerConfig]. *)
Record ServerConfig := {
  name : string;
  host : string;
  database : string;
  user : string;
  password : string;
  port : Z;
}.

(** The two connections of the run, [self.conn1] and [self.conn2]. *)
Inductive conn_id := Conn1 | Conn2.

(** The statements of the catalog, one per [get_*] method. *)
Inductive query :=
| QVersion | QConnections | QCache | QSize | QTables | QIndexes
| QActive | QLongest | QBloat | QAutovacuum | QPerformance
| QLocks | QMemory.

#[global] Instance query_eq_dec : EqDecision query.
Proof. solve_decision. Defined.

(** What a run does to the outside, in order: log lines, a connection
    made, a statement sent on a connection (it may succeed or fail), a
    connection closed, the report file written, lines printed, the
    usage text printed. *)
Inductive event :=
| LogInfo (msg : string)
| LogError (msg : string)
| Connected (c : conn_id)
| Executed (c : conn_id) (q : query)
| Closed (c : conn_id)
| Wrote (path content : string)
| Stdout (text : string)
| Help.

#[local] Set Warnings "-register-all".

(** A document handed to [json.dumps]. *)
Inductive json :=
| JStr (s : string)
| JInt (z : Z)
| JObject (fields : list (string * json)).

(** The errors that leave [main]. *)
Inductive failure :=
| PyError (e : exn)
| OSError (msg : string).

(** How the process ends. *)
Inductive ending :=
| Returned
| SysExit (code : Z)
| Uncaught (e : failure).

Inductive Format := Markdown | Json.

(** The parsed command line, as [parser.parse_args()] returns it when
    it returns (argparse ends the process itself on a request for help
    or a malformed command line): a missing option with no environment
    variable behind it is [None]. *)
Record Args := {
  server1_host : option string;
  server1_db : option string;
  server1_user : option string;
  server1_pass : option string;
  server1_port : Z;
  server2_host : option string;
  server2_db : option string;
  server2_user : option string;
  server2_pass : option string;
  server2_port : Z;
  output : string;
  format : Format;
}.

(** A report section: its heading line and the lines under it. *)
Record section := { heading : string; body : list string }.

Definition section_lines (s : section) : list string := heading s :: body s.

(** *** Sample inputs and a sample runtime *)

(** A runtime whose parsers take no text for a number; the sample rows
    hold no text in their numeric columns. *)
Definition no_float : string -> option float := fun _ => None.
Definition no_int : string -> option Z := fun _ => None.

(** A row of the cache statement with a heap hit percent of [m / 100],
    and a row of the connection statement with a usage of [n] percent. *)
Definition cache_row (m : Z) : dict := {[ "cache_hit_percent" := VDecimal (Dec m 2) ]}.
Definition usage_row (n : Z) : dict := {[ "connection_usage_percent" := VDecimal (Dec n 0) ]}.

(** Two servers that agree on every field the rules read. *)
Definition same_version : dict := {[ "shared_buffers" := VStr "128MB" ]}.
Definition same_index : dict := {[ "unused_indexes_percent" := VDecimal (Dec 0 2) ]}.

(** A row of the index statement with [m / 100] percent of unused
    indexes, and a row of the version statement with a given
    [shared_buffers]. *)
Definition unused_row (m : Z) : dict := {[ "unused_indexes_percent" := VDecimal (Dec m 2) ]}.
Definition buffers_row (setting : string) : dict := {[ "shared_buffers" := VStr setting ]}.

(** The row of the cache statement on a server that has read and hit
    no block yet: zero counters, NULL ratios. *)
Definition idle_cache_row : dict :=
  <[ "heap_read" := VDecimal (Dec 0 0) ]>
  (<[ "heap_hit" := VDecimal (Dec 0 0) ]>
  (<[ "cache_hit_percent" := VNone ]>
  (<[ "idx_read" := VDecimal (Dec 0 0) ]>
  (<[ "idx_hit" := VDecimal (Dec 0 0) ]>
  (<[ "idx_cache_hit_percent" := VNone ]> ∅))))).

(** Stand-ins for [tabulate]: cells separated by bars, one row a line;
    and for rows fetched as dictionaries, the number of rows. *)
Definition bar_table (rows : list (list value)) (headers : list string)
  (fmt : string) : string :=
  join nl (join " | " headers :: ((fun row => join " | " (str <$> row)) <$> rows)).

Definition row_count (rows : list dict) (fmt : string) (widths : list (option Z))
  : string :=
  pretty (length rows) +:+ " rows".

(** A stand-in for [json.dumps]: one line, no escapes. *)
Definition quote : string := String (Ascii.ascii_of_nat 34) EmptyString.

Fixpoint compact_json (doc : json) : string :=
  match doc with
  | JStr s => quote +:+ s +:+ quote
  | JInt z => pretty z
  | JObject fields =>
      "{" +:+
      join ", " ((fun kv => quote +:+ fst kv +:+ quote +:+ ": " +:+ compact_json (snd kv))
                   <$> fields) +:+
      "}"
  end.

(** A server that cannot be reached under one host name; a connection
    is the number of statements that have failed on it, none when it
    is opened. *)
Definition sample_connect (s : ServerConfig) : string + nat :=
  if String.eqb (host s) "unreachable.example.org"
  then inl "connection timed out"
  else inr 0%nat.

(** A database user who may not read the cache statistics, on a
    connection as [psycopg2.connect] opens it, without autocommit, and
    as the program uses it, without a rollback: the connection
    statement gives a row and the others none, until the cache
    statement fails; the transaction is aborted from then on, and the
    server refuses every later statement of that connection. *)
Definition sample_execute (k : nat) (q : query) : nat * (string + list dict) :=
  match k with
  | O =>
      match q with
      | QCache => (1%nat, inl "permission denied for view pg_statio_user_tables")
      | QConnections => (O, inr [usage_row 40])
      | _ => (O, inr [])
      end
  | S _ =>
      (S k,
       inl "current transaction is aborted, commands ignored until end of transaction block")
  end.

Definition always_writable (path content : string) : option string := None.

Definition sample_now : string := "2025-01-01 00:00:00".

Definition sample_args (fmt : Format) (host2 : string) : Args :=
  {| server1_host := Some "fast.example.org";
     server1_db := Some "mydb";
     server1_user := Some "admin";
     server1_pass := Some "pass1";
     server1_port := 5432;
     server2_host := Some host2;
     server2_db := Some "mydb";
     server2_user := Some "admin";
     server2_pass := Some "pass2";
     server2_port := 5432;
     output := "azure_comparison.md";
     format := fmt |}.

(** A configuration for the same endpoint under another name, user
    and password. *)
Definition other_credentials (s : ServerConfig) : ServerConfig :=
  {| name := "replica"; host := host s; database := database s;
     user := "postgres"; password := "secret"; port := port s |}.

(** Three sessions, one of them a background process, and three
    tables, one with few dead rows. *)
Definition sample_activity : list activity_row :=
  [ {| state := Some "active"; wait_event_type := None |};
    {| state := Some "idle"; wait_event_type := Some "Client" |};
    {| state := None; wait_event_type := Some "Activity" |} ].

Definition sample_tuples : list tuples_row :=
  [ {| tbl_schemaname := "public"; tbl_relname := "orders";
       n_live_tup := 9000; n_dead_tup := 3000; tbl_size := "12 MB" |};
    {| tbl_schemaname := "public"; tbl_relname := "users";
       n_live_tup := 500; n_dead_tup := 20; tbl_size := "1 MB" |};
    {| tbl_schemaname := "public"; tbl_relname := "events";
       n_live_tup := 0; n_dead_tup := 5000; tbl_size := "3 MB" |} ].

Section Diagnostic.

(** *** What the program takes from its runtime *)

(** CPython's [float(str)] and [int(str)]. *)
Variable str_to_float : string -> option float.
Variable str_to_int : string -> option Z.

(** [tabulate(rows, headers=[...], tablefmt=...)] and
    [tabulate(rows, headers="keys", tablefmt=..., maxcolwidths=[...])]. *)
Variable tabulate : list (list value) -> list string -> string -> string.
Variable tabulate_keys : list dict -> string -> list (option Z) -> string.

(** [json.dumps(doc, indent=2)]. *)
Variable json_dumps : json -> string.

(** [datetime.now().strftime('%Y-%m-%d %H:%M:%S')]. *)
Variable now : string.

(** A psycopg2 connection, as a state: [psycopg2.connect] opens one or
    fails with a message; running a statement on a cursor moves the
    connection to a new state and fetches rows or fails with a message. *)
Variable Conn : Type.
Variable psycopg2_connect : ServerConfig -> string + Conn.
Variable cursor_execute : Conn -> query -> Conn * (string + list dict).

(** Writing the report file: [None], or the message of the [OSError]. *)
Variable write_file : string -> string -> option string.

(** *** The object and the effects of its methods *)

(** [self.conn1], [self.conn2] ([None] until connected) and the events
    so far. *)
Record world := World {
  conn1 : option Conn;
  conn2 : option Conn;
  trace : list event;
}.

Definition conn_of (w : world) (c : conn_id) : option Conn :=
  match c with
  | Conn1 => conn1 w
  | Conn2 => conn2 w
  end.

Definition set_conn (c : conn_id) (k : Conn) (w : world) : world :=
  match c with
  | Conn1 => World (Some k) (conn2 w) (trace w)
  | Conn2 => World (conn1 w) (Some k) (trace w)
  end.

Definition emit (e : event) (w : world) : world :=
  World (conn1 w) (conn2 w) (trace w ++ [e]).

(** A method body: from the world before to a result and the world
    after. *)
Definition M (A : Type) : Type := world -> A * world.

Definition ret {A} (a : A) : M A := fun w => (a, w).

Definition bind {A B} (m : M A) (k : A -> M B) : M B :=
  fun w => let r := m w in k (fst r) (snd r).

Notation "'do' x <- m ; k" := (bind m (fun x => k))
  (at level 10, x name, m at level 100, k at level 200).

(** [execute_query]: any exception of the cursor is logged and turned
    into the empty list. *)
Definition execute_query (c : conn_id) (q : query) : M (list dict) :=
  fun w =>
    match conn_of w c with
    | None =>
        ([], emit (LogError "Query execution failed: 'NoneType' object has no attribute 'cursor'") w)
    | Some k =>
        let r := cursor_execute k q in
        let w := emit (Executed c q) (set_conn c (fst r) w) in
        match snd r with
        | inr rows => (rows, w)
        | inl e => ([], emit (LogError ("Query execution failed: " +:+ e)) w)
        end
    end.

(** [result[0] if result else {}]. *)
Definition first_or_empty (rows : list dict) : dict :=
  match rows with
  | r :: _ => r
  | [] => ∅
  end.

(** The methods that return one row ... *)
Definition get_row (q : query) (c : conn_id) : M dict :=
  do rows <- execute_query c q; ret (first_or_empty rows).

Definition get_version_info := get_row QVersion.
Definition get_connection_stats := get_row QConnections.
Definition get_cache_hit_ratio := get_row QCache.
Definition get_database_size := get_row QSize.
Definition get_table_count_and_stats := get_row QTables.
Definition get_index_stats := get_row QIndexes.
Definition get_lock_stats := get_row QLocks.
Definition get_memory_stats := get_row QMemory.

(** ... and those that return the rows as fetched. *)
Definition get_active_queries (c : conn_id) := execute_query c QActive.
Definition get_longest_queries (c : conn_id) := execute_query c QLongest.
Definition get_table_bloat (c : conn_id) := execute_query c QBloat.
Definition get_autovacuum_stats (c : conn_id) := execute_query c QAutovacuum.
Definition get_query_performance_issues (c : conn_id) := execute_query c QPerformance.

(** *** [generate_recommendations] *)

(** [float(d.get(k, 0) or 0)] and [int(d.get(k, 0) or 0)]. *)
Definition float_field (d : dict) (k : string) : result float :=
  py_float str_to_float (py_or (dict_get d k (VInt 0)) (VInt 0)).

Definition int_field (d : dict) (k : string) : result Z :=
  py_int str_to_int (py_or (dict_get d k (VInt 0)) (VInt 0)).

(** The three deltas, server 2 minus server 1. *)
Definition cache_diff (cache1 cache2 : dict) : result float :=
  x2 ← float_field cache2 "cache_hit_percent";
  x1 ← float_field cache1 "cache_hit_percent";
  mret (sub x2 x1).

Definition conn_diff (c1 c2 : dict) : result Z :=
  n2 ← int_field c2 "connection_usage_percent";
  n1 ← int_field c1 "connection_usage_percent";
  mret (n2 - n1).

Definition unused_diff (idx1 idx2 : dict) : result float :=
  x2 ← float_field idx2 "unused_indexes_percent";
  x1 ← float_field idx1 "unused_indexes_percent";
  mret (sub x2 x1).

(** The lines each rule appends. *)
Definition cache_title (d : float) : string :=
  "❌ **Cache Hit Ratio**: Server 2 has " +:+ format_1f (abs d) +:+
  "% lower cache hit ratio. This is likely the PRIMARY performance issue.".

Definition cache_critical (d : float) : list string :=
  [ cache_title d;
    "   - **Fix**: Check for missing indexes on Server 2";
    "   - **Fix**: Increase `shared_buffers` and `effective_cache_size` on Server 2";
    "   - **Fix**: Analyze queries with high sequential scans vs index scans" ].

Definition cache_similar : string :=
  "✅ **Cache Hit Ratio**: Similar between servers".

Definition pool_title (d : Z) : string :=
  nl +:+ "❌ **Connection Pool**: Server 2 has " +:+ pretty d +:+
  "% higher connection usage".

Definition pool_advisory (d : Z) : list string :=
  [ pool_title d;
    "   - **Fix**: Identify connection leaks in application";
    "   - **Fix**: Implement connection pooling (PgBouncer)" ].

Definition index_advisory (d : float) : list string :=
  [ nl +:+ "❌ **Index Usage**: Server 2 has " +:+ format_1f d +:+
    "% more unused indexes";
    "   - **Fix**: Drop unused indexes to free disk space and improve writes" ].

Definition memory_advisory (sb1 sb2 : value) : list string :=
  [ nl +:+ "⚠️ **Memory Config**: Different `shared_buffers` settings";
    "   - Server 1: " +:+ str sb1;
    "   - Server 2: " +:+ str sb2;
    "   - **Fix**: Align settings or upgrade Server 2 configuration" ].

Definition no_major_differences : string :=
  "✅ No major differences found. Issue may be application-level or related to data patterns.".

(** The list [recommendations] at the [return]: the rules run in the
    order of the source, each appending to the list built so far. *)
Definition recommendations (v1 v2 cache1 cache2 c1 c2 idx1 idx2 : dict)
  : result (list string) :=
  let recs : list string := [] in
  (* Cache hit ratio analysis *)
  cd ← cache_diff cache1 cache2;
  let recs :=
    if ltb cd (of_Z (-10)) then recs ++ cache_critical cd
    else recs ++ [cache_similar] in
  (* Connection usage *)
  nd ← conn_diff c1 c2;
  let recs := if 20 <? nd then recs ++ pool_advisory nd else recs in
  (* Index issues *)
  ud ← unused_diff idx1 idx2;
  let recs := if ltb (of_Z 5) ud then recs ++ index_advisory ud else recs in
  (* Memory configuration *)
  let sb1 := dict_get_none v1 "shared_buffers" in
  let sb2 := dict_get_none v2 "shared_buffers" in
  let recs :=
    if negb (py_eq sb1 sb2) then recs ++ memory_advisory sb1 sb2 else recs in
  let recs :=
    match recs with
    | [] => recs ++ [no_major_differences]
    | _ => recs
    end in
  mret recs.

Definition generate_recommendations (v1 v2 cache1 cache2 c1 c2 idx1 idx2 : dict)
  : result string :=
  recs ← recommendations v1 v2 cache1 cache2 c1 c2 idx1 idx2;
  mret (join nl recs).

(** *** [generate_markdown_report] *)

(** [d.get(k, 'N/A')], and the same inside a percent cell
    [f"{d.get(k, 'N/A')}%"]. *)
Definition na : value := VStr "N/A".

Definition cell (d : dict) (k : string) : value := dict_get d k na.

Definition percent_cell (d : dict) (k : string) : value :=
  VStr (str (dict_get d k na) +:+ "%").

Definition tablefmt : string := "markdown".

Definition parameter_headers : list string := ["Parameter"; "Server 1"; "Server 2"].
Definition metric_headers : list string := ["Metric"; "Server 1"; "Server 2"].

Definition version_table (v1 v2 : dict) : list (list value) :=
  [ [VStr "PostgreSQL Version"; cell v1 "pg_version"; cell v2 "pg_version"];
    [VStr "Max Connections"; cell v1 "max_connections"; cell v2 "max_connections"];
    [VStr "Shared Buffers"; cell v1 "shared_buffers"; cell v2 "shared_buffers"];
    [VStr "Effective Cache Size"; cell v1 "effective_cache_size"; cell v2 "effective_cache_size"];
    [VStr "Work Memory"; cell v1 "work_mem"; cell v2 "work_mem"];
    [VStr "Random Page Cost"; cell v1 "random_page_cost"; cell v2 "random_page_cost"];
    [VStr "Effective IO Concurrency"; cell v1 "effective_io_concurrency"; cell v2 "effective_io_concurrency"];
    [VStr "Synchronous Commit"; cell v1 "synchronous_commit"; cell v2 "synchronous_commit"] ].

Definition conn_table (c1 c2 : dict) : list (list value) :=
  [ [VStr "Current Connections"; cell c1 "current_connections"; cell c2 "current_connections"];
    [VStr "Max Connections"; cell c1 "max_connections"; cell c2 "max_connections"];
    [VStr "Active Connections"; cell c1 "active_connections"; cell c2 "active_connections"];
    [VStr "Idle Connections"; cell c1 "idle_connections"; cell c2 "idle_connections"];
    [VStr "Connection Usage %"; percent_cell c1 "connection_usage_percent";
     percent_cell c2 "connection_usage_percent"] ].

Definition cache_table (cache1 cache2 : dict) : list (list value) :=
  [ [VStr "Heap Cache Hit %"; percent_cell cache1 "cache_hit_percent";
     percent_cell cache2 "cache_hit_percent"];
    [VStr "Index Cache Hit %"; percent_cell cache1 "idx_cache_hit_percent";
     percent_cell cache2 "idx_cache_hit_percent"];
    [VStr "Heap Blocks Read"; cell cache1 "heap_read"; cell cache2 "heap_read"];
    [VStr "Heap Blocks Hit"; cell cache1 "heap_hit"; cell cache2 "heap_hit"] ].

Definition size_table (db1 db2 : dict) : list (list value) :=
  [ [VStr "Database Size"; cell db1 "database_size"; cell db2 "database_size"] ].

Definition table_stats (tbl1 tbl2 : dict) : list (list value) :=
  [ [VStr "Total Tables"; cell tbl1 "total_tables"; cell tbl2 "total_tables"];
    [VStr "Avg Rows per Table"; cell tbl1 "avg_rows_per_table"; cell tbl2 "avg_rows_per_table"];
    [VStr "Max Rows in Table"; cell tbl1 "max_rows_in_table"; cell tbl2 "max_rows_in_table"];
    [VStr "Total Dead Rows"; cell tbl1 "total_dead_rows"; cell tbl2 "total_dead_rows"] ].

Definition index_stats (idx1 idx2 : dict) : list (list value) :=
  [ [VStr "Total Indexes"; cell idx1 "total_indexes"; cell idx2 "total_indexes"];
    [VStr "Unused Indexes"; cell idx1 "unused_indexes"; cell idx2 "unused_indexes"];
    [VStr "Unused Indexes %"; percent_cell idx1 "unused_indexes_percent";
     percent_cell idx2 "unused_indexes_percent"];
    [VStr "Avg Index Scans"; cell idx1 "avg_index_scans"; cell idx2 "avg_index_scans"] ].

Definition lock_stats (lock1 lock2 : dict) : list (list value) :=
  [ [VStr "Blocked Locks"; cell lock1 "blocked_locks"; cell lock2 "blocked_locks"];
    [VStr "Active Locks"; cell lock1 "active_locks"; cell lock2 "active_locks"];
    [VStr "Waiting Queries"; cell lock1 "waiting_queries"; cell lock2 "waiting_queries"] ].

Definition mem_table (mem1 mem2 : dict) : list (list value) :=
  [ [VStr "Shared Buffers"; cell mem1 "shared_buffers"; cell mem2 "shared_buffers"];
    [VStr "Effective Cache Size"; cell mem1 "effective_cache_size"; cell mem2 "effective_cache_size"];
    [VStr "Work Memory"; cell mem1 "work_mem"; cell mem2 "work_mem"];
    [VStr "Maintenance Work Memory"; cell mem1 "maintenance_work_mem"; cell mem2 "maintenance_work_mem"] ].

(** The lines of a server's part in a section of fetched rows:
    [if rows: <title with the count>, <table> else: <sentence>]. *)
Definition rows_or_sentence (rows : list dict) (title : nat -> string)
  (widths : list (option Z)) (sentence : string) : list string :=
  match rows with
  | [] => [sentence]
  | _ => [title (length rows); tabulate_keys rows tablefmt widths]
  end.

Definition active_widths : list (option Z) := [None; None; None; Some 10; Some 60].
Definition longest_widths : list (option Z) := [None; None; Some 10; Some 60].
Definition bloat_widths : list (option Z) := [None; Some 30; None; None; None; None; None].
Definition perf_widths : list (option Z) := [None; Some 30; None; None; None; Some 20; None].
Definition vacuum_widths : list (option Z) :=
  [None; Some 30; None; None; None; None; None; None; None; None; None].

(** The heading lines, in the order the report gives them. *)
Definition section_headings : list string :=
  [ "## 📊 Server Information" +:+ nl;
    "## 🔧 PostgreSQL Version & Configuration" +:+ nl;
    "## 🔌 Connection Statistics" +:+ nl;
    "## 💾 Cache Hit Ratio (CRITICAL)" +:+ nl;
    "## 📦 Database Size" +:+ nl;
    "## 📋 Table Statistics" +:+ nl;
    "## 📑 Index Statistics" +:+ nl;
    "## 🔒 Lock Statistics" +:+ nl;
    "## ⚡ Active Queries Now" +:+ nl;
    "## ⏱️ Long Running Queries" +:+ nl;
    "## 🗑️ Table Bloat (Dead Rows)" +:+ nl;
    "## ⚠️ Query Performance Issues" +:+ nl;
    "## 🧹 Autovacuum Statistics" +:+ nl;
    "## 💾 Memory Configuration" +:+ nl;
    "## 🎯 Analysis & Recommendations" +:+ nl +:+ nl ].

Definition endpoint (s : ServerConfig) : string :=
  host s +:+ ":" +:+ pretty (port s) +:+ "/" +:+ database s.

(** The blocks of [generate_markdown_report], one per section comment
    of the source: the heading line and what the block appends under
    it. *)
Definition server_section (server1 server2 : ServerConfig) : section :=
  {| heading := "## 📊 Server Information" +:+ nl;
     body := [ "- **Server 1 (Fast):** " +:+ endpoint server1;
               "- **Server 2 (Slow):** " +:+ endpoint server2 +:+ nl ] |}.

Definition version_section (v1 v2 : dict) : section :=
  {| heading := "## 🔧 PostgreSQL Version & Configuration" +:+ nl;
     body := [ tabulate (version_table v1 v2) parameter_headers tablefmt; nl ] |}.

Definition connection_section (c1 c2 : dict) : section :=
  {| heading := "## 🔌 Connection Statistics" +:+ nl;
     body := [ tabulate (conn_table c1 c2) metric_headers tablefmt; nl ] |}.

Definition cache_section (cache1 cache2 : dict) : section :=
  {| heading := "## 💾 Cache Hit Ratio (CRITICAL)" +:+ nl;
     body := [ tabulate (cache_table cache1 cache2) metric_headers tablefmt;
               nl +:+ "> ⚠️ **Cache hit ratio should be >95%**. Lower values indicate missing indexes or insufficient memory." +:+ nl ] |}.

Definition size_section (db1 db2 : dict) : section :=
  {| heading := "## 📦 Database Size" +:+ nl;
     body := [ tabulate (size_table db1 db2) metric_headers tablefmt; nl ] |}.

Definition table_section (tbl1 tbl2 : dict) : section :=
  {| heading := "## 📋 Table Statistics" +:+ nl;
     body := [ tabulate (table_stats tbl1 tbl2) metric_headers tablefmt; nl ] |}.

Definition index_section (idx1 idx2 : dict) : section :=
  {| heading := "## 📑 Index Statistics" +:+ nl;
     body := [ tabulate (index_stats idx1 idx2) metric_headers tablefmt; nl ] |}.

Definition lock_section (lock1 lock2 : dict) : section :=
  {| heading := "## 🔒 Lock Statistics" +:+ nl;
     body := [ tabulate (lock_stats lock1 lock2) metric_headers tablefmt; nl ] |}.

Definition active_section (act1 act2 : list dict) : section :=
  {| heading := "## ⚡ Active Queries Now" +:+ nl;
     body :=
       rows_or_sentence act1
         (fun n => nl +:+ "### Server 1 (" +:+ pretty n +:+ " active)" +:+ nl)
         active_widths (nl +:+ "### Server 1: No active queries" +:+ nl) ++
       rows_or_sentence act2
         (fun n => nl +:+ "### Server 2 (" +:+ pretty n +:+ " active)" +:+ nl)
         active_widths (nl +:+ "### Server 2: No active queries" +:+ nl) ++
       [nl] |}.

Definition longest_section (long1 long2 : list dict) : section :=
  {| heading := "## ⏱️ Long Running Queries" +:+ nl;
     body :=
       rows_or_sentence long1
         (fun n => nl +:+ "### Server 1 (" +:+ pretty n +:+ " queries)" +:+ nl)
         longest_widths (nl +:+ "### Server 1: No long running queries" +:+ nl) ++
       rows_or_sentence long2
         (fun n => nl +:+ "### Server 2 (" +:+ pretty n +:+ " queries)" +:+ nl)
         longest_widths (nl +:+ "### Server 2: No long running queries" +:+ nl) ++
       [nl] |}.

Definition bloat_section (bloat1 bloat2 : list dict) : section :=
  {| heading := "## 🗑️ Table Bloat (Dead Rows)" +:+ nl;
     body :=
       rows_or_sentence bloat1
         (fun n => nl +:+ "### Server 1 (Tables with >1000 dead rows: " +:+ pretty n +:+ ")" +:+ nl)
         bloat_widths (nl +:+ "### Server 1: No significant table bloat" +:+ nl) ++
       rows_or_sentence bloat2
         (fun n => nl +:+ "### Server 2 (Tables with >1000 dead rows: " +:+ pretty n +:+ ")" +:+ nl)
         bloat_widths (nl +:+ "### Server 2: No significant table bloat" +:+ nl) ++
       [nl] |}.

Definition performance_section (perf1 perf2 : list dict) : section :=
  {| heading := "## ⚠️ Query Performance Issues" +:+ nl;
     body :=
       rows_or_sentence perf1
         (fun n => nl +:+ "### Server 1 (Issues found: " +:+ pretty n +:+ ")" +:+ nl)
         perf_widths (nl +:+ "### Server 1: No query performance issues detected" +:+ nl) ++
       rows_or_sentence perf2
         (fun n => nl +:+ "### Server 2 (Issues found: " +:+ pretty n +:+ ")" +:+ nl)
         perf_widths (nl +:+ "### Server 2: No query performance issues detected" +:+ nl) ++
       [nl] |}.

(** The autovacuum block has no [else]: [if vac: <title>, <table of
    vac[:5]>]. *)
Definition vacuum_rows (vac : list dict) (title : string) : list string :=
  match vac with
  | [] => []
  | _ => [title; tabulate_keys (take 5 vac) tablefmt vacuum_widths]
  end.

Definition autovacuum_section (vac1 vac2 : list dict) : section :=
  {| heading := "## 🧹 Autovacuum Statistics" +:+ nl;
     body :=
       vacuum_rows vac1 (nl +:+ "### Server 1" +:+ nl) ++
       vacuum_rows vac2 (nl +:+ "### Server 2" +:+ nl) ++
       [nl] |}.

Definition memory_section (mem1 mem2 : dict) : section :=
  {| heading := "## 💾 Memory Configuration" +:+ nl;
     body := [ tabulate (mem_table mem1 mem2) parameter_headers tablefmt; nl ] |}.

Definition recommendations_section (recs : string) : section :=
  {| heading := "## 🎯 Analysis & Recommendations" +:+ nl +:+ nl;
     body := [ recs; nl ] |}.

Definition report_title : list string :=
  [ "# PostgreSQL Comparative Diagnostic Report";
    nl +:+ "**Generated:** " +:+ now +:+ nl ].

(** [generate_markdown_report]: the statements run in the order of the
    source, two per block, and each block appends its lines to
    [report]; an exception of [generate_recommendations] leaves the
    method. *)
Definition generate_markdown_report (server1 server2 : ServerConfig)
  : M (result string) :=
  let report := report_title in
  (* Server info *)
  let report := report ++ section_lines (server_section server1 server2) in
  (* Version comparison *)
  do v1 <- get_version_info Conn1;
  do v2 <- get_version_info Conn2;
  let report := report ++ section_lines (version_section v1 v2) in
  (* Connection stats *)
  do c1 <- get_connection_stats Conn1;
  do c2 <- get_connection_stats Conn2;
  let report := report ++ section_lines (connection_section c1 c2) in
  (* Cache hit ratio (CRITICAL!) *)
  do cache1 <- get_cache_hit_ratio Conn1;
  do cache2 <- get_cache_hit_ratio Conn2;
  let report := report ++ section_lines (cache_section cache1 cache2) in
  (* Database size *)
  do db1 <- get_database_size Conn1;
  do db2 <- get_database_size Conn2;
  let report := report ++ section_lines (size_section db1 db2) in
  (* Table statistics *)
  do tbl1 <- get_table_count_and_stats Conn1;
  do tbl2 <- get_table_count_and_stats Conn2;
  let report := report ++ section_lines (table_section tbl1 tbl2) in
  (* Index statistics *)
  do idx1 <- get_index_stats Conn1;
  do idx2 <- get_index_stats Conn2;
  let report := report ++ section_lines (index_section idx1 idx2) in
  (* Lock statistics *)
  do lock1 <- get_lock_stats Conn1;
  do lock2 <- get_lock_stats Conn2;
  let report := report ++ section_lines (lock_section lock1 lock2) in
  (* Active queries *)
  do act1 <- get_active_queries Conn1;
  do act2 <- get_active_queries Conn2;
  let report := report ++ section_lines (active_section act1 act2) in
  (* Long running queries *)
  do long1 <- get_longest_queries Conn1;
  do long2 <- get_longest_queries Conn2;
  let report := report ++ section_lines (longest_section long1 long2) in
  (* Table bloat *)
  do bloat1 <- get_table_bloat Conn1;
  do bloat2 <- get_table_bloat Conn2;
  let report := report ++ section_lines (bloat_section bloat1 bloat2) in
  (* Query performance issues *)
  do perf1 <- get_query_performance_issues Conn1;
  do perf2 <- get_query_performance_issues Conn2;
  let report := report ++ section_lines (performance_section perf1 perf2) in
  (* Autovacuum stats *)
  do vac1 <- get_autovacuum_stats Conn1;
  do vac2 <- get_autovacuum_stats Conn2;
  let report := report ++ section_lines (autovacuum_section vac1 vac2) in
  (* Memory configuration *)
  do mem1 <- get_memory_stats Conn1;
  do mem2 <- get_memory_stats Conn2;
  let report := report ++ section_lines (memory_section mem1 mem2) in
  (* Analysis & recommendations *)
  ret (recs ← generate_recommendations v1 v2 cache1 cache2 c1 c2 idx1 idx2;
       mret (join nl (report ++ section_lines (recommendations_section recs)))).

(** *** [connect] and [close] *)

(** [__init__] and [connect]: each server in turn; a connection that
    cannot be made is logged and ends the process with [sys.exit(1)],
    returned here as the exit code. *)
Definition connect (server1 server2 : ServerConfig) : M (option Z) :=
  fun w =>
    let w := World None None (trace w) in
    match psycopg2_connect server1 with
    | inl e =>
        (Some 1, emit (LogError ("❌ Failed to connect to " +:+ name server1 +:+ ": " +:+ e)) w)
    | inr k1 =>
        let w := emit (Connected Conn1) (set_conn Conn1 k1 w) in
        let w := emit (LogInfo ("✅ Connected to " +:+ name server1)) w in
        match psycopg2_connect server2 with
        | inl e =>
            (Some 1, emit (LogError ("❌ Failed to connect to " +:+ name server2 +:+ ": " +:+ e)) w)
        | inr k2 =>
            let w := emit (Connected Conn2) (set_conn Conn2 k2 w) in
            (None, emit (LogInfo ("✅ Connected to " +:+ name server2)) w)
        end
    end.

(** [close]: each connection that is set is closed. *)
Definition close : M unit :=
  fun w =>
    let w := match conn1 w with Some _ => emit (Closed Conn1) w | None => w end in
    let w := match conn2 w with Some _ => emit (Closed Conn2) w | None => w end in
    (tt, w).

(** *** [main] *)

Definition required_args (a : Args) : list (option string) :=
  [ server1_host a; server1_db a; server1_user a; server1_pass a;
    server2_host a; server2_db a; server2_user a; server2_pass a ].

(** Truth of an argument in [all(required_args)]: given and not empty. *)
Definition given (x : option string) : bool :=
  match x with
  | Some s => negb (String.eqb s "")
  | None => false
  end.

Definition make_server1 (a : Args) : ServerConfig :=
  {| name := "Server1-Fast";
     host := default "" (server1_host a);
     database := default "" (server1_db a);
     user := default "" (server1_user a);
     password := default "" (server1_pass a);
     port := server1_port a |}.

Definition make_server2 (a : Args) : ServerConfig :=
  {| name := "Server2-Slow";
     host := default "" (server2_host a);
     database := default "" (server2_db a);
     user := default "" (server2_user a);
     password := default "" (server2_pass a);
     port := server2_port a |}.

(** [server.__dict__], in the order of the dataclass fields. *)
Definition config_json (s : ServerConfig) : json :=
  JObject [ ("name", JStr (name s)); ("host", JStr (host s));
            ("database", JStr (database s)); ("user", JStr (user s));
            ("password", JStr (password s)); ("port", JInt (port s)) ].

Definition json_document (server1 server2 : ServerConfig) : json :=
  JObject [ ("server1", config_json server1);
            ("server2", config_json server2);
            ("report", JStr "JSON format not yet implemented") ].

(** The body of the [try]: build the report, write it, announce it. *)
Definition run_report (a : Args) (server1 server2 : ServerConfig) : M ending :=
  do report <-
    match format a with
    | Markdown => generate_markdown_report server1 server2
    | Json => ret (Ok (json_dumps (json_document server1 server2)))
    end;
  match report with
  | Raise e => ret (Uncaught (PyError e))
  | Ok text =>
      fun w =>
        match write_file (output a) text with
        | Some msg => (Uncaught (OSError msg), w)
        | None =>
            let w := emit (Wrote (output a) text) w in
            let w := emit (LogInfo ("✅ Report saved to: " +:+ output a)) w in
            let w := emit (Stdout (nl +:+ "📊 Report generated successfully!")) w in
            (Returned, emit (Stdout ("📄 File: " +:+ output a)) w)
        end
  end.

(** [main], from the return of [parse_args] on: the events of the run
    and how the process ends. *)
Definition main (a : Args) : list event * ending :=
  if negb (forallb given (required_args a)) then
    ([ Help;
       LogError "❌ Missing required arguments. Use environment variables or command-line args." ],
     SysExit 1)
  else
    let server1 := make_server1 a in
    let server2 := make_server2 a in
    (* Run diagnostic *)
    let w := World None None [LogInfo "🚀 Starting comparative diagnostic..."] in
    let started := connect server1 server2 w in
    match fst started with
    | Some code => (trace (snd started), SysExit code)
    | None =>
        (* try: ... finally: diag.close() *)
        let done := run_report a server1 server2 (snd started) in
        let closed := close (snd done) in
        (trace (snd closed), fst done)
    end.

(** *** Vocabulary of the properties *)

(** A value [float()] and [int()] accept without raising, text apart:
    [None] only ever reaches them replaced by [0]. *)
Definition is_number (v : value) : bool :=
  match v with
  | VNone | VDecimal _ => true
  | VInt z => is_finite (of_Z z)
  | VStr _ => false
  end.

(** The field [k] of [d] is absent or numeric, as every column of the
    connection, cache and index statements is. *)
Definition numeric_column (d : dict) (k : string) : bool :=
  match d !! k with
  | None => true
  | Some v => is_number v
  end.

(** The percentages [generate_recommendations] converts with [float()]
    are numeric, and so are all the fields it converts. *)
Definition percentages_numeric (cache1 cache2 idx1 idx2 : dict) : bool :=
  numeric_column cache1 "cache_hit_percent" &&
  numeric_column cache2 "cache_hit_percent" &&
  numeric_column idx1 "unused_indexes_percent" &&
  numeric_column idx2 "unused_indexes_percent".

Definition inputs_numeric (cache1 cache2 c1 c2 idx1 idx2 : dict) : bool :=
  percentages_numeric cache1 cache2 idx1 idx2 &&
  numeric_column c1 "connection_usage_percent" &&
  numeric_column c2 "connection_usage_percent".

(** The connection usage is a whole number, as [ROUND(...)] without a
    scale returns it, or absent. *)
Definition whole_usage (c : dict) : bool :=
  match c !! "connection_usage_percent" with
  | None | Some VNone | Some (VInt _) => true
  | Some (VDecimal d) => (scale d =? 0)%nat
  | Some (VStr _) => false
  end.

(** The connection usage percent of a server, a missing one read as 0. *)
Definition usage_percent (c : dict) : Z :=
  match c !! "connection_usage_percent" with
  | Some (VInt z) => z
  | Some (VDecimal d) => unscaled d
  | _ => 0
  end.

(** Some line starts with [p]. *)
Definition has_line (p : string) (lines : list string) : bool :=
  existsb (startswith p) lines.

Definition cache_critical_mark : string := "❌ **Cache Hit Ratio**".
Definition pool_mark : string := nl +:+ "❌ **Connection Pool**".

(** The lines of the rules for given deltas and settings. *)
Definition advisories (cd : float) (nd : Z) (ud : float) (sb1 sb2 : value)
  : list string :=
  (if ltb cd (of_Z (-10)) then cache_critical cd else [cache_similar]) ++
  (if 20 <? nd then pool_advisory nd else []) ++
  (if ltb (of_Z 5) ud then index_advisory ud else []) ++
  (if negb (py_eq sb1 sb2) then memory_advisory sb1 sb2 else []).

(** *** Vocabulary of the report properties *)

(** What the 26 statements of a report run returned. *)
Record snapshot := Snapshot {
  version1 : dict; version2 : dict;
  connections1 : dict; connections2 : dict;
  cache_1 : dict; cache_2 : dict;
  size1 : dict; size2 : dict;
  tables1 : dict; tables2 : dict;
  indexes1 : dict; indexes2 : dict;
  locks1 : dict; locks2 : dict;
  active1 : list dict; active2 : list dict;
  longest1 : list dict; longest2 : list dict;
  bloat1 : list dict; bloat2 : list dict;
  issues1 : list dict; issues2 : list dict;
  vacuum1 : list dict; vacuum2 : list dict;
  memory1 : dict; memory2 : dict;
}.

(** The statements of [generate_markdown_report], in its order. *)
Definition collect : M snapshot :=
  do v1 <- get_version_info Conn1;
  do v2 <- get_version_info Conn2;
  do c1 <- get_connection_stats Conn1;
  do c2 <- get_connection_stats Conn2;
  do cache1 <- get_cache_hit_ratio Conn1;
  do cache2 <- get_cache_hit_ratio Conn2;
  do db1 <- get_database_size Conn1;
  do db2 <- get_database_size Conn2;
  do tbl1 <- get_table_count_and_stats Conn1;
  do tbl2 <- get_table_count_and_stats Conn2;
  do idx1 <- get_index_stats Conn1;
  do idx2 <- get_index_stats Conn2;
  do lock1 <- get_lock_stats Conn1;
  do lock2 <- get_lock_stats Conn2;
  do act1 <- get_active_queries Conn1;
  do act2 <- get_active_queries Conn2;
  do long1 <- get_longest_queries Conn1;
  do long2 <- get_longest_queries Conn2;
  do bloat1 <- get_table_bloat Conn1;
  do bloat2 <- get_table_bloat Conn2;
  do perf1 <- get_query_performance_issues Conn1;
  do perf2 <- get_query_performance_issues Conn2;
  do vac1 <- get_autovacuum_stats Conn1;
  do vac2 <- get_autovacuum_stats Conn2;
  do mem1 <- get_memory_stats Conn1;
  do mem2 <- get_memory_stats Conn2;
  ret (Snapshot v1 v2 c1 c2 cache1 cache2 db1 db2 tbl1 tbl2 idx1 idx2
         lock1 lock2 act1 act2 long1 long2 bloat1 bloat2 perf1 perf2
         vac1 vac2 mem1 mem2).

(** The sections of the report for a snapshot and the text of the
    recommendations. *)
Definition report_sections (server1 server2 : ServerConfig) (s : snapshot)
  (recs : string) : list section :=
  [ server_section server1 server2;
    version_section (version1 s) (version2 s);
    connection_section (connections1 s) (connections2 s);
    cache_section (cache_1 s) (cache_2 s);
    size_section (size1 s) (size2 s);
    table_section (tables1 s) (tables2 s);
    index_section (indexes1 s) (indexes2 s);
    lock_section (locks1 s) (locks2 s);
    active_section (active1 s) (active2 s);
    longest_section (longest1 s) (longest2 s);
    bloat_section (bloat1 s) (bloat2 s);
    performance_section (issues1 s) (issues2 s);
    autovacuum_section (vacuum1 s) (vacuum2 s);
    memory_section (memory1 s) (memory2 s);
    recommendations_section recs ].

(** The report text for a snapshot. *)
Definition render (server1 server2 : ServerConfig) (s : snapshot) : result string :=
  recs ← generate_recommendations (version1 s) (version2 s) (cache_1 s) (cache_2 s)
           (connections1 s) (connections2 s) (indexes1 s) (indexes2 s);
  mret (join nl (report_title ++
                 flat_map section_lines (report_sections server1 server2 s recs))).

(** The statements a trace ran, in order. *)
Fixpoint executed (tr : list event) : list (conn_id * query) :=
  match tr with
  | [] => []
  | Executed c q :: tr' => (c, q) :: executed tr'
  | _ :: tr' => executed tr'
  end.

(** The error lines a trace logged, in order. *)
Fixpoint errors (tr : list event) : list string :=
  match tr with
  | [] => []
  | LogError msg :: tr' => msg :: errors tr'
  | _ :: tr' => errors tr'
  end.

(** The connections a trace closed, in order. *)
Fixpoint closed (tr : list event) : list conn_id :=
  match tr with
  | [] => []
  | Closed c :: tr' => c :: closed tr'
  | _ :: tr' => closed tr'
  end.

(** The files a trace wrote, in order. *)
Fixpoint written (tr : list event) : list (string * string) :=
  match tr with
  | [] => []
  | Wrote path content :: tr' => (path, content) :: written tr'
  | _ :: tr' => written tr'
  end.

(** Every statement of the catalog, on server 1 then on server 2. *)
Definition catalog_order : list (conn_id * query) :=
  flat_map (fun q => [(Conn1, q); (Conn2, q)])
    [ QVersion; QConnections; QCache; QSize; QTables; QIndexes; QLocks;
      QActive; QLongest; QBloat; QPerformance; QAutovacuum; QMemory ].

(** Both connections of the object are set. *)
Definition connected (w : world) : Prop :=
  is_Some (conn1 w) /\ is_Some (conn2 w).

(** The rows the server returns hold numbers (or NULL) in the three
    columns the rules convert, as the statements' column types say. *)
Definition row_numeric (r : dict) : bool :=
  numeric_column r "cache_hit_percent" &&
  numeric_column r "connection_usage_percent" &&
  numeric_column r "unused_indexes_percent".


(** A postcondition of a method run from [w]. *)
Definition wp {A} (m : M A) (Q : A -> world -> Prop) (w : world) : Prop :=
  Q (fst (m w)) (snd (m w)).


Definition placeholder (v : value) : bool :=
  match v with
  | VStr s => String.eqb s "N/A" || String.eqb s "N/A%"
  | _ => false
  end.



(** *** Vocabulary of the further properties *)

Definition index_mark : string := nl +:+ "❌ **Index Usage**".
Definition memory_mark : string := nl +:+ "⚠️ **Memory Config**".

(** The field [k] of a row is missing or NULL: the statement failed or
    gave no row, or the column is NULL. *)
Definition unavailable (d : dict) (k : string) : Prop :=
  d !! k = None \/ d !! k = Some VNone.

(** Two decimal digits, a leading zero included. *)
Definition two_digits (n : Z) : string :=
  (if n <? 10 then "0" else "") +:+ pretty n.

(** The object once [connect] has made both connections in [main]. *)
Definition connected_world (k1 k2 : Conn) : world :=
  World (Some k1) (Some k2)
    [ LogInfo "🚀 Starting comparative diagnostic...";
      Connected Conn1;
      LogInfo "✅ Connected to Server1-Fast";
      Connected Conn2;
      LogInfo "✅ Connected to Server2-Slow" ].

(** The events of running statements: a statement sent, an error
    logged. *)
Definition statement_event (e : event) : bool :=
  match e with
  | Executed _ _ | LogError _ => true
  | _ => false
  end.

(** From [w] to [w'] the object has stayed connected and has done
    nothing but run the statements [qs], logging at most one error for
    each. *)
Definition ran (w w' : world) (qs : list (conn_id * query)) : Prop :=
  connected w' /\
  exists evs,
    trace w' = trace w ++ evs /\
    forallb statement_event evs = true /\
    executed evs = qs /\
    (length (errors evs) <= length qs)%nat.

(** A row without the columns [ks]. *)
Definition without (ks : list string) (d : dict) : dict :=
  foldr (fun k d' => delete k d') d ks.

(** A snapshot without the columns that the statements select and no
    table of the report shows: [version], [maintenance_work_mem] and
    [wal_level] of the version statement, [idx_read] and [idx_hit] of
    the cache statement, [database_size_bytes], [avg_dead_rows], and
    [shared_buffers_level] of the memory statement. *)
Definition shown_only (s : snapshot) : snapshot :=
  let version := without ["version"; "maintenance_work_mem"; "wal_level"] in
  let cache := without ["idx_read"; "idx_hit"] in
  let size := without ["database_size_bytes"] in
  let tables := without ["avg_dead_rows"] in
  let memory := without ["shared_buffers_level"] in
  Snapshot (version (version1 s)) (version (version2 s))
    (connections1 s) (connections2 s)
    (cache (cache_1 s)) (cache (cache_2 s))
    (size (size1 s)) (size (size2 s))
    (tables (tables1 s)) (tables (tables2 s))
    (indexes1 s) (indexes2 s)
    (locks1 s) (locks2 s)
    (active1 s) (active2 s)
    (longest1 s) (longest2 s)
    (bloat1 s) (bloat2 s)
    (issues1 s) (issues2 s)
    (vacuum1 s) (vacuum2 s)
    (memory (memory1 s)) (memory (memory2 s)).

(** What a snapshot holds of one server: the rows of its 13
    statements. *)
Definition rows_of (c : conn_id) (s : snapshot)
  : list dict * list (list dict) :=
  match c with
  | Conn1 =>
      ([ version1 s; connections1 s; cache_1 s; size1 s; tables1 s; indexes1 s;
         locks1 s; memory1 s ],
       [ active1 s; longest1 s; bloat1 s; issues1 s; vacuum1 s ])
  | Conn2 =>
      ([ version2 s; connections2 s; cache_2 s; size2 s; tables2 s; indexes2 s;
         locks2 s; memory2 s ],
       [ active2 s; longest2 s; bloat2 s; issues2 s; vacuum2 s ])
  end.

(** A postcondition of two runs, from [w] and from [w']. *)
Definition wp2 {A B} (m : M A) (m' : M B)
  (Q : A -> world -> B -> world -> Prop) (w w' : world) : Prop :=
  Q (fst (m w)) (snd (m w)) (fst (m' w')) (snd (m' w')).

(** *** Vocabulary of the answers of a run *)

(** The statements of one connection, in the order a report run sends
    them, and those sent before [q]. *)
Definition catalog : list query :=
  [ QVersion; QConnections; QCache; QSize; QTables; QIndexes; QLocks;
    QActive; QLongest; QBloat; QPerformance; QAutovacuum; QMemory ].

Fixpoint before (q : query) (qs : list query) : list query :=
  match qs with
  | [] => []
  | q' :: qs' => if decide (q' = q) then [] else q' :: before q qs'
  end.


(** The connection [k] once the statements [qs] have run on it. *)
Definition state_after (k : Conn) (qs : list query) : Conn :=
  foldl (fun k q => fst (cursor_execute k q)) k qs.

(** What the server answers to [q] in a report run on a connection
    that the run finds in state [k]: the rows, or the message of the
    failure. *)
Definition answer (k : Conn) (q : query) : string + list dict :=
  snd (cursor_execute (state_after k (before q catalog)) q).




Definition logged (r : string + list dict) : list string :=
  match r with
  | inl e => ["Query execution failed: " +:+ e]
  | inr _ => []
  end.

(** The error lines of a report run, in the order of the statements. *)
Definition failures (k1 k2 : Conn) : list string :=
  flat_map (fun q => logged (answer k1 q) ++ logged (answer k2 q)) catalog.







(** The strings [hs] occur in [s] one after the other, each after the
    end of the one before. *)
Fixpoint in_order (hs : list string) (s : string) : Prop :=
  match hs with
  | [] => True
  | h :: hs' => exists a b, s = a +:+ h +:+ b /\ in_order hs' b
  end.



(** *** Properties of [generate_recommendations] *)

Lemma bind_Ok {A B} (a : A) (k : A -> result B) : (Ok a ≫= k) = k a.
Proof. reflexivity. Qed.

Lemma Ok_inj {A} (a b : A) : Ok a = Ok b -> a = b.
Proof. by intros [= ->]. Qed.

Lemma float_field_numeric (d : dict) (k : string) :
  numeric_column d k = true -> exists x, float_field d k = Ok x.
Proof.
  unfold numeric_column, float_field, dict_get.
  destruct (d !! k) as [[ | z | dd | s] | ]; simpl; intros H; try discriminate.
  - by exists (of_Z 0).
  - unfold py_or; simpl. destruct (z =? 0); simpl.
    + by exists (of_Z 0).
    + rewrite H. eauto.
  - unfold py_or; simpl. destruct (unscaled dd =? 0); simpl; eauto.
  - by exists (of_Z 0).
Qed.

Lemma int_field_usage (c : dict) :
  whole_usage c = true ->
  int_field c "connection_usage_percent" = Ok (usage_percent c).
Proof.
  unfold whole_usage, int_field, usage_percent, dict_get.
  destruct (c !! "connection_usage_percent") as [[ | z | [m s] | t] | ];
    simpl; intros H; try discriminate; try reflexivity.
  - unfold py_or; simpl. destruct (z =? 0) eqn:E; simpl; [|done].
    apply Z.eqb_eq in E. by subst.
  - apply Nat.eqb_eq in H. subst s.
    unfold py_or; simpl. destruct (m =? 0) eqn:E; simpl.
    + apply Z.eqb_eq in E. by subst.
    + by rewrite Z.quot_1_r.
Qed.

Lemma cache_diff_numeric (cache1 cache2 : dict) :
  numeric_column cache1 "cache_hit_percent" = true ->
  numeric_column cache2 "cache_hit_percent" = true ->
  exists cd, cache_diff cache1 cache2 = Ok cd.
Proof.
  intros H1 H2. unfold cache_diff.
  destruct (float_field_numeric _ _ H1) as [x1 ->].
  destruct (float_field_numeric _ _ H2) as [x2 ->].
  by exists (sub x2 x1).
Qed.

Lemma unused_diff_numeric (idx1 idx2 : dict) :
  numeric_column idx1 "unused_indexes_percent" = true ->
  numeric_column idx2 "unused_indexes_percent" = true ->
  exists ud, unused_diff idx1 idx2 = Ok ud.
Proof.
  intros H1 H2. unfold unused_diff.
  destruct (float_field_numeric _ _ H1) as [x1 ->].
  destruct (float_field_numeric _ _ H2) as [x2 ->].
  by exists (sub x2 x1).
Qed.

Lemma conn_diff_usage (c1 c2 : dict) :
  whole_usage c1 = true -> whole_usage c2 = true ->
  conn_diff c1 c2 = Ok (usage_percent c2 - usage_percent c1).
Proof.
  intros H1 H2. unfold conn_diff.
  by rewrite (int_field_usage _ H2), (int_field_usage _ H1).
Qed.

(** The list a run of the rules returns is the list of their
    advisories: the fallback for an empty list never applies, since the
    cache rule appends a line on either branch. *)
Lemma recommendations_advisories (v1 v2 cache1 cache2 c1 c2 idx1 idx2 : dict)
  (cd ud : float) (nd : Z) :
  cache_diff cache1 cache2 = Ok cd ->
  conn_diff c1 c2 = Ok nd ->
  unused_diff idx1 idx2 = Ok ud ->
  recommendations v1 v2 cache1 cache2 c1 c2 idx1 idx2 =
  Ok (advisories cd nd ud (dict_get_none v1 "shared_buffers")
                          (dict_get_none v2 "shared_buffers")).
Proof.
  intros Hc Hn Hu. unfold recommendations, advisories.
  rewrite Hc, Hn, Hu, !bind_Ok.
  destruct (ltb cd (of_Z (-10))), (20 <? nd), (ltb (of_Z 5) ud),
    (negb (py_eq _ _)); reflexivity.
Qed.

Lemma int_field_numeric (d : dict) (k : string) :
  numeric_column d k = true -> exists n, int_field d k = Ok n.
Proof.
  unfold numeric_column, int_field, dict_get.
  destruct (d !! k) as [[ | z | dd | s] | ]; simpl; intros H; try discriminate;
    unfold py_or; simpl; try (by exists 0).
  - destruct (z =? 0); simpl; eauto.
  - destruct (unscaled dd =? 0); simpl; eauto.
Qed.

Lemma conn_diff_numeric (c1 c2 : dict) :
  numeric_column c1 "connection_usage_percent" = true ->
  numeric_column c2 "connection_usage_percent" = true ->
  exists nd, conn_diff c1 c2 = Ok nd.
Proof.
  intros H1 H2. unfold conn_diff.
  destruct (int_field_numeric _ _ H1) as [n1 ->].
  destruct (int_field_numeric _ _ H2) as [n2 ->].
  by exists (n2 - n1).
Qed.

Lemma percentages_numeric_diffs (cache1 cache2 idx1 idx2 : dict) :
  percentages_numeric cache1 cache2 idx1 idx2 = true ->
  exists cd ud,
    cache_diff cache1 cache2 = Ok cd /\ unused_diff idx1 idx2 = Ok ud.
Proof.
  unfold percentages_numeric. rewrite !andb_true_iff.
  intros [[[H1 H2] H3] H4].
  destruct (cache_diff_numeric _ _ H1 H2) as [cd Hcd].
  destruct (unused_diff_numeric _ _ H3 H4) as [ud Hud].
  eauto.
Qed.

Lemma has_line_app (p : string) (xs ys : list string) :
  has_line p (xs ++ ys) = has_line p xs || has_line p ys.
Proof. apply existsb_app. Qed.

Lemma startswith_app (p s : string) : startswith p (p +:+ s) = true.
Proof. induction p as [ | a p IH]; simpl; [done | by rewrite Ascii.eqb_refl]. Qed.

Lemma contains_app (a needle b : string) :
  contains needle (a +:+ needle +:+ b) = true.
Proof.
  induction a as [ | c a IH]; simpl.
  - pose proof (startswith_app needle b) as H.
    destruct (needle +:+ b); simpl; by rewrite H.
  - rewrite IH. apply orb_true_r.
Qed.

(** Which rules can put a line with the cache or the pool mark. *)
Lemma pool_mark_lines (cd ud : float) (nd : Z) (sb1 sb2 : value) :
  has_line pool_mark (advisories cd nd ud sb1 sb2) = (20 <? nd).
Proof.
  unfold advisories. rewrite !has_line_app.
  destruct (ltb cd _), (20 <? nd), (ltb _ ud), (negb _); reflexivity.
Qed.

Lemma cache_mark_lines (cd ud : float) (nd : Z) (sb1 sb2 : value) :
  has_line cache_critical_mark (advisories cd nd ud sb1 sb2) = ltb cd (of_Z (-10)).
Proof.
  unfold advisories. rewrite !has_line_app.
  destruct (ltb cd _), (20 <? nd), (ltb _ ud), (negb _); reflexivity.
Qed.

(** The fallback line is dead code: the list is never empty when the
    method reaches its test, whatever the deltas. *)
Lemma advisories_nonempty (cd ud : float) (nd : Z) (sb1 sb2 : value) :
  advisories cd nd ud sb1 sb2 <> [] /\
  has_line no_major_differences (advisories cd nd ud sb1 sb2) = false.
Proof.
  unfold advisories. rewrite !has_line_app.
  destruct (ltb cd _), (20 <? nd), (ltb _ ud), (negb _); split; done.
Qed.

(** With no rule firing the list is the one line of the cache rule's
    [else] branch. *)
Lemma advisories_quiet (cd ud : float) (nd : Z) (sb1 sb2 : value) :
  ltb cd (of_Z (-10)) = false -> (20 <? nd) = false ->
  ltb (of_Z 5) ud = false -> py_eq sb1 sb2 = true ->
  advisories cd nd ud sb1 sb2 = [cache_similar].
Proof. unfold advisories. by intros -> -> -> ->. Qed.

(** C2 as the code has it: under numeric percentages the cache delta
    [float(server2) - float(server1)] is computed, and the comparison
    with -10 is strict.  Strictly below -10 the list starts with the
    critical advisory, whose title carries the absolute delta in [.1f]
    format; at -10 or above (or for a NaN delta) no line has the
    critical mark and the list starts with the informational line that
    the ratios are similar. *)
Theorem cache_rule_strict (v1 v2 cache1 cache2 c1 c2 idx1 idx2 : dict) :
  inputs_numeric cache1 cache2 c1 c2 idx1 idx2 = true ->
  exists cd recs,
    cache_diff cache1 cache2 = Ok cd /\
    recommendations v1 v2 cache1 cache2 c1 c2 idx1 idx2 = Ok recs /\
    (ltb cd (of_Z (-10)) = true ->
       (exists rest, recs = cache_critical cd ++ rest) /\
       has_line cache_critical_mark recs = true /\
       contains (format_1f (abs cd)) (cache_title cd) = true) /\
    (ltb cd (of_Z (-10)) = false ->
       (exists rest, recs = cache_similar :: rest) /\
       has_line cache_critical_mark recs = false).
Proof.
  unfold inputs_numeric. rewrite !andb_true_iff. intros [[Hp Hc1] Hc2].
  destruct (percentages_numeric_diffs _ _ _ _ Hp) as (cd & ud & Hcd & Hud).
  destruct (conn_diff_numeric _ _ Hc1 Hc2) as [nd Hnd].
  exists cd, (advisories cd nd ud (dict_get_none v1 "shared_buffers")
                               (dict_get_none v2 "shared_buffers")).
  split; [done | ]. split; [by apply recommendations_advisories | ].
  rewrite cache_mark_lines. split; intros E.
  - split; [ | split; [done | apply contains_app]].
    unfold advisories. rewrite E. eauto.
  - split; [ | done]. unfold advisories. rewrite E. simpl. eauto.
Qed.

(** C3. Under numeric percentages and whole-number connection usage
    (a missing one read as 0), the connection-pool advisory is in the
    list exactly when usage of server 2 minus usage of server 1 is
    strictly above 20; it is then the three lines of the advisory, the
    delta printed in the title. *)
Theorem connection_pool_rule (v1 v2 cache1 cache2 c1 c2 idx1 idx2 : dict) :
  percentages_numeric cache1 cache2 idx1 idx2 = true ->
  whole_usage c1 = true -> whole_usage c2 = true ->
  exists recs,
    recommendations v1 v2 cache1 cache2 c1 c2 idx1 idx2 = Ok recs /\
    (has_line pool_mark recs = true <-> 20 < usage_percent c2 - usage_percent c1) /\
    (20 < usage_percent c2 - usage_percent c1 ->
     exists before after,
       recs = before ++ pool_advisory (usage_percent c2 - usage_percent c1) ++ after).
Proof.
  intros Hp H1 H2.
  destruct (percentages_numeric_diffs _ _ _ _ Hp) as (cd & ud & Hcd & Hud).
  pose proof (conn_diff_usage _ _ H1 H2) as Hnd.
  eexists. split; [by apply recommendations_advisories | ].
  rewrite pool_mark_lines. split.
  - apply Z.ltb_lt.
  - intros Hlt. apply Z.ltb_lt in Hlt. unfold advisories. rewrite Hlt. eauto.
Qed.

(** *** Properties of [generate_markdown_report] *)

Lemma wp_bind {A B} (m : M A) (k : A -> M B) (Q : B -> world -> Prop) (w : world) :
  wp m (fun a w' => wp (k a) Q w') w -> wp (bind m k) Q w.
Proof. done. Qed.

Lemma wp_ret {A} (a : A) (Q : A -> world -> Prop) (w : world) :
  Q a w -> wp (ret a) Q w.
Proof. done. Qed.

Lemma wp_mono {A} (m : M A) (P Q : A -> world -> Prop) (w : world) :
  wp m P w -> (forall a w', P a w' -> Q a w') -> wp m Q w.
Proof. unfold wp. auto. Qed.

(** One statement of a run: its postcondition by [row] or [rows], the
    facts it gives named by the continuation. *)
Ltac wp_statement row rows :=
  apply wp_bind;
  eapply wp_mono; [ first [ by apply row | by apply rows ] | ].

(** Two runs of the same statements agree when their continuations
    do. *)
Lemma bind_render {A B C} (m : M A) (k : A -> M B) (k' : A -> M C)
  (f : C -> B) (w : world) :
  (forall a w', k a w' = (f (fst (k' a w')), snd (k' a w'))) ->
  bind m k w = (f (fst (bind m k' w)), snd (bind m k' w)).
Proof. intros H. unfold bind. simpl. apply H. Qed.

(** [generate_markdown_report] renders what [collect] returns. *)
Lemma generate_markdown_report_render (server1 server2 : ServerConfig) (w : world) :
  generate_markdown_report server1 server2 w =
  (render server1 server2 (fst (collect w)), snd (collect w)).
Proof.
  unfold generate_markdown_report, collect. cbv zeta.
  repeat (apply bind_render; intros ? ?).
  unfold ret, render. cbn [fst snd]. f_equal.
  cbn [version1 version2 cache_1 cache_2 connections1 connections2 indexes1 indexes2].
  destruct (generate_recommendations _ _ _ _ _ _ _ _) as [recs | e]; [ | done].
  rewrite !bind_Ok. unfold mret, result_ret. do 2 f_equal.
  unfold report_sections. cbn [flat_map]. rewrite app_nil_r, <- !app_assoc.
  reflexivity.
Qed.

(** Joined lines: the text of a run of lines is part of the text of
    the whole. *)
Lemma string_append_assoc (a b c : string) : (a +:+ b) +:+ c = a +:+ b +:+ c.
Proof.
  induction a as [ | x a IH]; [done | ].
  change (String x ((a +:+ b) +:+ c) = String x (a +:+ b +:+ c)). by f_equal.
Qed.

Lemma string_append_nil_r (a : string) : a +:+ "" = a.
Proof.
  induction a as [ | x a IH]; [done | ].
  change (String x (a +:+ "") = String x a). by f_equal.
Qed.

Lemma join_app (sep : string) (xs ys : list string) :
  xs <> [] -> ys <> [] ->
  join sep (xs ++ ys) = join sep xs +:+ sep +:+ join sep ys.
Proof.
  intros Hxs Hys. induction xs as [ | x [ | x' xs] IH]; [done | | ].
  - destruct ys as [ | y ys]; [done | reflexivity].
  - change (join sep ((x :: x' :: xs) ++ ys))
      with (x +:+ sep +:+ join sep ((x' :: xs) ++ ys)).
    rewrite IH by done.
    change (join sep (x :: x' :: xs)) with (x +:+ sep +:+ join sep (x' :: xs)).
    by rewrite !string_append_assoc.
Qed.

Lemma contains_join (sep : string) (pre mid post : list string) :
  mid <> [] -> contains (join sep mid) (join sep (pre ++ mid ++ post)) = true.
Proof.
  intros Hmid.
  assert (mid ++ post <> []) as Hmp by (destruct mid; done).
  destruct pre as [ | p pre], post as [ | q post].
  - simpl. rewrite app_nil_r.
    rewrite <- (string_append_nil_r (join sep mid)) at 2.
    exact (contains_app "" _ "").
  - rewrite app_nil_l, join_app by done. exact (contains_app "" _ _).
  - rewrite app_nil_r, join_app by done.
    rewrite <- (string_append_nil_r (join sep mid)) at 2.
    rewrite <- string_append_assoc. apply contains_app.
  - rewrite join_app by done. rewrite (join_app sep mid) by done.
    rewrite <- string_append_assoc. apply contains_app.
Qed.

Lemma contains_join_In (sep x : string) (lines : list string) :
  In x lines -> contains x (join sep lines) = true.
Proof.
  intros H. apply in_split in H as (pre & post & ->).
  exact (contains_join sep pre [x] post ltac:(done)).
Qed.

Lemma flat_map_lookup {A B} (f : A -> list B) (l : list A) (i : nat) (x : A) :
  l !! i = Some x ->
  flat_map f l = flat_map f (take i l) ++ f x ++ flat_map f (drop (S i) l).
Proof.
  intros H. rewrite <- (take_drop_middle l i x H) at 1.
  rewrite flat_map_app. reflexivity.
Qed.

(** Lines that follow one another in a section of a document follow
    one another in its text; a line of a section is in its text. *)
Lemma section_in_text (title : list string) (sections : list section)
  (i : nat) (s : section) (pre mid post : list string) :
  sections !! i = Some s -> section_lines s = pre ++ mid ++ post -> mid <> [] ->
  contains (join nl mid) (join nl (title ++ flat_map section_lines sections)) = true.
Proof.
  intros Hi Hs Hmid. rewrite (flat_map_lookup _ _ _ _ Hi), Hs.
  replace (title ++ flat_map section_lines (take i sections) ++
           (pre ++ mid ++ post) ++ flat_map section_lines (drop (S i) sections))
    with ((title ++ flat_map section_lines (take i sections) ++ pre) ++ mid ++
          (post ++ flat_map section_lines (drop (S i) sections)))
    by (rewrite <- !app_assoc; reflexivity).
  by apply contains_join.
Qed.


(** Headings that head their bodies in a list of lines occur in the
    joined text one after the other. *)
Lemma in_order_join (hs : list string) (pre : list string)
  (bodies : list (list string)) :
  length bodies = length hs ->
  in_order hs (join nl (pre ++ concat (zip_with cons hs bodies))).
Proof.
  revert pre bodies. induction hs as [ | h hs IH]; intros pre bodies Hlen; [exact I | ].
  destruct bodies as [ | b bodies]; [done | ]. injection Hlen as Hlen.
  cbn [zip_with concat]. set (rest := concat (zip_with cons hs bodies)).
  assert (in_order hs (match (b ++ rest)%list with
                       | [] => ""
                       | _ => nl +:+ join nl (b ++ rest)
                       end)) as Hrest.
  { destruct (b ++ rest) as [ | x l] eqn:E.
    - apply app_eq_nil in E as [_ E]. unfold rest in E.
      destruct hs as [ | h' hs]; [exact I | ].
      destruct bodies; [done | discriminate E].
    - change (in_order hs (join nl ("" :: x :: l))). rewrite <- E.
      change ("" :: b ++ rest) with (("" :: b) ++ rest).
      unfold rest. by apply IH. }
  exists (match pre with [] => "" | _ => join nl pre +:+ nl end),
         (match (b ++ rest)%list with [] => "" | _ => nl +:+ join nl (b ++ rest) end).
  split; [ | exact Hrest].
  change ((h :: b) ++ rest) with ([h] ++ (b ++ rest)).
  destruct pre as [ | p pre], (b ++ rest) as [ | x l].
  - change (h = h +:+ ""). by rewrite string_append_nil_r.
  - reflexivity.
  - rewrite app_nil_r, join_app by done. change (join nl [h]) with h.
    by rewrite string_append_assoc, string_append_nil_r.
  - rewrite join_app by done. rewrite (join_app nl [h]) by done.
    change (join nl [h]) with h. by rewrite !string_append_assoc.
Qed.

(** C6. Whatever the statements returned and whatever the
    recommendations say, the report has the same fifteen sections in
    the same order: server identification, version and configuration,
    connections, cache, size, tables, indexes, locks, active queries,
    long-running queries, bloat, performance issues, autovacuum,
    memory, recommendations; the report of a run is the rendering of
    these sections for the rows the run collected; and in the text a
    run returns, the lines after the title are the fifteen heading
    lines, each followed by the lines of its section, so that the
    headings occur in the text in this order. *)
Theorem report_sections_fixed (server1 server2 : ServerConfig) :
  (forall (s : snapshot) (recs : string),
     heading <$> report_sections server1 server2 s recs = section_headings) /\
  (forall (s s' : snapshot) (recs recs' : string),
     heading <$> report_sections server1 server2 s recs =
     heading <$> report_sections server1 server2 s' recs') /\
  (forall w : world,
     fst (generate_markdown_report server1 server2 w) =
     render server1 server2 (fst (collect w))) /\
  (forall (w : world) (text : string),
     fst (generate_markdown_report server1 server2 w) = Ok text ->
     (exists bodies : list (list string),
        length bodies = length section_headings /\
        text = join nl (report_title ++ concat (zip_with cons section_headings bodies))) /\
     in_order section_headings text).
Proof.
  split; [ | split; [ | split]].
  - reflexivity.
  - reflexivity.
  - intros w. by rewrite generate_markdown_report_render.
  - intros w text. rewrite generate_markdown_report_render. cbn [fst].
    unfold render.
    destruct (generate_recommendations _ _ _ _ _ _ _ _) as [recs | e]; [ | done].
    rewrite bind_Ok. intros Htext. apply Ok_inj in Htext. subst text.
    assert (flat_map section_lines
              (report_sections server1 server2 (fst (collect w)) recs) =
            concat (zip_with cons section_headings
                      (body <$> report_sections server1 server2 (fst (collect w)) recs)))
      as -> by reflexivity.
    split.
    + eexists. split; [ | reflexivity]. reflexivity.
    + by apply in_order_join.
Qed.

Lemma executed_app (tr tr' : list event) :
  executed (tr ++ tr') = executed tr ++ executed tr'.
Proof.
  induction tr as [ | [] tr IH]; simpl; congruence.
Qed.

Lemma errors_app (tr tr' : list event) :
  errors (tr ++ tr') = errors tr ++ errors tr'.
Proof.
  induction tr as [ | [] tr IH]; simpl; congruence.
Qed.

Lemma connected_set_conn (c : conn_id) (k : Conn) (w : world) :
  connected w -> connected (set_conn c k w).
Proof. intros [H1 H2]. destruct c; split; simpl; eauto. Qed.






Lemma generate_markdown_report_collect (server1 server2 : ServerConfig)
  (w : world) (s : snapshot) (w' : world) :
  collect w = (s, w') ->
  generate_markdown_report server1 server2 w = (render server1 server2 s, w').
Proof. intros E. rewrite generate_markdown_report_render, E. reflexivity. Qed.

























(** C8 on the code: a server with no rows gets its fixed sentence in
    the sections of active queries, long-running queries, bloat and
    performance issues, and the autovacuum section gets nothing for it:
    with no rows on either server its body is the closing blank line
    alone. *)
Theorem autovacuum_section_has_no_sentence :
  body (autovacuum_section [] []) = [nl] /\
  (forall vac2 : list dict,
     body (autovacuum_section [] vac2) =
     vacuum_rows vac2 (nl +:+ "### Server 2" +:+ nl) ++ [nl]) /\
  body (active_section [] []) =
    [ nl +:+ "### Server 1: No active queries" +:+ nl;
      nl +:+ "### Server 2: No active queries" +:+ nl; nl ] /\
  body (longest_section [] []) =
    [ nl +:+ "### Server 1: No long running queries" +:+ nl;
      nl +:+ "### Server 2: No long running queries" +:+ nl; nl ] /\
  body (bloat_section [] []) =
    [ nl +:+ "### Server 1: No significant table bloat" +:+ nl;
      nl +:+ "### Server 2: No significant table bloat" +:+ nl; nl ] /\
  body (performance_section [] []) =
    [ nl +:+ "### Server 1: No query performance issues detected" +:+ nl;
      nl +:+ "### Server 2: No query performance issues detected" +:+ nl; nl ].
Proof. repeat split; reflexivity. Qed.

(** *** Properties of [main] *)

Lemma closed_app (tr tr' : list event) :
  closed (tr ++ tr') = closed tr ++ closed tr'.
Proof.
  induction tr as [ | [] tr IH]; simpl; congruence.
Qed.

Lemma written_app (tr tr' : list event) :
  written (tr ++ tr') = written tr ++ written tr'.
Proof.
  induction tr as [ | [] tr IH]; simpl; congruence.
Qed.

(** Running a statement closes nothing and writes nothing. *)
Lemma execute_query_frame (c : conn_id) (q : query) (w : world) :
  connected w ->
  wp (execute_query c q)
     (fun _ w' =>
        connected w' /\
        closed (trace w') = closed (trace w) /\
        written (trace w') = written (trace w)) w.
Proof.
  intros Hw. unfold wp, execute_query.
  assert (exists k, conn_of w c = Some k) as [k ->]
    by (destruct Hw as [[] []], c; simpl; eauto).
  destruct (cursor_execute k q) as [k' [e | rows]]; simpl;
    (split; [by apply connected_set_conn | ]);
    rewrite ?closed_app, ?written_app; simpl; rewrite ?app_nil_r;
    destruct c; done.
Qed.

Lemma get_row_frame (q : query) (c : conn_id) (w : world) :
  connected w ->
  wp (get_row q c)
     (fun _ w' =>
        connected w' /\
        closed (trace w') = closed (trace w) /\
        written (trace w') = written (trace w)) w.
Proof.
  intros Hw. unfold get_row. apply wp_bind.
  eapply wp_mono; [by apply execute_query_frame | ].
  intros rows w' H. by apply wp_ret.
Qed.

Lemma collect_frame (w : world) (s : snapshot) (w' : world) :
  connected w -> collect w = (s, w') ->
  connected w' /\
  closed (trace w') = closed (trace w) /\
  written (trace w') = written (trace w).
Proof.
  intros Hw E.
  assert (wp collect
            (fun _ w' =>
               connected w' /\
               closed (trace w') = closed (trace w) /\
               written (trace w') = written (trace w)) w) as H.
  { unfold collect.
    repeat (wp_statement get_row_frame execute_query_frame;
            clear Hw; intros ? ? (Hw & ? & ?)).
    apply wp_ret. split; [done | ]. split; congruence. }
  unfold wp in H. rewrite E in H. exact H.
Qed.

(** The body of the [try] leaves both connections set and closes
    neither, however it ends. *)
Lemma run_report_frame (a : Args) (server1 server2 : ServerConfig) (w : world) :
  connected w ->
  connected (snd (run_report a server1 server2 w)) /\
  closed (trace (snd (run_report a server1 server2 w))) = closed (trace w).
Proof.
  intros Hw. unfold run_report, bind. destruct (format a).
  - destruct (collect w) as [s w'] eqn:E.
    rewrite (generate_markdown_report_collect _ _ _ _ _ E). cbn [fst snd].
    destruct (collect_frame w s w' Hw E) as (Hw' & Hc & _).
    destruct (render server1 server2 s) as [text | e]; [ | done].
    destruct (write_file (output a) text); [done | ].
    cbn [fst snd]. split; [done | ].
    simpl. rewrite !closed_app. simpl. by rewrite !app_nil_r.
  - unfold ret. cbn [fst snd].
    destruct (write_file (output a) _); [done | ].
    cbn [fst snd]. split; [done | ].
    simpl. rewrite !closed_app. simpl. by rewrite !app_nil_r.
Qed.

(** Once both connections are made, every way out of [main] closes
    both: the report written, an exception of the report, a file that
    cannot be written. *)
Lemma main_closes_both (a : Args) (k1 k2 : Conn) :
  forallb given (required_args a) = true ->
  psycopg2_connect (make_server1 a) = inr k1 ->
  psycopg2_connect (make_server2 a) = inr k2 ->
  closed (fst (main a)) = [Conn1; Conn2].
Proof.
  intros Hargs H1 H2. unfold main, connect. rewrite Hargs, H1, H2.
  cbn [negb fst snd].
  match goal with
  | |- context [run_report a _ _ ?w0] =>
      destruct (run_report_frame a (make_server1 a) (make_server2 a) w0)
        as [[[k1' Hk1] [k2' Hk2]] Hclosed]; [split; simpl; eauto | ];
      destruct (run_report a (make_server1 a) (make_server2 a) w0) as [r w1]
  end.
  cbn [fst snd] in *. unfold close. cbv zeta. rewrite Hk1.
  cbn [conn2 emit]. rewrite Hk2. cbn [fst snd trace emit].
  rewrite !closed_app, Hclosed. reflexivity.
Qed.

(** The second connection failing ends the process inside [connect],
    before the [try] of [main]: the first connection is open and no
    [close] is reached. *)
Lemma main_second_connect_fails (a : Args) (k1 : Conn) (e : string) :
  forallb given (required_args a) = true ->
  psycopg2_connect (make_server1 a) = inr k1 ->
  psycopg2_connect (make_server2 a) = inl e ->
  main a =
  ([ LogInfo "🚀 Starting comparative diagnostic...";
     Connected Conn1;
     LogInfo "✅ Connected to Server1-Fast";
     LogError ("❌ Failed to connect to Server2-Slow: " +:+ e) ],
   SysExit 1).
Proof.
  intros Hargs H1 H2. unfold main, connect. rewrite Hargs, H1, H2. reflexivity.
Qed.


(** *** Further properties of [generate_recommendations] *)

Lemma index_mark_lines (cd ud : float) (nd : Z) (sb1 sb2 : value) :
  has_line index_mark (advisories cd nd ud sb1 sb2) = ltb (of_Z 5) ud.
Proof.
  unfold advisories. rewrite !has_line_app.
  destruct (ltb cd _), (20 <? nd), (ltb _ ud), (negb _); reflexivity.
Qed.

Lemma memory_mark_lines (cd ud : float) (nd : Z) (sb1 sb2 : value) :
  has_line memory_mark (advisories cd nd ud sb1 sb2) = negb (py_eq sb1 sb2).
Proof.
  unfold advisories. rewrite !has_line_app.
  destruct (ltb cd _), (20 <? nd), (ltb _ ud), (negb _); reflexivity.
Qed.

(** A run of the rules that returns has computed the three deltas. *)
Lemma recommendations_Ok (v1 v2 cache1 cache2 c1 c2 idx1 idx2 : dict)
  (recs : list string) :
  recommendations v1 v2 cache1 cache2 c1 c2 idx1 idx2 = Ok recs ->
  exists cd nd ud,
    cache_diff cache1 cache2 = Ok cd /\
    conn_diff c1 c2 = Ok nd /\
    unused_diff idx1 idx2 = Ok ud /\
    recs = advisories cd nd ud (dict_get_none v1 "shared_buffers")
                               (dict_get_none v2 "shared_buffers").
Proof.
  intros H.
  destruct (cache_diff cache1 cache2) as [cd | e] eqn:Hc;
    [ | by unfold recommendations in H; rewrite Hc in H].
  destruct (conn_diff c1 c2) as [nd | e] eqn:Hn;
    [ | by unfold recommendations in H; rewrite Hc, Hn in H].
  destruct (unused_diff idx1 idx2) as [ud | e] eqn:Hu;
    [ | by unfold recommendations in H; rewrite Hc, Hn, Hu in H].
  rewrite (recommendations_advisories _ _ _ _ _ _ _ _ _ _ _ Hc Hn Hu) in H.
  injection H as <-. by exists cd, nd, ud.
Qed.

Lemma inputs_numeric_diffs (cache1 cache2 c1 c2 idx1 idx2 : dict) :
  inputs_numeric cache1 cache2 c1 c2 idx1 idx2 = true ->
  exists cd nd ud,
    cache_diff cache1 cache2 = Ok cd /\
    conn_diff c1 c2 = Ok nd /\
    unused_diff idx1 idx2 = Ok ud.
Proof.
  unfold inputs_numeric. rewrite !andb_true_iff. intros [[Hp Hc1] Hc2].
  destruct (percentages_numeric_diffs _ _ _ _ Hp) as (cd & ud & Hcd & Hud).
  destruct (conn_diff_numeric _ _ Hc1 Hc2) as [nd Hnd].
  by exists cd, nd, ud.
Qed.

(** X1. The index rule: under numeric inputs the delta of the unused
    index percentages, [float(server2) - float(server1)], is computed,
    and the index advisory is in the list exactly when the delta is
    strictly above 5; it is then the two lines of the advisory, the
    signed delta printed in [.1f] format in the first. *)
Theorem index_usage_rule (v1 v2 cache1 cache2 c1 c2 idx1 idx2 : dict) :
  inputs_numeric cache1 cache2 c1 c2 idx1 idx2 = true ->
  exists ud recs,
    unused_diff idx1 idx2 = Ok ud /\
    recommendations v1 v2 cache1 cache2 c1 c2 idx1 idx2 = Ok recs /\
    has_line index_mark recs = ltb (of_Z 5) ud /\
    (ltb (of_Z 5) ud = true ->
     exists before after, recs = before ++ index_advisory ud ++ after).
Proof.
  intros H. destruct (inputs_numeric_diffs _ _ _ _ _ _ H) as (cd & nd & ud & Hc & Hn & Hu).
  exists ud. eexists.
  split; [done | ]. split; [by apply recommendations_advisories | ].
  split; [apply index_mark_lines | ].
  intros E. unfold advisories. rewrite E.
  match goal with
  | |- exists before after, ?c ++ ?p ++ ?i ++ ?m = _ => exists (c ++ p), m
  end.
  by rewrite <- app_assoc.
Qed.

(** X2. The memory rule compares the two [shared_buffers] fields of
    the version rows as Python values: the advisory is in the list
    exactly when they differ, and then it closes the list with both
    values printed.  Two settings given as text differ when the texts
    do; a setting that is missing on one server only (its version
    statement failed) differs from any text and prints as [None]; two
    missing settings are equal. *)
Theorem memory_config_rule (v1 v2 cache1 cache2 c1 c2 idx1 idx2 : dict) :
  inputs_numeric cache1 cache2 c1 c2 idx1 idx2 = true ->
  exists recs,
    recommendations v1 v2 cache1 cache2 c1 c2 idx1 idx2 = Ok recs /\
    (forall s1 s2,
       v1 !! "shared_buffers" = Some (VStr s1) ->
       v2 !! "shared_buffers" = Some (VStr s2) ->
       (has_line memory_mark recs = true <-> s1 <> s2) /\
       (s1 <> s2 ->
        exists before, recs = before ++ memory_advisory (VStr s1) (VStr s2))) /\
    (forall s2,
       v1 !! "shared_buffers" = None ->
       v2 !! "shared_buffers" = Some (VStr s2) ->
       exists before,
         recs = before ++
           [ nl +:+ "⚠️ **Memory Config**: Different `shared_buffers` settings";
             "   - Server 1: None";
             "   - Server 2: " +:+ s2;
             "   - **Fix**: Align settings or upgrade Server 2 configuration" ]) /\
    (v1 !! "shared_buffers" = None -> v2 !! "shared_buffers" = None ->
     has_line memory_mark recs = false).
Proof.
  intros H. destruct (inputs_numeric_diffs _ _ _ _ _ _ H) as (cd & nd & ud & Hc & Hn & Hu).
  eexists. split; [by apply recommendations_advisories | ].
  rewrite memory_mark_lines. unfold advisories, dict_get_none, dict_get.
  split; [ | split].
  - intros s1 s2 -> ->. simpl.
    destruct (String.eqb_spec s1 s2) as [-> | Hne]; simpl.
    + split; [split; [done | by intros []] | by intros []].
    + split; [done | ]. intros _.
      match goal with
      | |- exists before, ?c ++ ?p ++ ?i ++ ?m = _ => exists (c ++ p ++ i)
      end.
      by rewrite <- !app_assoc.
  - intros s2 -> ->. simpl.
    match goal with
    | |- exists before, ?c ++ ?p ++ ?i ++ ?m = _ => exists (c ++ p ++ i)
    end.
    by rewrite <- !app_assoc.
  - by intros -> ->.
Qed.

Lemma startswith_prefix (p s t : string) :
  startswith p s = true -> startswith p (s +:+ t) = true.
Proof.
  revert s. induction p as [ | a p IH]; intros [ | b s]; simpl; try done.
  destruct (Ascii.eqb a b); [apply IH | done].
Qed.

Lemma startswith_join (p sep x : string) (rest : list string) :
  startswith p x = true -> startswith p (join sep (x :: rest)) = true.
Proof.
  intros H. destruct rest as [ | y rest]; [done | ].
  change (join sep (x :: y :: rest)) with (x +:+ sep +:+ join sep (y :: rest)).
  by apply startswith_prefix.
Qed.

(** X3. The fallback is never returned: whenever
    [generate_recommendations] returns, the list it joins is not empty
    and holds no line of the fallback message, and the text starts with
    the line of the cache rule, the informational one or the critical
    one; it is never the fallback text. *)
Theorem fallback_never_returned (v1 v2 cache1 cache2 c1 c2 idx1 idx2 : dict)
  (text : string) :
  generate_recommendations v1 v2 cache1 cache2 c1 c2 idx1 idx2 = Ok text ->
  (exists recs,
     recommendations v1 v2 cache1 cache2 c1 c2 idx1 idx2 = Ok recs /\
     text = join nl recs /\
     recs <> [] /\
     has_line no_major_differences recs = false) /\
  (startswith cache_similar text = true \/
   startswith cache_critical_mark text = true) /\
  text <> no_major_differences.
Proof.
  unfold generate_recommendations. intros H.
  destruct (recommendations _ _ _ _ _ _ _ _) as [recs | e] eqn:Hrecs; [ | done].
  rewrite bind_Ok in H. injection H as <-.
  destruct (recommendations_Ok _ _ _ _ _ _ _ _ _ Hrecs) as (cd & nd & ud & _ & _ & _ & ->).
  destruct (advisories_nonempty cd ud nd (dict_get_none v1 "shared_buffers")
              (dict_get_none v2 "shared_buffers")) as [Hne Hno].
  split; [by eexists | ].
  assert (startswith cache_similar
            (join nl (advisories cd nd ud (dict_get_none v1 "shared_buffers")
                                          (dict_get_none v2 "shared_buffers"))) = true \/
          startswith cache_critical_mark
            (join nl (advisories cd nd ud (dict_get_none v1 "shared_buffers")
                                          (dict_get_none v2 "shared_buffers"))) = true)
    as Hstart.
  { unfold advisories. destruct (ltb cd (of_Z (-10))).
    - right. unfold cache_critical. cbn [app]. by apply startswith_join.
    - left. cbn [app]. by apply startswith_join. }
  split; [exact Hstart | ].
  intros E. rewrite E in Hstart. by destruct Hstart.
Qed.

(** The percentages the statements can return, in hundredths: a hit
    percent above 10 is more than 10 above zero as a float, one of 10
    or less is not. *)
Lemma percent_above_ten (m : Z) :
  0 <= m <= 10000 ->
  ltb (sub (of_Z 0) (of_scaled m 2)) (of_Z (-10)) = (1000 <? m).
Proof.
  intros Hm.
  assert (forallb (fun m => Bool.eqb (ltb (sub (of_Z 0) (of_scaled m 2)) (of_Z (-10)))
                                     (1000 <? m))
            (seqZ 0 10001) = true) as H by (vm_compute; reflexivity).
  rewrite forallb_forall in H. apply Bool.eqb_prop, H.
  apply list_elem_of_In, elem_of_seqZ. lia.
Qed.

Lemma float_field_unavailable (d : dict) (k : string) :
  unavailable d k -> float_field d k = Ok (of_Z 0).
Proof. unfold float_field, dict_get. by intros [-> | ->]. Qed.

Lemma float_field_percent (d : dict) (k : string) (m : Z) (s : nat) :
  d !! k = Some (VDecimal (Dec m s)) -> float_field d k = Ok (of_scaled m s).
Proof.
  unfold float_field, dict_get, py_or. intros ->. simpl.
  destruct (m =? 0) eqn:E; simpl; [ | done].
  apply Z.eqb_eq in E. by subst.
Qed.

(** X4. A hit percent that is not available counts as zero in the
    cache rule.  When server 2 has none (its cache statement failed or
    gave NULL) and server 1 reports [m / 100] percent, the critical
    advisory is emitted exactly when server 1 reports more than 10
    percent, and its delta is minus the percent of server 1; when
    server 1 has none, no percent of server 2 makes it fire. *)
Theorem unavailable_hit_percent_counts_as_zero
  (v1 v2 cache1 cache2 c1 c2 idx1 idx2 : dict) (m : Z) :
  inputs_numeric cache1 cache2 c1 c2 idx1 idx2 = true ->
  0 <= m <= 10000 ->
  (cache1 !! "cache_hit_percent" = Some (VDecimal (Dec m 2)) ->
   unavailable cache2 "cache_hit_percent" ->
   exists recs,
     recommendations v1 v2 cache1 cache2 c1 c2 idx1 idx2 = Ok recs /\
     cache_diff cache1 cache2 = Ok (sub (of_Z 0) (of_scaled m 2)) /\
     (has_line cache_critical_mark recs = true <-> 1000 < m)) /\
  (unavailable cache1 "cache_hit_percent" ->
   cache2 !! "cache_hit_percent" = Some (VDecimal (Dec m 2)) ->
   exists recs,
     recommendations v1 v2 cache1 cache2 c1 c2 idx1 idx2 = Ok recs /\
     has_line cache_critical_mark recs = false).
Proof.
  intros H Hm.
  destruct (inputs_numeric_diffs _ _ _ _ _ _ H) as (cd & nd & ud & Hc & Hn & Hu).
  split.
  - intros H1 H2. eexists. split; [by apply recommendations_advisories | ].
    assert (cache_diff cache1 cache2 = Ok (sub (of_Z 0) (of_scaled m 2))) as Hcd.
    { unfold cache_diff.
      by rewrite (float_field_unavailable _ _ H2), (float_field_percent _ _ _ _ H1). }
    split; [done | ].
    assert (cd = sub (of_Z 0) (of_scaled m 2)) as -> by congruence.
    rewrite cache_mark_lines, percent_above_ten by done. apply Z.ltb_lt.
  - intros H1 H2. eexists. split; [by apply recommendations_advisories | ].
    assert (cache_diff cache1 cache2 = Ok (sub (of_scaled m 2) (of_Z 0))) as Hcd.
    { unfold cache_diff.
      by rewrite (float_field_unavailable _ _ H1), (float_field_percent _ _ _ _ H2). }
    assert (cd = sub (of_scaled m 2) (of_Z 0)) as -> by congruence.
    rewrite cache_mark_lines.
    assert (forallb (fun m => negb (ltb (sub (of_scaled m 2) (of_Z 0)) (of_Z (-10))))
              (seqZ 0 10001) = true) as Hall by (vm_compute; reflexivity).
    rewrite forallb_forall in Hall. apply negb_true_iff, Hall.
    apply list_elem_of_In, elem_of_seqZ. lia.
Qed.

Lemma py_eq_sym (a b : value) : py_eq a b = py_eq b a.
Proof.
  destruct a as [ | x | d | s], b as [ | y | d' | s']; simpl; try done;
    first [apply Z.eqb_sym | apply String.eqb_sym].
Qed.

(** X5. The direction of the rules.  The pool rule fires for server 2
    against server 1 only: with whole-number usages it cannot fire for
    a pair of servers and for the same pair swapped.  The memory rule
    has no direction: it fires for a pair exactly when it fires for the
    pair swapped. *)
Theorem rules_direction (v1 v2 cache1 cache2 c1 c2 idx1 idx2 : dict) :
  percentages_numeric cache1 cache2 idx1 idx2 = true ->
  percentages_numeric cache2 cache1 idx2 idx1 = true ->
  whole_usage c1 = true -> whole_usage c2 = true ->
  exists recs swapped,
    recommendations v1 v2 cache1 cache2 c1 c2 idx1 idx2 = Ok recs /\
    recommendations v2 v1 cache2 cache1 c2 c1 idx2 idx1 = Ok swapped /\
    (has_line pool_mark recs = true -> has_line pool_mark swapped = false) /\
    has_line memory_mark recs = has_line memory_mark swapped.
Proof.
  intros Hp Hp' H1 H2.
  destruct (percentages_numeric_diffs _ _ _ _ Hp) as (cd & ud & Hcd & Hud).
  destruct (percentages_numeric_diffs _ _ _ _ Hp') as (cd' & ud' & Hcd' & Hud').
  pose proof (conn_diff_usage _ _ H1 H2) as Hnd.
  pose proof (conn_diff_usage _ _ H2 H1) as Hnd'.
  eexists. eexists.
  split; [by apply recommendations_advisories | ].
  split; [by apply recommendations_advisories | ].
  rewrite !pool_mark_lines, !memory_mark_lines. split.
  - intros E. apply Z.ltb_lt in E. apply Z.ltb_ge. lia.
  - f_equal. apply py_eq_sym.
Qed.

(** *** Further properties of [generate_markdown_report] *)

Lemma ran_refl (w : world) : connected w -> ran w w [].
Proof.
  intros Hw. split; [done | ]. exists []. by rewrite app_nil_r.
Qed.

Lemma forallb_statement_event_app (xs ys : list event) :
  forallb statement_event (xs ++ ys) =
  forallb statement_event xs && forallb statement_event ys.
Proof. apply forallb_app. Qed.

Lemma execute_query_ran (w0 : world) (qs : list (conn_id * query))
  (c : conn_id) (q : query) (w : world) :
  ran w0 w qs ->
  wp (execute_query c q) (fun _ w' => ran w0 w' (qs ++ [(c, q)])) w.
Proof.
  intros (Hw & evs & Htr & Hev & Hex & Her). unfold wp, execute_query.
  assert (exists k, conn_of w c = Some k) as [k ->]
    by (destruct Hw as [[] []], c; simpl; eauto).
  destruct (cursor_execute k q) as [k' [e | rows]]; simpl.
  - split; [by apply connected_set_conn | ].
    exists (evs ++ [Executed c q; LogError ("Query execution failed: " +:+ e)]).
    rewrite forallb_statement_event_app, executed_app, errors_app, !length_app, Hev, Hex.
    simpl. split; [ | split; [done | split; [done | lia]]].
    destruct c; simpl; rewrite Htr, <- !app_assoc; reflexivity.
  - split; [by apply connected_set_conn | ].
    exists (evs ++ [Executed c q]).
    rewrite forallb_statement_event_app, executed_app, errors_app, !length_app, Hev, Hex.
    simpl. split; [ | split; [done | split; [done | lia]]].
    destruct c; simpl; rewrite Htr, <- !app_assoc; reflexivity.
Qed.

Lemma get_row_ran (w0 : world) (qs : list (conn_id * query))
  (q : query) (c : conn_id) (w : world) :
  ran w0 w qs ->
  wp (get_row q c) (fun _ w' => ran w0 w' (qs ++ [(c, q)])) w.
Proof.
  intros H. unfold get_row. apply wp_bind.
  eapply wp_mono; [by apply execute_query_ran | ].
  intros rows w' H'. by apply wp_ret.
Qed.

Lemma collect_ran (w : world) (s : snapshot) (w' : world) :
  connected w -> collect w = (s, w') -> ran w w' catalog_order.
Proof.
  intros Hw E. apply ran_refl in Hw.
  assert (wp collect (fun _ w' => ran w w' catalog_order) w) as H.
  { unfold collect.
    repeat (wp_statement (get_row_ran w) (execute_query_ran w);
            clear Hw; intros ? ? Hw; cbv beta in Hw).
    apply wp_ret. exact Hw. }
  unfold wp in H. rewrite E in H. exact H.
Qed.

(** X13. A report run on a connected object, whatever the servers
    answer: it sends the 26 statements of the catalog, each once, in
    the order of the report and server 1 before server 2; it logs no
    more errors than statements, at most 26; and it does nothing else:
    no connection is made or closed, nothing is written or printed,
    and both connections stay set. *)
Theorem report_run_effects (server1 server2 : ServerConfig) (w : world) :
  connected w ->
  exists evs,
    trace (snd (generate_markdown_report server1 server2 w)) = trace w ++ evs /\
    forallb statement_event evs = true /\
    executed evs = catalog_order /\
    (length (errors evs) <= 26)%nat /\
    connected (snd (generate_markdown_report server1 server2 w)).
Proof.
  intros Hw. destruct (collect w) as [s w'] eqn:E.
  rewrite (generate_markdown_report_collect _ _ _ _ _ E). cbn [fst snd].
  destruct (collect_ran w s w' Hw E) as (Hw' & evs & Htr & Hev & Hex & Her).
  exists evs. done.
Qed.

Lemma wp2_bind {A B A' B'} (m : M A) (k : A -> M B) (m' : M A') (k' : A' -> M B')
  (Q : B -> world -> B' -> world -> Prop) (w w' : world) :
  wp2 m m' (fun a w1 a' w1' => wp2 (k a) (k' a') Q w1 w1') w w' ->
  wp2 (bind m k) (bind m' k') Q w w'.
Proof. done. Qed.

Lemma wp2_mono {A B} (m : M A) (m' : M B)
  (P Q : A -> world -> B -> world -> Prop) (w w' : world) :
  wp2 m m' P w w' -> (forall a w1 b w1', P a w1 b w1' -> Q a w1 b w1') ->
  wp2 m m' Q w w'.
Proof. unfold wp2. auto. Qed.

(** A statement run twice on connections in the same state gives the
    same rows and leaves them in the same state; on any other
    connection it leaves the state of this one alone. *)
Lemma execute_query_same (c c' : conn_id) (q : query) (w w' : world) :
  conn_of w c = conn_of w' c ->
  wp2 (execute_query c' q) (execute_query c' q)
    (fun rows w1 rows' w1' =>
       conn_of w1 c = conn_of w1' c /\ (c' = c -> rows = rows')) w w'.
Proof.
  intros H. unfold wp2, execute_query.
  destruct c, c'; simpl in *; rewrite <- ?H;
    repeat match goal with
           | |- context [match conn1 ?w0 with _ => _ end] =>
               destruct (conn1 w0) eqn:?; simpl
           | |- context [match conn2 ?w0 with _ => _ end] =>
               destruct (conn2 w0) eqn:?; simpl
           | |- context [cursor_execute ?k ?q] =>
               destruct (cursor_execute k q) as [? [? | ?]]; simpl
           end; first [done | split; [congruence | done]].
Qed.

Lemma get_row_same (c : conn_id) (q : query) (c' : conn_id) (w w' : world) :
  conn_of w c = conn_of w' c ->
  wp2 (get_row q c') (get_row q c')
    (fun d w1 d' w1' => conn_of w1 c = conn_of w1' c /\ (c' = c -> d = d')) w w'.
Proof.
  intros H. unfold get_row. apply wp2_bind.
  eapply wp2_mono; [by apply execute_query_same | ].
  intros rows w1 rows' w1' [Hc Hrows]. unfold wp2, ret. simpl.
  split; [done | ]. intros E. by rewrite (Hrows E).
Qed.

(** X20. The two collections are independent: the rows a report run
    collects from a server, and the state it leaves the connection in,
    depend on the state of that connection only, not on the other
    server, its answers or its failures, and not on the events so
    far. *)
Theorem collections_independent (c : conn_id) (w w' : world) :
  conn_of w c = conn_of w' c ->
  rows_of c (fst (collect w)) = rows_of c (fst (collect w')) /\
  conn_of (snd (collect w)) c = conn_of (snd (collect w')) c.
Proof.
  intros Hw.
  assert (wp2 collect collect
            (fun s w1 s' w1' =>
               rows_of c s = rows_of c s' /\ conn_of w1 c = conn_of w1' c) w w') as H.
  { unfold collect.
    repeat (apply wp2_bind;
            eapply wp2_mono;
              [ first [ by apply (get_row_same c) | by apply (execute_query_same c) ] | ];
            clear Hw; intros ? ? ? ? [Hw ?]).
    unfold wp2, ret. cbn [fst snd]. split; [ | exact Hw].
    destruct c; cbn [rows_of version1 connections1 cache_1 size1 tables1 indexes1
                     locks1 memory1 active1 longest1 bloat1 issues1 vacuum1
                     version2 connections2 cache_2 size2 tables2 indexes2
                     locks2 memory2 active2 longest2 bloat2 issues2 vacuum2];
      repeat match goal with
             | H : Conn1 = Conn1 -> _ |- _ => specialize (H eq_refl); subst
             | H : Conn2 = Conn2 -> _ |- _ => specialize (H eq_refl); subst
             end; reflexivity. }
  exact H.
Qed.

(** X10. Of the two configurations, [generate_markdown_report] reads
    the host, the port and the database, and nothing else: called on
    the same connections, it sends the same statements and returns the
    same text for configurations that differ in the server names, the
    users or the passwords only; and the text it returns has, under
    the first heading, the two lines that give host, port and database
    of each server. *)
Theorem report_reads_endpoints_only
  (server1 server1' server2 server2' : ServerConfig) (w : world) :
  host server1 = host server1' ->
  port server1 = port server1' ->
  database server1 = database server1' ->
  host server2 = host server2' ->
  port server2 = port server2' ->
  database server2 = database server2' ->
  generate_markdown_report server1 server2 w =
  generate_markdown_report server1' server2' w /\
  (forall text : string,
     fst (generate_markdown_report server1 server2 w) = Ok text ->
     contains
       (("## 📊 Server Information" +:+ nl) +:+ nl +:+
        ("- **Server 1 (Fast):** " +:+
         (host server1 +:+ ":" +:+ pretty (port server1) +:+ "/" +:+ database server1)) +:+
        nl +:+
        ("- **Server 2 (Slow):** " +:+
         (host server2 +:+ ":" +:+ pretty (port server2) +:+ "/" +:+ database server2) +:+
         nl))
       text = true).
Proof.
  intros Hh1 Hp1 Hd1 Hh2 Hp2 Hd2.
  destruct (collect w) as [s w'] eqn:E.
  rewrite !(generate_markdown_report_collect _ _ _ _ _ E). split.
  - assert (render server1 server2 s = render server1' server2' s) as ->; [ | done].
    unfold render, report_sections, server_section, endpoint.
    by rewrite Hh1, Hp1, Hd1, Hh2, Hp2, Hd2.
  - intros text. cbn [fst]. unfold render.
    destruct (generate_recommendations _ _ _ _ _ _ _ _) as [recs | e]; [ | done].
    rewrite bind_Ok. intros Htext. apply Ok_inj in Htext. subst text.
    match goal with
    | |- contains (?h +:+ nl +:+ ?l1 +:+ nl +:+ ?l2) ?text = true =>
        change (contains (join nl [h; l1; l2]) text = true);
        refine (section_in_text _ _ 0%nat _ [] [h; l1; l2] [] _ _ _);
        [reflexivity | reflexivity | discriminate]
    end.
Qed.

Lemma vacuum_rows_take (vac : list dict) (title : string) :
  vacuum_rows (take 5 vac) title = vacuum_rows vac title.
Proof.
  destruct vac as [ | r vac]; [done | ].
  unfold vacuum_rows. change (take 5 (r :: vac)) with (r :: take 4 vac) at 1.
  cbv iota. by rewrite take_take.
Qed.

Lemma vacuum_rows_app (vac more : list dict) (title : string) :
  (5 <= length vac)%nat -> vacuum_rows (vac ++ more) title = vacuum_rows vac title.
Proof.
  intros H. destruct vac as [ | r vac]; [simpl in H; lia | ].
  unfold vacuum_rows. rewrite <- app_comm_cons. cbv iota.
  rewrite app_comm_cons. by rewrite take_app_le.
Qed.

(** X11. The autovacuum section shows the first five rows of each
    server and depends on no other row: the section for the rows
    fetched is the section for their first five, and rows after the
    fifth change nothing. *)
Theorem autovacuum_shows_first_five (vac1 vac2 : list dict) :
  autovacuum_section vac1 vac2 = autovacuum_section (take 5 vac1) (take 5 vac2) /\
  (forall more1 more2 : list dict,
     (5 <= length vac1)%nat -> (5 <= length vac2)%nat ->
     autovacuum_section (vac1 ++ more1) (vac2 ++ more2) = autovacuum_section vac1 vac2).
Proof.
  unfold autovacuum_section. split.
  - by rewrite !vacuum_rows_take.
  - intros more1 more2 H1 H2. by rewrite !vacuum_rows_app.
Qed.

Lemma str_decimal_percent (m : Z) :
  0 <= m <= 10000 ->
  str_decimal (Dec m 2) = pretty (m / 100) +:+ "." +:+ two_digits (m mod 100).
Proof.
  intros Hm.
  assert (forallb (fun m => String.eqb (str_decimal (Dec m 2))
                              (pretty (m / 100) +:+ "." +:+ two_digits (m mod 100)))
            (seqZ 0 10001) = true) as H by (vm_compute; reflexivity).
  rewrite forallb_forall in H. apply String.eqb_eq, H.
  apply list_elem_of_In, elem_of_seqZ. lia.
Qed.

(** X24. A percentage of two decimals between 0 and 100, as the cache
    and index statements return it, goes into its percent cell in
    plain notation with its two decimals, never with an exponent: the
    text the f-string builds is the whole part, a point, two digits and
    the percent sign. *)
Theorem percent_cell_plain_notation (d : dict) (k : string) (m : Z) :
  d !! k = Some (VDecimal (Dec m 2)) ->
  0 <= m <= 10000 ->
  percent_cell d k =
    VStr ((pretty (m / 100) +:+ "." +:+ two_digits (m mod 100)) +:+ "%").
Proof.
  intros Hk Hm. unfold percent_cell, dict_get. rewrite Hk. simpl.
  by rewrite str_decimal_percent.
Qed.

Lemma lookup_without (ks : list string) (d : dict) (k : string) :
  k ∉ ks -> without ks d !! k = d !! k.
Proof.
  induction ks as [ | k' ks IH]; simpl; [done | ].
  intros H. apply not_elem_of_cons in H as [Hne Hks].
  rewrite lookup_delete_ne by done. by apply IH.
Qed.

Ltac shown_column :=
  rewrite lookup_without by (apply (bool_decide_unpack _); vm_compute; exact I).

(** X12. The report reads the columns its tables name and no other:
    the text for a snapshot is the text for the snapshot without the
    columns [version], [maintenance_work_mem] and [wal_level] of the
    version statement, [idx_read] and [idx_hit] of the cache
    statement, [database_size_bytes], [avg_dead_rows], and
    [shared_buffers_level]. *)
Theorem unshown_columns_ignored (server1 server2 : ServerConfig) (s : snapshot) :
  render server1 server2 (shown_only s) = render server1 server2 s.
Proof.
  unfold render, shown_only. cbv zeta.
  cbn [version1 version2 connections1 connections2 cache_1 cache_2 indexes1 indexes2].
  assert (generate_recommendations
            (without ["version"; "maintenance_work_mem"; "wal_level"] (version1 s))
            (without ["version"; "maintenance_work_mem"; "wal_level"] (version2 s))
            (without ["idx_read"; "idx_hit"] (cache_1 s))
            (without ["idx_read"; "idx_hit"] (cache_2 s))
            (connections1 s) (connections2 s) (indexes1 s) (indexes2 s) =
          generate_recommendations (version1 s) (version2 s) (cache_1 s) (cache_2 s)
            (connections1 s) (connections2 s) (indexes1 s) (indexes2 s)) as ->.
  { unfold generate_recommendations, recommendations, cache_diff, float_field,
      dict_get_none, dict_get.
    by repeat shown_column. }
  destruct (generate_recommendations _ _ _ _ _ _ _ _) as [recs | e]; [ | done].
  rewrite !bind_Ok. do 3 f_equal.
  unfold report_sections.
  cbn [version1 version2 connections1 connections2 cache_1 cache_2 size1 size2
       tables1 tables2 indexes1 indexes2 locks1 locks2 active1 active2
       longest1 longest2 bloat1 bloat2 issues1 issues2 vacuum1 vacuum2
       memory1 memory2].
  unfold version_section, cache_section, size_section, table_section, memory_section,
    version_table, cache_table, size_table, table_stats, mem_table,
    cell, percent_cell, dict_get.
  by repeat shown_column.
Qed.

(** *** Further properties of [main] *)

Lemma main_connected (a : Args) (k1 k2 : Conn) :
  forallb given (required_args a) = true ->
  psycopg2_connect (make_server1 a) = inr k1 ->
  psycopg2_connect (make_server2 a) = inr k2 ->
  main a =
  (trace (snd (close (snd (run_report a (make_server1 a) (make_server2 a)
                             (connected_world k1 k2))))),
   fst (run_report a (make_server1 a) (make_server2 a) (connected_world k1 k2))).
Proof.
  intros Hargs H1 H2. unfold main, connect. rewrite Hargs, H1, H2. reflexivity.
Qed.

Lemma connected_world_connected (k1 k2 : Conn) : connected (connected_world k1 k2).
Proof. split; simpl; eauto. Qed.

Lemma close_connected (w : world) :
  connected w -> trace (snd (close w)) = trace w ++ [Closed Conn1; Closed Conn2].
Proof.
  intros [[k1 H1] [k2 H2]]. unfold close. cbv zeta. rewrite H1.
  cbn [conn2 emit]. rewrite H2. cbn [snd trace emit].
  by rewrite <- app_assoc.
Qed.

(** The body of the [try] ends by returning or with an exception, and
    writes the report file in the first case only. *)
Lemma run_report_written (a : Args) (server1 server2 : ServerConfig) (w : world) :
  connected w ->
  (fst (run_report a server1 server2 w) = Returned /\
   exists text,
     written (trace (snd (run_report a server1 server2 w))) =
     written (trace w) ++ [(output a, text)]) \/
  ((exists e, fst (run_report a server1 server2 w) = Uncaught e) /\
   written (trace (snd (run_report a server1 server2 w))) = written (trace w)).
Proof.
  intros Hw. unfold run_report, bind. destruct (format a).
  - destruct (collect w) as [s w'] eqn:E.
    rewrite (generate_markdown_report_collect _ _ _ _ _ E). cbn [fst snd].
    destruct (collect_frame w s w' Hw E) as (_ & _ & Hwr).
    destruct (render server1 server2 s) as [text | e]; [ | right; eauto].
    destruct (write_file (output a) text); [right; eauto | ].
    left. split; [done | ]. exists text.
    cbn [fst snd]. simpl. rewrite !written_app, Hwr. simpl. by rewrite !app_nil_r.
  - unfold ret. cbn [fst snd].
    destruct (write_file (output a) _); [right; eauto | ].
    left. split; [done | ]. eexists.
    cbn [fst snd]. simpl. rewrite !written_app. simpl. by rewrite !app_nil_r.
Qed.

(** X6. The exit status once the command line is parsed.  From the
    return of [parse_args] on, [main] ends the process by [sys.exit]
    exactly when a required argument is missing or empty, or a server
    cannot be connected, and always with status 1; a run that ends
    this way has sent no statement, written no file and closed no
    connection. *)
Theorem exit_status_after_parsing (a : Args) :
  (snd (main a) = SysExit 1 <->
     forallb given (required_args a) = false \/
     (exists e, psycopg2_connect (make_server1 a) = inl e) \/
     (exists e, psycopg2_connect (make_server2 a) = inl e)) /\
  (forall code : Z,
     snd (main a) = SysExit code ->
     code = 1 /\
     executed (fst (main a)) = [] /\
     written (fst (main a)) = [] /\
     closed (fst (main a)) = []).
Proof.
  destruct (forallb given (required_args a)) eqn:Hargs.
  - destruct (psycopg2_connect (make_server1 a)) as [e1 | k1] eqn:H1.
    + assert (main a =
              ([ LogInfo "🚀 Starting comparative diagnostic...";
                 LogError ("❌ Failed to connect to Server1-Fast: " +:+ e1) ],
               SysExit 1)) as ->
        by (unfold main, connect; rewrite Hargs, H1; reflexivity).
      split; [split; eauto | ]. by intros code [= <-].
    + destruct (psycopg2_connect (make_server2 a)) as [e2 | k2] eqn:H2.
      * rewrite (main_second_connect_fails a k1 e2 Hargs H1 H2).
        split; [split; eauto | ]. by intros code [= <-].
      * rewrite (main_connected a k1 k2 Hargs H1 H2). cbn [fst snd].
        destruct (run_report_written a (make_server1 a) (make_server2 a)
                    (connected_world k1 k2) (connected_world_connected k1 k2))
          as [[-> _] | [[e ->] _]].
        -- split; [ | done]. split; [done | ].
           intros [? | [[? ?] | [? ?]]]; done.
        -- split; [ | done]. split; [done | ].
           intros [? | [[? ?] | [? ?]]]; done.
  - assert (main a =
            ([ Help;
               LogError "❌ Missing required arguments. Use environment variables or command-line args." ],
             SysExit 1)) as ->
      by (unfold main; rewrite Hargs; reflexivity).
    split; [split; eauto | ]. by intros code [= <-].
Qed.

(** X7. Once both connections are made, [main] closes both on every
    way out of the [try], the report written, an exception of the
    report, or a file that cannot be written: the two [close] calls are
    the last events of the run, server 1 first, and nothing is closed
    before them. *)
Theorem connections_closed_last (a : Args) (k1 k2 : Conn) :
  forallb given (required_args a) = true ->
  psycopg2_connect (make_server1 a) = inr k1 ->
  psycopg2_connect (make_server2 a) = inr k2 ->
  exists tr,
    fst (main a) = tr ++ [Closed Conn1; Closed Conn2] /\
    closed tr = [] /\
    (snd (main a) = Returned \/ exists e, snd (main a) = Uncaught e).
Proof.
  intros Hargs H1 H2. rewrite (main_connected a k1 k2 Hargs H1 H2). cbn [fst snd].
  pose proof (connected_world_connected k1 k2) as Hw.
  destruct (run_report_frame a (make_server1 a) (make_server2 a) _ Hw) as [Hw' Hcl].
  exists (trace (snd (run_report a (make_server1 a) (make_server2 a)
                        (connected_world k1 k2)))).
  split; [by apply close_connected | ]. split; [exact Hcl | ].
  destruct (run_report_written a (make_server1 a) (make_server2 a) _ Hw)
    as [[-> _] | [[e ->] _]]; eauto.
Qed.


End Diagnostic.

(** The program on the sample runtime. *)
Abbreviation sample_main :=
  (main no_float no_int bar_table row_count compact_json sample_now nat
     sample_connect sample_execute always_writable).

Abbreviation sample_report :=
  (generate_markdown_report no_float no_int bar_table row_count sample_now nat
     sample_execute
     (make_server1 (sample_args Markdown "slow.example.org"))
     (make_server2 (sample_args Markdown "slow.example.org"))).

(** *** The rules on sample inputs *)

(** C1 on the code: when no rule fires the method returns one line, and
    it is the line of the cache rule's [else] branch, not the fallback
    message: the fallback tests for an empty list after the cache rule
    has appended a line on either of its branches.  Shown for two
    servers that agree on every field, and for two empty snapshots. *)
Theorem no_rule_fires_returns_cache_line :
  recommendations no_float no_int same_version same_version
    (cache_row 9900) (cache_row 9900) (usage_row 10) (usage_row 10)
    same_index same_index = Ok [cache_similar] /\
  generate_recommendations no_float no_int ∅ ∅ ∅ ∅ ∅ ∅ ∅ ∅ = Ok cache_similar /\
  cache_similar <> no_major_differences.
Proof. repeat split; [vm_compute; reflexivity .. | discriminate]. Qed.

(** C2, the claim as stated fails: with hit percents 95.00 and 85.00
    the delta is exactly -10, the comparison [cache_diff < -10] is
    false, and the list is the one informational line. *)
Lemma cache_delta_minus_10_not_critical :
  cache_diff no_float (cache_row 9500) (cache_row 8500) = Ok (of_Z (-10)) /\
  recommendations no_float no_int ∅ ∅ (cache_row 9500) (cache_row 8500) ∅ ∅ ∅ ∅
    = Ok [cache_similar] /\
  has_line cache_critical_mark [cache_similar] = false.
Proof. repeat split; vm_compute; reflexivity. Qed.

Lemma cache_rule_strict_witness :
  inputs_numeric (cache_row 9500) (cache_row 8000) ∅ ∅ ∅ ∅ = true /\
  exists recs,
    recommendations no_float no_int ∅ ∅ (cache_row 9500) (cache_row 8000) ∅ ∅ ∅ ∅
      = Ok recs /\
    has_line cache_critical_mark recs = true.
Proof.
  assert (inputs_numeric (cache_row 9500) (cache_row 8000) ∅ ∅ ∅ ∅ = true) as H
    by (vm_compute; reflexivity).
  split; [exact H | ].
  destruct (cache_rule_strict no_float no_int ∅ ∅ (cache_row 9500) (cache_row 8000)
              ∅ ∅ ∅ ∅ H) as (cd & recs & Hcd & Hrecs & Hbelow & _).
  exists recs. split; [exact Hrecs | ].
  apply Hbelow. vm_compute in Hcd. injection Hcd as <-. reflexivity.
Defined.

(** The deltas of the specification's examples: -15.0 gives the
    critical advisory with 15.0 in its title, -5.0 the informational
    line only. *)
Example cache_delta_minus_15 :
  exists rest,
    recommendations no_float no_int ∅ ∅ (cache_row 9500) (cache_row 8000) ∅ ∅ ∅ ∅
      = Ok (cache_title (of_Z (-15)) :: rest) /\
    contains "15.0" (cache_title (of_Z (-15))) = true.
Proof. eexists. split; vm_compute; reflexivity. Qed.

(** The delta is the one of the floats: 6.01 and 16.01 are exactly 10
    apart as decimals, their nearest floats are a little more than 10
    apart, and the advisory is emitted. *)
Example cache_delta_rounded_below_minus_10 :
  exists rest,
    recommendations no_float no_int ∅ ∅ (cache_row 1601) (cache_row 601) ∅ ∅ ∅ ∅
      = Ok (cache_title (sub (of_scaled 601 2) (of_scaled 1601 2)) :: rest) /\
    ltb (sub (of_scaled 601 2) (of_scaled 1601 2)) (of_Z (-10)) = true /\
    format_1f (abs (sub (of_scaled 601 2) (of_scaled 1601 2))) = "10.0".
Proof. eexists. repeat split; vm_compute; reflexivity. Qed.

Example cache_delta_minus_5 :
  recommendations no_float no_int ∅ ∅ (cache_row 9500) (cache_row 9000) ∅ ∅ ∅ ∅
    = Ok [cache_similar].
Proof. vm_compute; reflexivity. Qed.

Lemma connection_pool_rule_witness :
  percentages_numeric ∅ ∅ ∅ ∅ = true /\
  whole_usage (usage_row 40) = true /\ whole_usage (usage_row 65) = true /\
  exists recs,
    recommendations no_float no_int ∅ ∅ ∅ ∅ (usage_row 40) (usage_row 65) ∅ ∅
      = Ok recs /\
    has_line pool_mark recs = true.
Proof.
  assert (percentages_numeric ∅ ∅ ∅ ∅ = true) as Hp by (vm_compute; reflexivity).
  assert (whole_usage (usage_row 40) = true) as H1 by (vm_compute; reflexivity).
  assert (whole_usage (usage_row 65) = true) as H2 by (vm_compute; reflexivity).
  repeat (split; [assumption | ]).
  destruct (connection_pool_rule no_float no_int ∅ ∅ ∅ ∅ (usage_row 40) (usage_row 65)
              ∅ ∅ Hp H1 H2) as (recs & Hrecs & Hiff & _).
  exists recs. split; [exact Hrecs | ].
  apply Hiff. vm_compute. reflexivity.
Defined.

(** The deltas of the specification's examples: 25 gives the advisory,
    15 does not. *)
Example connection_delta_25 :
  recommendations no_float no_int ∅ ∅ ∅ ∅ (usage_row 40) (usage_row 65) ∅ ∅
    = Ok (cache_similar :: pool_advisory 25).
Proof. vm_compute; reflexivity. Qed.

Example connection_delta_15 :
  recommendations no_float no_int ∅ ∅ ∅ ∅ (usage_row 40) (usage_row 55) ∅ ∅
    = Ok [cache_similar].
Proof. vm_compute; reflexivity. Qed.

(** *** The report and [main] on the sample runtime *)



(** The sample run: the cache statement is refused on each server and
    so are the ten statements after it, 22 error lines in all, of
    which two name the missing privilege. *)
Example sample_run_failures :
  failures nat sample_execute 0%nat 0%nat =
  [ "Query execution failed: permission denied for view pg_statio_user_tables";
    "Query execution failed: permission denied for view pg_statio_user_tables" ] ++
  replicate 20
    "Query execution failed: current transaction is aborted, commands ignored until end of transaction block".
Proof. vm_compute. reflexivity. Qed.



(** C9 on the code: server 1 connects, server 2 does not.  The process
    ends with exit code 1 from inside [connect]; the connection to
    server 1 has been opened and the trace holds no [close] of it. *)
Theorem first_connection_left_open :
  sample_main (sample_args Markdown "unreachable.example.org") =
  ([ LogInfo "🚀 Starting comparative diagnostic...";
     Connected Conn1;
     LogInfo "✅ Connected to Server1-Fast";
     LogError "❌ Failed to connect to Server2-Slow: connection timed out" ],
   SysExit 1) /\
  closed (fst (sample_main (sample_args Markdown "unreachable.example.org"))) = [] /\
  closed (fst (sample_main (sample_args Markdown "slow.example.org"))) = [Conn1; Conn2].
Proof.
  pose proof (main_second_connect_fails no_float no_int bar_table row_count
                compact_json sample_now nat sample_connect sample_execute
                always_writable (sample_args Markdown "unreachable.example.org")
                0%nat "connection timed out" eq_refl eq_refl eq_refl) as Hexit.
  split; [exact Hexit | split].
  - rewrite Hexit. reflexivity.
  - apply (main_closes_both no_float no_int bar_table row_count compact_json
             sample_now nat sample_connect sample_execute always_writable
             _ 0%nat 0%nat); reflexivity.
Qed.


(** The passwords are in the text the sample run writes. *)
Example json_output_shows_passwords :
  exists content,
    written (fst (sample_main (sample_args Json "slow.example.org"))) =
      [("azure_comparison.md", content)] /\
    contains "pass1" content = true /\ contains "pass2" content = true /\
    contains "JSON format not yet implemented" content = true.
Proof. eexists. split; [vm_compute; reflexivity | ]. repeat split; vm_compute; reflexivity. Qed.

(** *** The further properties on sample inputs *)

Lemma index_usage_rule_witness :
  inputs_numeric ∅ ∅ ∅ ∅ (unused_row 200) (unused_row 1250) = true /\
  exists recs,
    recommendations no_float no_int ∅ ∅ ∅ ∅ ∅ ∅ (unused_row 200) (unused_row 1250)
      = Ok recs /\
    has_line index_mark recs = true.
Proof.
  assert (inputs_numeric ∅ ∅ ∅ ∅ (unused_row 200) (unused_row 1250) = true) as H
    by (vm_compute; reflexivity).
  split; [exact H | ].
  destruct (index_usage_rule no_float no_int ∅ ∅ ∅ ∅ ∅ ∅ (unused_row 200)
              (unused_row 1250) H) as (ud & recs & Hud & Hrecs & Hline & _).
  exists recs. split; [exact Hrecs | ].
  rewrite Hline. vm_compute in Hud. injection Hud as <-. reflexivity.
Defined.

(** An unused-index delta of 10.5 gives the advisory with [10.5] in its
    title; a delta of exactly 5 gives none. *)
Example unused_delta_10_5 :
  exists title remedy,
    recommendations no_float no_int ∅ ∅ ∅ ∅ ∅ ∅ (unused_row 200) (unused_row 1250)
      = Ok [cache_similar; title; remedy] /\
    contains "10.5% more unused indexes" title = true.
Proof. eexists. eexists. split; vm_compute; reflexivity. Qed.

Example unused_delta_5 :
  recommendations no_float no_int ∅ ∅ ∅ ∅ ∅ ∅ (unused_row 1000) (unused_row 1500)
    = Ok [cache_similar].
Proof. vm_compute; reflexivity. Qed.

Lemma memory_config_rule_witness :
  inputs_numeric ∅ ∅ ∅ ∅ ∅ ∅ = true /\
  exists recs,
    recommendations no_float no_int (buffers_row "128MB") (buffers_row "4GB")
      ∅ ∅ ∅ ∅ ∅ ∅ = Ok recs /\
    has_line memory_mark recs = true.
Proof.
  assert (inputs_numeric ∅ ∅ ∅ ∅ ∅ ∅ = true) as H by (vm_compute; reflexivity).
  split; [exact H | ].
  destruct (memory_config_rule no_float no_int (buffers_row "128MB") (buffers_row "4GB")
              ∅ ∅ ∅ ∅ ∅ ∅ H) as (recs & Hrecs & Htext & _).
  exists recs. split; [exact Hrecs | ].
  apply (Htext "128MB" "4GB"); [reflexivity | reflexivity | discriminate].
Defined.

(** The same amount of memory written in two units is a difference. *)
Example memory_same_size_other_unit :
  recommendations no_float no_int (buffers_row "128MB") (buffers_row "131072kB")
    ∅ ∅ ∅ ∅ ∅ ∅
  = Ok (cache_similar :: memory_advisory (VStr "128MB") (VStr "131072kB")).
Proof. vm_compute; reflexivity. Qed.

Lemma fallback_never_returned_witness :
  generate_recommendations no_float no_int same_version same_version
    (cache_row 9900) (cache_row 9900) (usage_row 10) (usage_row 10)
    same_index same_index = Ok cache_similar /\
  cache_similar <> no_major_differences.
Proof.
  assert (generate_recommendations no_float no_int same_version same_version
            (cache_row 9900) (cache_row 9900) (usage_row 10) (usage_row 10)
            same_index same_index = Ok cache_similar) as H
    by (vm_compute; reflexivity).
  split; [exact H | ].
  destruct (fallback_never_returned no_float no_int _ _ _ _ _ _ _ _ _ H)
    as (_ & _ & Hne).
  exact Hne.
Defined.

Lemma unavailable_hit_percent_witness :
  unavailable ∅ "cache_hit_percent" /\
  exists recs,
    recommendations no_float no_int ∅ ∅ (cache_row 9500) ∅ ∅ ∅ ∅ ∅ = Ok recs /\
    has_line cache_critical_mark recs = true.
Proof.
  assert (unavailable ∅ "cache_hit_percent") as Hun by (left; reflexivity).
  split; [exact Hun | ].
  assert (inputs_numeric (cache_row 9500) ∅ ∅ ∅ ∅ ∅ = true) as H
    by (vm_compute; reflexivity).
  destruct (unavailable_hit_percent_counts_as_zero no_float no_int ∅ ∅
              (cache_row 9500) ∅ ∅ ∅ ∅ ∅ 9500 H ltac:(lia)) as [Hfail _].
  destruct (Hfail eq_refl Hun) as (recs & Hrecs & _ & Hline).
  exists recs. split; [exact Hrecs | ]. apply Hline. lia.
Defined.

Lemma rules_direction_witness :
  whole_usage (usage_row 40) = true /\ whole_usage (usage_row 65) = true /\
  exists recs swapped,
    recommendations no_float no_int ∅ ∅ ∅ ∅ (usage_row 40) (usage_row 65) ∅ ∅
      = Ok recs /\
    recommendations no_float no_int ∅ ∅ ∅ ∅ (usage_row 65) (usage_row 40) ∅ ∅
      = Ok swapped /\
    has_line pool_mark recs = true /\
    has_line pool_mark swapped = false.
Proof.
  assert (percentages_numeric ∅ ∅ ∅ ∅ = true) as Hp by (vm_compute; reflexivity).
  assert (whole_usage (usage_row 40) = true) as H1 by (vm_compute; reflexivity).
  assert (whole_usage (usage_row 65) = true) as H2 by (vm_compute; reflexivity).
  repeat (split; [assumption | ]).
  destruct (rules_direction no_float no_int ∅ ∅ ∅ ∅ (usage_row 40) (usage_row 65)
              ∅ ∅ Hp Hp H1 H2) as (recs & swapped & Hrecs & Hswapped & Hpool & _).
  exists recs, swapped. split; [exact Hrecs | ]. split; [exact Hswapped | ].
  assert (has_line pool_mark recs = true) as Hfires.
  { vm_compute in Hrecs. injection Hrecs as <-. reflexivity. }
  split; [exact Hfires | exact (Hpool Hfires)].
Defined.

Lemma connections_closed_last_witness :
  exists tr,
    fst (sample_main (sample_args Markdown "slow.example.org")) =
      tr ++ [Closed Conn1; Closed Conn2] /\
    closed tr = [].
Proof.
  destruct (connections_closed_last no_float no_int bar_table row_count compact_json
              sample_now nat sample_connect sample_execute always_writable
              (sample_args Markdown "slow.example.org") 0%nat 0%nat
              eq_refl eq_refl eq_refl) as (tr & Htr & Hcl & _).
  exists tr. split; [exact Htr | exact Hcl].
Defined.


Lemma report_reads_endpoints_only_witness :
  password (other_credentials (make_server1 (sample_args Markdown "slow.example.org")))
    <> password (make_server1 (sample_args Markdown "slow.example.org")) /\
  sample_report (World nat (Some 0%nat) (Some 0%nat) []) =
  generate_markdown_report no_float no_int bar_table row_count sample_now nat
    sample_execute
    (other_credentials (make_server1 (sample_args Markdown "slow.example.org")))
    (other_credentials (make_server2 (sample_args Markdown "slow.example.org")))
    (World nat (Some 0%nat) (Some 0%nat) []).
Proof.
  split; [discriminate | ].
  apply (report_reads_endpoints_only no_float no_int bar_table row_count
           sample_now nat sample_execute); reflexivity.
Defined.

Lemma report_run_effects_witness :
  connected nat (World nat (Some 0%nat) (Some 0%nat) []) /\
  exists evs,
    trace nat (snd (sample_report (World nat (Some 0%nat) (Some 0%nat) []))) = evs /\
    executed evs = catalog_order /\
    forallb statement_event evs = true.
Proof.
  assert (connected nat (World nat (Some 0%nat) (Some 0%nat) [])) as Hw
    by (split; simpl; eauto).
  split; [exact Hw | ].
  destruct (report_run_effects no_float no_int bar_table row_count sample_now nat
              sample_execute
              (make_server1 (sample_args Markdown "slow.example.org"))
              (make_server2 (sample_args Markdown "slow.example.org"))
              _ Hw) as (evs & Htr & Hev & Hex & _).
  exists evs. split; [exact Htr | ]. split; [exact Hex | exact Hev].
Defined.

Lemma collections_independent_witness :
  rows_of Conn1 (fst (collect nat sample_execute (World nat (Some 0%nat) (Some 0%nat) []))) =
  rows_of Conn1 (fst (collect nat sample_execute (World nat (Some 0%nat) None [Help]))).
Proof.
  destruct (collections_independent nat sample_execute Conn1
              (World nat (Some 0%nat) (Some 0%nat) [])
              (World nat (Some 0%nat) None [Help]) eq_refl) as [Hrows _].
  exact Hrows.
Defined.

Lemma percent_cell_plain_notation_witness :
  percent_cell (cache_row 9500) "cache_hit_percent" = VStr "95.00%" /\
  percent_cell (cache_row 5) "cache_hit_percent" = VStr "0.05%".
Proof.
  split.
  - apply (percent_cell_plain_notation (cache_row 9500) "cache_hit_percent" 9500);
      [reflexivity | lia].
  - apply (percent_cell_plain_notation (cache_row 5) "cache_hit_percent" 5);
      [reflexivity | lia].
Defined.

(** *** Properties of the cache-hit statement *)

(** The ratio evaluates to a value or to NULL, never to an error: the
    denominator goes through [NULLIF(..., 0)]. *)
Lemma sum_column_no_error (col : list (option Z)) :
  exists x, sum_column col = of_column x.
Proof.
  unfold sum_column. destruct (omap id col) as [ | z zs].
  - by exists None.
  - by eexists (Some _).
Qed.

Lemma hit_percent_no_error (hit read : option numeric) :
  exists x, hit_percent (of_column hit) (of_column read) = of_column x.
Proof.
  unfold hit_percent.
  destruct hit as [h | ], read as [r | ]; simpl; try (by exists None).
  unfold nullif. destruct (num_eqb (num_add h r) (num_of_int 0)) eqn:E; simpl.
  - by exists None.
  - unfold num_div.
    destruct (nval (num_add h r) =? 0) eqn:E0; simpl; [ | by eexists (Some _)].
    exfalso. apply Z.eqb_eq in E0.
    unfold num_eqb, at_scale in E. rewrite E0 in E. simpl in E.
    discriminate E.
Qed.

Lemma hit_percent_zero_total (hit read : Z) :
  hit_percent (Value (num_of_int hit)) (Value (num_of_int read)) = Null <->
  hit + read = 0.
Proof.
  unfold hit_percent. simpl. unfold nullif, num_eqb, num_add, at_scale, pow10. simpl.
  rewrite !Z.mul_1_r.
  destruct (hit + read =? 0) eqn:E; simpl.
  - apply Z.eqb_eq in E. done.
  - apply Z.eqb_neq in E. unfold num_div. simpl.
    destruct (hit + read =? 0) eqn:E'; [apply Z.eqb_eq in E'; lia | ].
    split; [done | lia].
Qed.

Lemma cache_query_no_error (t : list statio_row) :
  exists row, cache_query t = inr row.
Proof.
  unfold cache_query.
  destruct (sum_column_no_error (heap_blks_read <$> t)) as [hr ->].
  destruct (sum_column_no_error (heap_blks_hit <$> t)) as [hh ->].
  destruct (sum_column_no_error (idx_blks_read <$> t)) as [ir ->].
  destruct (sum_column_no_error (idx_blks_hit <$> t)) as [ih ->].
  destruct (hit_percent_no_error hh hr) as [x ->].
  destruct (hit_percent_no_error ih ir) as [y ->].
  destruct x, y; simpl; eauto.
Qed.

Example hit_percent_950_50 :
  hit_percent (Value (num_of_int 950)) (Value (num_of_int 50)) = Value (Num 9500 2).
Proof. vm_compute. reflexivity. Qed.

(** C4 on the code: with no block read and none hit, the ratio is NULL
    and no division is attempted; psycopg2 hands it over as [None]
    under its key, so [get] finds the key and its default does not
    apply: the cell prints [None%], not the placeholder.  The rules,
    which read the same field through [or 0], take it for zero. *)
Theorem zero_blocks_print_none :
  cache_query [ {| heap_blks_read := Some 0; heap_blks_hit := Some 0;
                   idx_blks_read := Some 0; idx_blks_hit := Some 0 |} ]
    = inr idle_cache_row /\
  idle_cache_row !! "cache_hit_percent" = Some VNone /\
  percent_cell idle_cache_row "cache_hit_percent" = VStr "None%" /\
  placeholder (percent_cell idle_cache_row "cache_hit_percent") = false /\
  percent_cell ∅ "cache_hit_percent" = VStr "N/A%" /\
  float_field no_float idle_cache_row "cache_hit_percent" = Ok (of_Z 0).
Proof. repeat split; vm_compute; reflexivity. Qed.

(** *** Properties of the performance-issue statement *)

(** The WHERE clause keeps exactly the rows that qualify, and does not
    fail while [idx_scan * 10] is a [bigint]. *)
Lemma where_clause_qualifies (r : stat_row) :
  scans_in_range r = true ->
  where_clause r = Value true /\ qualifies r = true \/
  (where_clause r = Value false \/ where_clause r = Null) /\ qualifies r = false.
Proof.
  unfold scans_in_range, where_clause, missing_index, full_table_scans, qualifies,
    is_missing_index, is_full_table_scans.
  destruct (seq_scan r) as [s | ], (idx_scan r) as [i | ]; simpl; intros H.
  - unfold int8_mul. rewrite H. simpl.
    replace (i * 10) with (10 * i) by lia.
    destruct (i =? 0), (100 <? s), (10 * i <? s); simpl; auto.
  - destruct (100 <? s); simpl; auto.
  - unfold int8_mul. rewrite H. simpl. destruct (i =? 0); simpl; auto.
  - auto.
Qed.

Lemma select_where_filter (t : list stat_row) :
  forallb scans_in_range t = true ->
  select_where t = inr (List.filter qualifies t).
Proof.
  induction t as [ | r t IH]; simpl; [done | ].
  rewrite andb_true_iff. intros [Hr Ht]. rewrite (IH Ht).
  destruct (where_clause_qualifies r Hr) as [[-> ->] | [[-> | ->] ->]]; done.
Qed.

Lemma issue_type_qualifies (r : stat_row) (s i : Z) :
  seq_scan r = Some s -> idx_scan r = Some i ->
  scans_in_range r = true ->
  is_missing_index s i || is_full_table_scans s i = true ->
  issue_type r =
    Value (if is_missing_index s i then "MISSING_INDEX" else "FULL_TABLE_SCANS").
Proof.
  unfold scans_in_range, issue_type, missing_index, full_table_scans,
    is_missing_index, is_full_table_scans.
  intros -> -> H. simpl. unfold int8_mul. rewrite H. simpl.
  replace (i * 10) with (10 * i) by lia.
  destruct (i =? 0), (100 <? s), (10 * i <? s); simpl; done.
Qed.

Lemma select_list_classified (r : stat_row) :
  scans_in_range r = true -> qualifies r = true -> classified (select_list r).
Proof.
  intros Hr Hq. unfold qualifies in Hq.
  destruct (seq_scan r) as [s | ] eqn:Hs; [ | done].
  destruct (idx_scan r) as [i | ] eqn:Hi; [ | done].
  exists s, i. unfold select_list.
  rewrite (issue_type_qualifies r s i Hs Hi Hr Hq), Hs, Hi.
  repeat split; try done.
Qed.

#[local] Instance seq_scan_desc_total : Total seq_scan_desc.
Proof.
  intros a b. unfold seq_scan_desc.
  destruct (seq_scan a), (seq_scan b); auto. lia.
Qed.

#[local] Instance seq_scan_desc_trans : Transitive seq_scan_desc.
Proof.
  intros a b c. unfold seq_scan_desc.
  destruct (seq_scan a), (seq_scan b), (seq_scan c); auto; try done. lia.
Qed.

Lemma StronglySorted_take {A} (R : relation A) (n : nat) (l : list A) :
  StronglySorted R l -> StronglySorted R (take n l).
Proof.
  intros H. rewrite <- (take_drop n l) in H.
  by apply StronglySorted_app_1_l in H.
Qed.

Lemma select_list_seq_scan (r : stat_row) (s : Z) :
  seq_scan r = Some s -> row_seq_scan (select_list r) = s.
Proof. intros H. unfold row_seq_scan, select_list. rewrite H. done. Qed.

Lemma select_list_counters (r : stat_row) :
  select_list r !! "seq_scan" = Some (py_of_int (seq_scan r)) /\
  select_list r !! "idx_scan" = Some (py_of_int (idx_scan r)).
Proof. split; reflexivity. Qed.

Lemma classified_qualifies (r : stat_row) :
  classified (select_list r) -> qualifies r = true.
Proof.
  intros (s & i & Hs & Hi & Hq & _).
  destruct (select_list_counters r) as [Es Ei].
  rewrite Es in Hs. rewrite Ei in Hi. unfold qualifies.
  destruct (seq_scan r), (idx_scan r); simpl in *; congruence.
Qed.

(** C5. While every [idx_scan * 10] is a [bigint], the statement
    returns rows: the select list of the first 15 of the qualifying
    table rows sorted by [seq_scan], largest first.  Every row returned
    carries both counters, meets one of the two conditions, and is
    labelled MISSING_INDEX exactly when [idx_scan = 0] and
    [seq_scan > 100], FULL_TABLE_SCANS otherwise (then
    [seq_scan > 10 * idx_scan]); a table row that meets neither
    condition is not among them. *)
Theorem performance_issues_classified (t : list stat_row) :
  forallb scans_in_range t = true ->
  exists rows sorted,
    performance_query t = inr rows /\
    rows = select_list <$> take 15 sorted /\
    sorted ≡ₚ List.filter qualifies t /\
    StronglySorted seq_scan_desc sorted /\
    (length rows <= 15)%nat /\
    Forall classified rows /\
    StronglySorted (fun a b => row_seq_scan b <= row_seq_scan a) rows /\
    (forall r, qualifies r = false -> ~ In (select_list r) rows).
Proof.
  intros Ht.
  set (kept := List.filter qualifies t).
  set (sorted := merge_sort seq_scan_desc kept).
  assert (Forall (fun r => scans_in_range r = true /\ qualifies r = true) sorted) as Hall.
  { apply Forall_forall. intros r Hr.
    assert (r ∈ kept) as Hk by (by rewrite <- (merge_sort_Permutation seq_scan_desc kept)).
    apply list_elem_of_In, filter_In in Hk as [Hin Hq].
    split; [ | done].
    rewrite forallb_forall in Ht. by apply Ht. }
  assert (StronglySorted seq_scan_desc sorted) as Hsorted
    by (apply StronglySorted_merge_sort; apply _).
  exists (select_list <$> take 15 sorted), sorted.
  split; [ | split; [done | split; [apply merge_sort_Permutation | split; [done | ]]]].
  { unfold performance_query. by rewrite (select_where_filter t Ht). }
  assert (Forall classified (select_list <$> take 15 sorted)) as Hclass.
  { apply Forall_fmap, Forall_take. eapply Forall_impl; [exact Hall | ].
    intros r [Hr Hq]. by apply select_list_classified. }
  split; [ | split; [exact Hclass | split]].
  - rewrite length_fmap, length_take. lia.
  - clear Hclass.
    apply StronglySorted_take with (n := 15%nat) in Hsorted.
    apply Forall_take with (n := 15%nat) in Hall.
    induction Hsorted as [ | r l Hl IH Hr]; simpl; [constructor | ].
    apply Forall_cons in Hall as [[_ Hq] Hall].
    constructor; [by apply IH | ].
    apply Forall_fmap, Forall_forall. intros r' Hr'.
    rewrite Forall_forall in Hr, Hall.
    specialize (Hr r' Hr'). destruct (Hall r' Hr') as [_ Hq'].
    unfold qualifies in Hq, Hq'. unfold seq_scan_desc in Hr. simpl.
    destruct (seq_scan r) as [s | ] eqn:Hs; [ | done].
    destruct (seq_scan r') as [s' | ] eqn:Hs'; [ | done].
    by rewrite (select_list_seq_scan r s Hs), (select_list_seq_scan r' s' Hs').
  - intros r Hq Hin. rewrite Forall_forall in Hclass.
    apply list_elem_of_In, Hclass, classified_qualifies in Hin. congruence.
Qed.

Lemma performance_issues_classified_witness :
  let t := [ Build_stat_row "public" "orders" (Some 150) (Some 0) "12 MB";
             Build_stat_row "public" "events" (Some 50) (Some 4) "3 MB";
             Build_stat_row "public" "users" (Some 10) (Some 5) "1 MB" ] in
  forallb scans_in_range t = true /\
  exists rows,
    performance_query t = inr rows /\ Forall classified rows /\ (length rows <= 15)%nat.
Proof.
  cbv zeta. split; [reflexivity | ].
  destruct (performance_issues_classified
              [ Build_stat_row "public" "orders" (Some 150) (Some 0) "12 MB";
                Build_stat_row "public" "events" (Some 50) (Some 4) "3 MB";
                Build_stat_row "public" "users" (Some 10) (Some 5) "1 MB" ] eq_refl)
    as (rows & sorted & Hq & _ & _ & _ & Hlen & Hclass & _).
  exists rows. split; [exact Hq | split; [exact Hclass | exact Hlen]].
Defined.

(** The rows of the specification's examples: (idx_scan 0, seq_scan
    150) is MISSING_INDEX, (seq_scan 50, idx_scan 4) is
    FULL_TABLE_SCANS, (seq_scan 10, idx_scan 5) is not returned. *)
Example performance_issues_examples :
  match performance_query
          [ Build_stat_row "public" "users" (Some 10) (Some 5) "1 MB";
            Build_stat_row "public" "events" (Some 50) (Some 4) "3 MB";
            Build_stat_row "public" "orders" (Some 150) (Some 0) "12 MB" ] with
  | inr rows => (fun row : dict => (row !! "table_name", row !! "issue_type")) <$> rows
  | inl _ => []
  end
  = [ (Some (VStr "orders"), Some (VStr "MISSING_INDEX"));
      (Some (VStr "events"), Some (VStr "FULL_TABLE_SCANS")) ].
Proof. vm_compute. reflexivity. Qed.

(** An index scan count whose tenfold is no [bigint] aborts the
    statement, and [execute_query] then returns no row at all. *)
Example performance_query_out_of_range :
  performance_query
    [ Build_stat_row "public" "orders" (Some 150) (Some 0) "12 MB";
      Build_stat_row "public" "hot" (Some 5) (Some (10 ^ 18)) "9 GB" ]
  = inl BigintOutOfRange.
Proof. vm_compute. reflexivity. Qed.

(** *** Properties of [numeric] division and rounding *)

(** The number of decimal digits of a positive integer. *)
Lemma N_div_10 (x : N) :
  Z.of_N x = 10 * Z.of_N (x `div` 10) + Z.of_N (x `mod` 10) /\
  0 <= Z.of_N (x `mod` 10) < 10.
Proof.
  split.
  - rewrite (N.div_mod x 10) at 1 by done.
    by rewrite N2Z.inj_add, N2Z.inj_mul.
  - split; [apply N2Z.is_nonneg | ].
    change 10 with (Z.of_N 10). by apply N2Z.inj_lt, N.mod_lt.
Qed.

Lemma pretty_N_go_length (x : N) :
  forall s, exists k : nat,
    String.length (pretty_N_go x s) = (String.length s + k)%nat /\
    (x = 0%N -> k = 0%nat) /\
    ((0 < x)%N -> 10 ^ (Z.of_nat k - 1) <= Z.of_N x < 10 ^ Z.of_nat k).
Proof.
  induction (N.lt_wf_0 x) as [x _ IH]. intros s.
  destruct (decide (x = 0%N)) as [-> | Hx].
  - exists 0%nat. rewrite pretty_N_go_0. split; [lia | ]. split; [done | lia].
  - assert (0 < x)%N as Hpos by lia.
    rewrite pretty_N_go_step by done.
    destruct (IH (x `div` 10)%N (N.div_lt x 10 Hpos eq_refl)
                (String (pretty_N_char (x `mod` 10)) s)) as (k & Hlen & H0 & Hk).
    exists (S k). split; [simpl in Hlen; lia | ]. split; [lia | ]. intros _.
    destruct (N_div_10 x) as [Hdm Hm].
    assert (0 < Z.of_N x) as Hpos' by lia.
    destruct (decide (x `div` 10 = 0)%N) as [E | E].
    + rewrite (H0 E). change (10 ^ (Z.of_nat 1 - 1)) with 1.
      change (10 ^ Z.of_nat 1) with 10. rewrite E in Hdm.
      change (Z.of_N 0) with 0 in Hdm.
      generalize dependent (Z.of_N (x `mod` 10)). generalize dependent (Z.of_N x).
      clear. intros. lia.
    + specialize (Hk ltac:(lia)).
      destruct k as [ | k]; [simpl in Hk; lia | ].
      replace (Z.of_nat (S k) - 1) with (Z.of_nat k) in Hk by lia.
      replace (Z.of_nat (S k)) with (Z.succ (Z.of_nat k)) in Hk by lia.
      replace (Z.of_nat (S (S k)) - 1) with (Z.succ (Z.of_nat k)) by lia.
      replace (Z.of_nat (S (S k))) with (Z.succ (Z.succ (Z.of_nat k))) by lia.
      rewrite !Z.pow_succ_r by lia. rewrite Z.pow_succ_r in Hk by lia.
      generalize dependent (10 ^ Z.of_nat k).
      generalize dependent (Z.of_N (x `div` 10)).
      generalize dependent (Z.of_N (x `mod` 10)). generalize dependent (Z.of_N x).
      clear. intros. lia.
Qed.

Lemma decimal_digits_spec (n : Z) :
  0 < n -> 0 < decimal_digits n /\ 10 ^ (decimal_digits n - 1) <= n < 10 ^ decimal_digits n.
Proof.
  intros Hn. unfold decimal_digits. rewrite Z.abs_eq by lia.
  destruct n as [ | p | p]; try lia.
  unfold pretty, pretty_Z, pretty, pretty_positive, pretty, pretty_N.
  rewrite decide_False by lia.
  destruct (pretty_N_go_length (N.pos p) "") as (k & -> & _ & Hk).
  specialize (Hk ltac:(lia)). simpl String.length. rewrite Nat.add_0_l.
  assert (0 < Z.of_nat k).
  { destruct k; [ | lia]. simpl in Hk. lia. }
  split; [done | ]. exact Hk.
Qed.

(** The weight and the first base-10000 digit of a [numeric] of at
    least 1. *)
Lemma pow10_pos (e : Z) : 0 <= e -> 0 < 10 ^ e.
Proof. intros. by apply Z.pow_pos_nonneg. Qed.

Lemma weight_spec (a : numeric) (w f : Z) :
  10 ^ Z.of_nat (dscale a) <= nval a ->
  weight_and_first_digit a = (w, f) ->
  0 <= w /\
  10 ^ (Z.of_nat (dscale a) + 4 * w) <= nval a < 10 ^ (Z.of_nat (dscale a) + 4 * w + 4) /\
  f * 10 ^ (Z.of_nat (dscale a) + 4 * w) <= nval a
    < (f + 1) * 10 ^ (Z.of_nat (dscale a) + 4 * w).
Proof.
  intros Hone. unfold weight_and_first_digit.
  pose proof (pow10_pos (Z.of_nat (dscale a)) ltac:(lia)) as Hd.
  assert (0 < nval a) as Hpos by lia.
  destruct (nval a =? 0) eqn:E; [apply Z.eqb_eq in E; lia | ].
  destruct (decimal_digits_spec (nval a) Hpos) as (Hdig & Hlo & Hhi).
  set (L := decimal_digits (nval a) - 1) in *.
  replace (decimal_digits (nval a)) with (L + 1) in Hhi by (unfold L; lia).
  set (d := Z.of_nat (dscale a)) in *.
  assert (0 <= d) as Hd0 by (unfold d; lia).
  assert (0 <= L) as HL0 by (unfold L; lia).
  assert (d <= L) as HdL.
  { assert (10 ^ d < 10 ^ (L + 1)) as H by lia.
    apply Z.pow_lt_mono_r_iff in H; lia. }
  pose proof (Z.div_mod (L - d) 4 ltac:(lia)) as Hdm.
  pose proof (Z.mod_pos_bound (L - d) 4 ltac:(lia)) as Hm.
  set (w' := (L - d) / 4) in *.
  assert (0 <= w') as Hw0 by (apply Z.div_pos; lia).
  intros [= <- <-].
  split; [done | ].
  assert (10 ^ (d + 4 * w') <= 10 ^ L) as Hp1 by (apply Z.pow_le_mono_r; lia).
  assert (10 ^ (L + 1) <= 10 ^ (d + 4 * w' + 4)) as Hp2 by (apply Z.pow_le_mono_r; lia).
  split; [lia | ].
  assert ((0 <=? d + 4 * w') = true) as -> by (apply Z.leb_le; lia).
  rewrite Z.abs_eq by lia.
  pose proof (pow10_pos (d + 4 * w') ltac:(lia)) as Hsh.
  split.
  - rewrite Z.mul_comm. by apply Z.mul_div_le.
  - rewrite Z.mul_comm. replace (nval a `div` 10 ^ (d + 4 * w') + 1)
      with (Z.succ (nval a `div` 10 ^ (d + 4 * w'))) by lia.
    by apply Z.mul_succ_div_gt.
Qed.

(** A quotient below 10000 is computed with at least 16 fractional
    digits. *)
Lemma select_div_scale_16 (a b : numeric) :
  nval a = 0 \/ 10 ^ Z.of_nat (dscale a) <= nval a ->
  10 ^ Z.of_nat (dscale b) <= nval b ->
  nval a * 10 ^ Z.of_nat (dscale b) < 10000 * nval b * 10 ^ Z.of_nat (dscale a) ->
  (16 <= select_div_scale a b)%nat.
Proof.
  intros Ha Hb Hlt. unfold select_div_scale.
  destruct (weight_and_first_digit b) as [w2 f2] eqn:E2.
  destruct (weight_spec b w2 f2 Hb E2) as (Hw2 & [Hb1 Hb2] & [Hb3 Hb4]).
  pose proof (pow10_pos (Z.of_nat (dscale b) + 4 * w2) ltac:(lia)) as Hs2.
  assert (1 <= f2) as Hf2 by nia.
  assert (forall q : Z, q <= 0 ->
            (16 <= Z.to_nat (Z.min (Z.max (Z.max (Z.max (16 - q * 4)
                       (Z.of_nat (dscale a))) (Z.of_nat (dscale b))) 0) 1000))%nat)
    as Hscale by (intros q Hq; lia).
  destruct Ha as [Ha | Ha].
  - unfold weight_and_first_digit. rewrite Ha. simpl.
    apply Hscale. destruct (0 <=? f2); lia.
  - destruct (weight_and_first_digit a) as [w1 f1] eqn:E1.
    destruct (weight_spec a w1 f1 Ha E1) as (Hw1 & [Ha1 Ha2] & [Ha3 Ha4]).
    apply Hscale.
    set (da := Z.of_nat (dscale a)) in *. set (db := Z.of_nat (dscale b)) in *.
    assert (0 <= da) by (unfold da; lia). assert (0 <= db) by (unfold db; lia).
    pose proof (pow10_pos da ltac:(lia)) as Hda.
    pose proof (pow10_pos db ltac:(lia)) as Hdb.
    assert (w1 <= w2 + 1) as Hw.
    { assert (10 ^ (da + 4 * w1 + db) < 10 ^ (4 + (db + 4 * w2 + 4) + da)) as H'.
      { rewrite !Z.pow_add_r by lia.
        rewrite Z.pow_add_r in Ha1 by lia.
        rewrite !(Z.pow_add_r 10 _ 4), (Z.pow_add_r 10 db) in Hb2 by lia.
        change (10 ^ 4) with 10000 in *.
        clear Ha2 Ha3 Ha4 Hb1 Hb3 Hb4 Hs2 Hscale.
        assert (0 < 10 ^ (4 * w1)) by (apply pow10_pos; lia).
        assert (0 < 10 ^ (4 * w2)) by (apply pow10_pos; lia).
        set (T1 := 10 ^ (4 * w1)) in *. set (T2 := 10 ^ (4 * w2)) in *.
        set (Da := 10 ^ da) in *. set (Db := 10 ^ db) in *.
        clearbody T1 T2 Da Db.
        assert (Da * T1 * Db <= nval a * Db) by (apply Z.mul_le_mono_nonneg_r; lia).
        assert (10000 * nval b * Da < 10000 * (Db * T2 * 10000) * Da)
          by (apply Z.mul_lt_mono_pos_r; lia).
        lia. }
      apply Z.pow_lt_mono_r_iff in H'; lia. }
    destruct (decide (w1 <= w2)) as [Hle | Hgt].
    { destruct (f1 <=? f2); lia. }
    assert (w1 = w2 + 1) as -> by lia.
    assert (f1 <= f2) as Hf.
    { replace (da + 4 * (w2 + 1)) with (da + 4 * w2 + 4) in * by lia.
      rewrite (Z.pow_add_r 10 (da + 4 * w2) 4), (Z.pow_add_r 10 da (4 * w2)) in Ha3 by lia.
      rewrite (Z.pow_add_r 10 db (4 * w2)) in Hb4 by lia.
      change (10 ^ 4) with 10000 in *.
      assert (0 < 10 ^ (4 * w2)) as HT by (apply pow10_pos; lia).
      set (T := 10 ^ (4 * w2)) in *. set (Da := 10 ^ da) in *. set (Db := 10 ^ db) in *.
      clear Ha1 Ha2 Ha4 Hb1 Hb2 Hb3 Hs2 Hscale.
      clearbody T Da Db.
      assert (f1 * (Da * T * 10000) * Db <= nval a * Db)
        by (apply Z.mul_le_mono_nonneg_r; lia).
      assert (10000 * nval b * Da < 10000 * ((f2 + 1) * (Db * T)) * Da)
        by (apply Z.mul_lt_mono_pos_r; lia).
      assert (0 < Da * T * Db * 10000) as HK
        by (repeat apply Z.mul_pos_pos; lia).
      assert (f1 * (Da * T * Db * 10000) < (f2 + 1) * (Da * T * Db * 10000)) as H' by lia.
      apply Z.mul_lt_mono_pos_r in H'; lia. }
    apply Z.leb_le in Hf. rewrite Hf. lia.
Qed.

Lemma div_half_away_nonneg (n d : Z) :
  0 <= n -> 0 < d -> div_half_away n d = (2 * n + d) / (2 * d).
Proof.
  intros Hn Hd. unfold div_half_away.
  rewrite (Z.abs_eq n), (Z.abs_eq d), (Z.sgn_pos d) by lia.
  destruct (decide (n = 0)) as [-> | Hne].
  - simpl. symmetry. apply Z.div_small. lia.
  - rewrite Z.sgn_pos by lia. lia.
Qed.

Lemma div_half_away_range (n d m : Z) :
  0 <= n -> 0 < d -> n <= m * d -> 0 <= div_half_away n d <= m.
Proof.
  intros Hn Hd Hm. rewrite div_half_away_nonneg by done. split.
  - apply Z.div_pos; lia.
  - apply Z.lt_succ_r. apply Z.div_lt_upper_bound; lia.
Qed.

(** Rounding at a finer scale first does not change the result of
    rounding a quotient whose denominator is below the ratio of the
    two scales. *)
Lemma round_twice (N D A : Z) :
  0 <= N -> 0 < D < A -> (exists h, A = 2 * h) ->
  div_half_away (div_half_away (N * A) D) A = div_half_away N D.
Proof.
  intros HN HD [h ->].
  rewrite (div_half_away_nonneg (N * (2 * h)) D) by nia.
  rewrite (div_half_away_nonneg N D) by lia.
  assert (0 <= (2 * (N * (2 * h)) + D) / (2 * D)) as Hy by (apply Z.div_pos; nia).
  rewrite div_half_away_nonneg by lia.
  pose proof (Z.div_mod (2 * (N * (2 * h)) + D) (2 * D) ltac:(lia)) as Hy1.
  pose proof (Z.mod_pos_bound (2 * (N * (2 * h)) + D) (2 * D) ltac:(lia)) as Hy2.
  pose proof (Z.div_mod (2 * N + D) (2 * D) ltac:(lia)) as Hr1.
  pose proof (Z.mod_pos_bound (2 * N + D) (2 * D) ltac:(lia)) as Hr2.
  set (y := (2 * (N * (2 * h)) + D) / (2 * D)) in *.
  set (r := (2 * N + D) / (2 * D)) in *.
  set (my := (2 * (N * (2 * h)) + D) mod (2 * D)) in *.
  set (mr := (2 * N + D) mod (2 * D)) in *.
  symmetry. apply (Z.div_unique _ _ _ (2 * y + 2 * h - 2 * (2 * h) * r)); [ | lia].
  left. split.
  - assert (h * (2 * r - 1) <= y); [ | lia].
    assert (D * (2 * (h * (2 * r - 1))) < D * (2 * (y + 1))); [nia | ].
    apply Z.mul_lt_mono_pos_l in H; lia.
  - assert (y < h * (2 * r + 1)); [ | lia].
    assert (D * (2 * y) < D * (2 * (h * (2 * r + 1)))); [nia | ].
    apply Z.mul_lt_mono_pos_l in H; lia.
Qed.

(** The percentage [ROUND(100.0 * n / d, k)] is the exact quotient
    rounded once, ties away from zero, while the quotient rounded at
    the scale of the division has digits to spare. *)
Lemma percent_exact (n d : Z) (k : nat) :
  0 <= n -> 0 < d -> n < 100 * d -> (k < 16)%nat -> d < 10 ^ (16 - Z.of_nat k) ->
  percent (Value n) (Value d) k =
  Value (Num (div_half_away (100 * 10 ^ Z.of_nat k * n) d) k).
Proof.
  intros Hn Hd Hnd Hk Hsmall. unfold percent, int_to_numeric. cbn [strict1 strict2].
  unfold num_div.
  change (nval (num_of_int d)) with d.
  destruct (d =? 0) eqn:E; [apply Z.eqb_eq in E; lia | ].
  assert (16 <= select_div_scale (num_mul hundred (num_of_int n)) (num_of_int d))%nat
    as Hs.
  { apply select_div_scale_16; simpl.
    - destruct (decide (n = 0)) as [-> | ?]; [by left | right]. lia.
    - lia.
    - lia. }
  set (s := select_div_scale _ _) in *. simpl strict1.
  unfold num_round. cbn [dscale nval].
  destruct (s <=? k)%nat eqn:Es; [apply Nat.leb_le in Es; lia | ].
  do 2 f_equal.
  change (dscale (num_of_int d)) with 0%nat.
  change (dscale (num_mul hundred (num_of_int n))) with 1%nat.
  change (nval (num_mul hundred (num_of_int n))) with (1000 * n).
  unfold pow10.
  change (10 ^ Z.of_nat 1) with 10.
  assert (0 < 10 ^ Z.of_nat s) as Hps by (apply pow10_pos; lia).
  assert (div_half_away (1000 * n * 10 ^ Z.of_nat s) (d * 10) =
          div_half_away (100 * 10 ^ Z.of_nat k * n * 10 ^ Z.of_nat (s - k)) d) as ->.
  { rewrite !div_half_away_nonneg by nia.
    assert (10 ^ Z.of_nat s = 10 ^ Z.of_nat k * 10 ^ Z.of_nat (s - k)) as Hsplit.
    { rewrite <- Z.pow_add_r by lia. f_equal. lia. }
    rewrite <- (Z.div_mul_cancel_l (2 * (100 * 10 ^ Z.of_nat k * n * 10 ^ Z.of_nat (s - k)) + d)
                  (2 * d) 10) by lia.
    f_equal; [ | lia]. rewrite Hsplit. lia. }
  apply round_twice.
  - assert (0 < 10 ^ Z.of_nat k) by (apply pow10_pos; lia). nia.
  - split; [done | ]. eapply Z.lt_le_trans; [exact Hsmall | ].
    apply Z.pow_le_mono_r; lia.
  - exists (5 * 10 ^ (Z.of_nat (s - k) - 1)).
    replace (Z.of_nat (s - k)) with (Z.succ (Z.of_nat (s - k) - 1)) at 1 by lia.
    rewrite Z.pow_succ_r by lia. lia.
Qed.

Lemma percent_range (n d : Z) (k : nat) :
  0 <= n <= d -> 0 < d ->
  0 <= div_half_away (100 * 10 ^ Z.of_nat k * n) d <= 100 * 10 ^ Z.of_nat k.
Proof.
  intros Hn Hd. assert (0 < 10 ^ Z.of_nat k) by (apply pow10_pos; lia).
  apply div_half_away_range; nia.
Qed.


(** A percentage with a denominator that is not zero is a value. *)
Lemma percent_value (n d : Z) (k : nat) :
  d <> 0 -> exists q, percent (Value n) (Value d) k = Value (Num q k).
Proof.
  intros Hd. unfold percent, int_to_numeric. simpl. unfold num_div.
  change (nval (num_of_int d)) with d.
  destruct (d =? 0) eqn:E; [apply Z.eqb_eq in E; lia | ].
  simpl. unfold num_round. destruct (_ <=? _)%nat; eauto.
Qed.

(** *** Further properties of the cache-hit statement *)

Lemma hit_percent_exact (hit read : Z) :
  0 <= hit -> 0 <= read -> 0 < hit + read < 10 ^ 14 ->
  hit_percent (Value (num_of_int hit)) (Value (num_of_int read)) =
  Value (Num (div_half_away (10000 * hit) (hit + read)) 2).
Proof.
  intros Hh Hr Ht.
  assert (hit_percent (Value (num_of_int hit)) (Value (num_of_int read)) =
          percent (Value hit) (Value (hit + read)) 2) as ->.
  { unfold hit_percent, percent, int_to_numeric. simpl.
    unfold nullif, num_eqb, num_add, at_scale, pow10. simpl. rewrite !Z.mul_1_r.
    destruct (hit + read =? 0) eqn:E; [apply Z.eqb_eq in E; lia | ]. reflexivity. }
  rewrite percent_exact by (simpl; lia). reflexivity.
Qed.

Lemma cache_query_row (t : list statio_row) (row : dict) :
  cache_query t = inr row ->
  row !! "cache_hit_percent" =
    Some (py_of_numeric (hit_percent (sum_column (heap_blks_hit <$> t))
                                     (sum_column (heap_blks_read <$> t)))) /\
  row !! "idx_cache_hit_percent" =
    Some (py_of_numeric (hit_percent (sum_column (idx_blks_hit <$> t))
                                     (sum_column (idx_blks_read <$> t)))) /\
  row !! "connection_usage_percent" = None /\
  row !! "unused_indexes_percent" = None.
Proof.
  unfold cache_query.
  destruct (hit_percent (sum_column (heap_blks_hit <$> t)) _) as [p | | e],
           (hit_percent (sum_column (idx_blks_hit <$> t)) _) as [q | | e'];
    intros [= <-]; repeat split; reflexivity.
Qed.

Lemma hit_percent_scale (hit read : option numeric) :
  hit_percent (of_column hit) (of_column read) = Null \/
  exists q, hit_percent (of_column hit) (of_column read) = Value (Num q 2).
Proof.
  unfold hit_percent.
  destruct hit as [h | ], read as [r | ]; simpl; try (by left).
  unfold nullif. destruct (num_eqb (num_add h r) (num_of_int 0)) eqn:E; simpl; [by left | ].
  unfold num_div.
  destruct (nval (num_add h r) =? 0) eqn:E0; simpl.
  - exfalso. apply Z.eqb_eq in E0.
    unfold num_eqb, at_scale in E. rewrite E0 in E. simpl in E. discriminate E.
  - right. unfold num_round. destruct (_ <=? _)%nat; eauto.
Qed.

(** X14. The cache statement never fails: for every content of
    [pg_statio_user_tables], NULL counters and no table included, it
    returns its one row; each of the two ratios in it is NULL or a
    [numeric] with two decimals, so every field of the row that the
    rules convert is a number or NULL. *)
Theorem cache_statement_never_fails (t : list statio_row) :
  exists row,
    cache_query t = inr row /\
    (row !! "cache_hit_percent" = Some VNone \/
     exists q, row !! "cache_hit_percent" = Some (VDecimal (Dec q 2))) /\
    (row !! "idx_cache_hit_percent" = Some VNone \/
     exists q, row !! "idx_cache_hit_percent" = Some (VDecimal (Dec q 2))) /\
    row_numeric row = true.
Proof.
  destruct (cache_query_no_error t) as [row Hrow]. exists row.
  destruct (cache_query_row t row Hrow) as (Hh & Hi & Hc & Hu).
  split; [done | ].
  destruct (sum_column_no_error (heap_blks_read <$> t)) as [hr Ehr].
  destruct (sum_column_no_error (heap_blks_hit <$> t)) as [hh Ehh].
  destruct (sum_column_no_error (idx_blks_read <$> t)) as [ir Eir].
  destruct (sum_column_no_error (idx_blks_hit <$> t)) as [ih Eih].
  rewrite Ehr, Ehh in Hh. rewrite Eir, Eih in Hi.
  assert (row !! "cache_hit_percent" = Some VNone \/
          exists q, row !! "cache_hit_percent" = Some (VDecimal (Dec q 2))) as H1.
  { rewrite Hh. destruct (hit_percent_scale hh hr) as [-> | [q ->]]; [by left | right].
    by exists q. }
  assert (row !! "idx_cache_hit_percent" = Some VNone \/
          exists q, row !! "idx_cache_hit_percent" = Some (VDecimal (Dec q 2))) as H2.
  { rewrite Hi. destruct (hit_percent_scale ih ir) as [-> | [q ->]]; [by left | right].
    by exists q. }
  split; [done | ]. split; [done | ].
  unfold row_numeric, numeric_column. rewrite Hc, Hu.
  destruct H1 as [-> | [q ->]]; reflexivity.
Qed.

(** X15. The heap hit percent, for sums of counters that are not
    negative, not both zero and below 10^14 in total: the row holds
    [100 * hit / (hit + read)] rounded to two decimals, ties away from
    zero, in hundredths [round(10000 * hit / (hit + read))], and it
    lies between 0 and 100.  (The division rounds at 16 or more
    fractional digits before [ROUND] rounds to two; below 10^14 blocks
    the first rounding cannot move the second.) *)
Theorem cache_hit_percent_exact (t : list statio_row) (hit read : Z) :
  sum_column (heap_blks_hit <$> t) = Value (num_of_int hit) ->
  sum_column (heap_blks_read <$> t) = Value (num_of_int read) ->
  0 <= hit -> 0 <= read -> 0 < hit + read < 10 ^ 14 ->
  exists row,
    cache_query t = inr row /\
    row !! "cache_hit_percent" =
      Some (VDecimal (Dec (div_half_away (10000 * hit) (hit + read)) 2)) /\
    0 <= div_half_away (10000 * hit) (hit + read) <= 10000.
Proof.
  intros Hhit Hread Hh Hr Ht.
  destruct (cache_query_no_error t) as [row Hrow]. exists row.
  destruct (cache_query_row t row Hrow) as (Hp & _).
  split; [done | ]. split.
  - rewrite Hp, Hhit, Hread, hit_percent_exact by done. reflexivity.
  - apply div_half_away_range; lia.
Qed.

Lemma cache_hit_percent_exact_witness :
  exists row,
    cache_query [ {| heap_blks_read := Some 50; heap_blks_hit := Some 950;
                     idx_blks_read := None; idx_blks_hit := None |} ] = inr row /\
    row !! "cache_hit_percent" = Some (VDecimal (Dec 9500 2)).
Proof.
  destruct (cache_hit_percent_exact
              [ {| heap_blks_read := Some 50; heap_blks_hit := Some 950;
                   idx_blks_read := None; idx_blks_hit := None |} ] 950 50
              eq_refl eq_refl ltac:(lia) ltac:(lia) ltac:(lia))
    as (row & Hrow & Hpct & _).
  exists row. split; [exact Hrow | exact Hpct].
Defined.

(** X22. From the counters to the advisory, for a server 2 without a
    ratio.  When the heap hit ratio of server 2 is NULL (no block read
    or hit yet, or no table) and server 1 has counters in the range
    above, the rows of the cache statement give the critical cache
    advisory exactly when the hit percent of server 1 is above 10.00:
    the NULL counts as zero percent, and an idle server 2 is reported
    as the primary performance issue. *)
Theorem idle_server_reported_critical
  (str_to_float : string -> option float) (str_to_int : string -> option Z)
  (v1 v2 c1 c2 idx1 idx2 : dict) (t1 t2 : list statio_row) (hit read : Z) :
  sum_column (heap_blks_hit <$> t1) = Value (num_of_int hit) ->
  sum_column (heap_blks_read <$> t1) = Value (num_of_int read) ->
  0 <= hit -> 0 <= read -> 0 < hit + read < 10 ^ 14 ->
  hit_percent (sum_column (heap_blks_hit <$> t2)) (sum_column (heap_blks_read <$> t2))
    = Null ->
  numeric_column c1 "connection_usage_percent" = true ->
  numeric_column c2 "connection_usage_percent" = true ->
  numeric_column idx1 "unused_indexes_percent" = true ->
  numeric_column idx2 "unused_indexes_percent" = true ->
  exists cache1 cache2 recs,
    cache_query t1 = inr cache1 /\
    cache_query t2 = inr cache2 /\
    recommendations str_to_float str_to_int v1 v2 cache1 cache2 c1 c2 idx1 idx2
      = Ok recs /\
    (has_line cache_critical_mark recs = true <->
     1000 < div_half_away (10000 * hit) (hit + read)).
Proof.
  intros Hhit Hread Hh Hr Ht Hnull Hc1 Hc2 Hi1 Hi2.
  destruct (cache_query_no_error t1) as [cache1 Hrow1].
  destruct (cache_query_no_error t2) as [cache2 Hrow2].
  destruct (cache_query_row t1 cache1 Hrow1) as (Hp1 & _).
  destruct (cache_query_row t2 cache2 Hrow2) as (Hp2 & _).
  rewrite Hhit, Hread, hit_percent_exact in Hp1 by done.
  rewrite Hnull in Hp2.
  assert (cache_diff str_to_float cache1 cache2 =
          Ok (sub (of_Z 0) (of_scaled (div_half_away (10000 * hit) (hit + read)) 2)))
    as Hcd.
  { unfold cache_diff.
    rewrite (float_field_unavailable str_to_float cache2 _ (or_intror Hp2)).
    by rewrite (float_field_percent str_to_float cache1 _ _ _ Hp1). }
  destruct (conn_diff_numeric str_to_int _ _ Hc1 Hc2) as [nd Hnd].
  destruct (unused_diff_numeric str_to_float _ _ Hi1 Hi2) as [ud Hud].
  exists cache1, cache2. eexists.
  split; [exact Hrow1 | ]. split; [exact Hrow2 | ].
  split; [by apply recommendations_advisories | ].
  rewrite cache_mark_lines, percent_above_ten.
  - apply Z.ltb_lt.
  - apply div_half_away_range; lia.
Qed.

Lemma idle_server_reported_critical_witness :
  exists cache1 cache2 recs,
    cache_query [ Build_statio_row (Some 50) (Some 950) None None ] = inr cache1 /\
    cache_query [ Build_statio_row (Some 0) (Some 0) None None ] = inr cache2 /\
    recommendations no_float no_int ∅ ∅ cache1 cache2 ∅ ∅ ∅ ∅ = Ok recs /\
    has_line cache_critical_mark recs = true.
Proof.
  assert (forall k, numeric_column ∅ k = true) as Hn
    by (intros k; unfold numeric_column; by rewrite lookup_empty).
  destruct (idle_server_reported_critical no_float no_int ∅ ∅ ∅ ∅ ∅ ∅
              [ Build_statio_row (Some 50) (Some 950) None None ]
              [ Build_statio_row (Some 0) (Some 0) None None ] 950 50
              eq_refl eq_refl ltac:(lia) ltac:(lia) ltac:(lia)
              eq_refl (Hn _) (Hn _) (Hn _) (Hn _))
    as (cache1 & cache2 & recs & H1 & H2 & Hrecs & Hiff).
  exists cache1, cache2, recs.
  split; [exact H1 | ]. split; [exact H2 | ]. split; [exact Hrecs | ].
  apply Hiff. vm_compute. reflexivity.
Defined.

(** *** Properties of the connection statement *)

Lemma count_disjoint {A} (p q : A -> bool) (t : list A) :
  (forall r, p r = true -> q r = false) ->
  count_rows p t + count_rows q t <= Z.of_nat (length t).
Proof.
  intros Hpq. unfold count_rows.
  induction t as [ | r t IH]; simpl; [lia | ].
  destruct (p r) eqn:Ep.
  - rewrite (Hpq r Ep). simpl. lia.
  - destruct (q r); simpl; lia.
Qed.

(** X16. The connection statement, for a [max_connections] setting
    between 1 and 10^16 and fewer sessions than 100 times the setting:
    the usage percent is the whole number nearest to
    [100 * current / max_connections], ties away from zero, a decimal
    of scale 0, which [int()] reads without truncation; the current
    connections are all the rows of [pg_stat_activity], and the active
    and the idle ones together are no more than these. *)
Theorem connection_usage_whole_percent (activity : list activity_row)
  (max_connections : Z) :
  0 < max_connections < 10 ^ 16 ->
  Z.of_nat (length activity) < 100 * max_connections ->
  exists row,
    connection_query activity max_connections = inr row /\
    row !! "connection_usage_percent" =
      Some (VDecimal
              (Dec (div_half_away (100 * Z.of_nat (length activity)) max_connections) 0)) /\
    whole_usage row = true /\
    usage_percent row =
      div_half_away (100 * Z.of_nat (length activity)) max_connections /\
    row_int "current_connections" row = Z.of_nat (length activity) /\
    row_int "active_connections" row + row_int "idle_connections" row
      <= row_int "current_connections" row.
Proof.
  intros Hmax Hcur. unfold connection_query. cbv zeta.
  rewrite percent_exact by (simpl; lia).
  change (10 ^ Z.of_nat 0) with 1. rewrite Z.mul_1_r.
  eexists. split; [reflexivity | ].
  split; [reflexivity | ]. split; [reflexivity | ]. split; [reflexivity | ].
  split; [reflexivity | ].
  change (count_rows (in_state "active") activity +
          count_rows (in_state "idle") activity <= Z.of_nat (length activity)).
  apply count_disjoint. intros r. unfold in_state.
  destruct (state r) as [x | ]; [ | done].
  intros E. apply String.eqb_eq in E. by subst.
Qed.

Lemma connection_usage_whole_percent_witness :
  exists row,
    connection_query sample_activity 100 = inr row /\
    row !! "connection_usage_percent" = Some (VDecimal (Dec 3 0)) /\
    whole_usage row = true.
Proof.
  destruct (connection_usage_whole_percent sample_activity 100
              ltac:(lia) ltac:(simpl; lia))
    as (row & Hrow & Hpct & Hwhole & _).
  exists row. split; [exact Hrow | ]. split; [exact Hpct | exact Hwhole].
Defined.

(** A setting of zero, which no server accepts, would abort the
    statement. *)
Example connection_query_zero_setting :
  connection_query sample_activity 0 = inl DivisionByZero.
Proof. vm_compute. reflexivity. Qed.

Lemma connection_query_usage (activity : list activity_row) (max_connections : Z) :
  0 < max_connections < 10 ^ 16 ->
  Z.of_nat (length activity) < 100 * max_connections ->
  exists row,
    connection_query activity max_connections = inr row /\
    whole_usage row = true /\
    usage_percent row =
      div_half_away (100 * Z.of_nat (length activity)) max_connections.
Proof.
  intros Hmax Hcur. unfold connection_query. cbv zeta.
  rewrite percent_exact by (simpl; lia).
  change (10 ^ Z.of_nat 0) with 1. rewrite Z.mul_1_r.
  eexists. split; [reflexivity | ]. split; reflexivity.
Qed.

(** X21. From the sessions to the advisory.  For two servers whose
    settings and session counts are in the range above and whose other
    percentages are numeric, the rows of the connection statement give
    the connection-pool advisory exactly when the usage of server 2,
    [round(100 * sessions / max_connections)], exceeds the usage of
    server 1 by more than 20: the statement returns whole numbers, so
    the rule's [int()] loses nothing. *)
Theorem pool_advisory_from_sessions
  (str_to_float : string -> option float) (str_to_int : string -> option Z)
  (v1 v2 cache1 cache2 idx1 idx2 : dict)
  (activity1 activity2 : list activity_row) (max1 max2 : Z) :
  percentages_numeric cache1 cache2 idx1 idx2 = true ->
  0 < max1 < 10 ^ 16 -> Z.of_nat (length activity1) < 100 * max1 ->
  0 < max2 < 10 ^ 16 -> Z.of_nat (length activity2) < 100 * max2 ->
  exists c1 c2 recs,
    connection_query activity1 max1 = inr c1 /\
    connection_query activity2 max2 = inr c2 /\
    recommendations str_to_float str_to_int v1 v2 cache1 cache2 c1 c2 idx1 idx2
      = Ok recs /\
    (has_line pool_mark recs = true <->
     20 < div_half_away (100 * Z.of_nat (length activity2)) max2 -
          div_half_away (100 * Z.of_nat (length activity1)) max1).
Proof.
  intros Hp Hm1 Hn1 Hm2 Hn2.
  destruct (connection_query_usage activity1 max1 Hm1 Hn1) as (c1 & Hc1 & Hw1 & Hu1).
  destruct (connection_query_usage activity2 max2 Hm2 Hn2) as (c2 & Hc2 & Hw2 & Hu2).
  destruct (percentages_numeric_diffs str_to_float _ _ _ _ Hp) as (cd & ud & Hcd & Hud).
  pose proof (conn_diff_usage str_to_int _ _ Hw1 Hw2) as Hnd.
  exists c1, c2. eexists.
  split; [exact Hc1 | ]. split; [exact Hc2 | ].
  split; [by apply recommendations_advisories | ].
  rewrite pool_mark_lines, Hu1, Hu2. apply Z.ltb_lt.
Qed.

Lemma pool_advisory_from_sessions_witness :
  exists c1 c2 recs,
    connection_query sample_activity 100 = inr c1 /\
    connection_query (replicate 30 (Build_activity_row (Some "active") None)) 100
      = inr c2 /\
    recommendations no_float no_int ∅ ∅ ∅ ∅ c1 c2 ∅ ∅ = Ok recs /\
    has_line pool_mark recs = true.
Proof.
  assert (percentages_numeric ∅ ∅ ∅ ∅ = true) as Hp by (vm_compute; reflexivity).
  destruct (pool_advisory_from_sessions no_float no_int ∅ ∅ ∅ ∅ ∅ ∅
              sample_activity (replicate 30 (Build_activity_row (Some "active") None))
              100 100 Hp ltac:(lia) ltac:(simpl; lia) ltac:(lia) ltac:(simpl; lia))
    as (c1 & c2 & recs & Hc1 & Hc2 & Hrecs & Hiff).
  exists c1, c2, recs.
  split; [exact Hc1 | ]. split; [exact Hc2 | ]. split; [exact Hrecs | ].
  apply Hiff. vm_compute. reflexivity.
Defined.

(** *** Properties of the index statement *)

Lemma sum_unused (idx_scans : list Z) :
  foldr Z.add 0 (unused <$> idx_scans) = count_rows (fun s => s =? 0) idx_scans.
Proof.
  unfold count_rows. induction idx_scans as [ | s l IH]; [done | ].
  rewrite fmap_cons. cbn [foldr List.filter]. rewrite IH. unfold unused.
  destruct (s =? 0); simpl length; lia.
Qed.

Lemma count_rows_range {A} (p : A -> bool) (t : list A) :
  0 <= count_rows p t <= Z.of_nat (length t).
Proof.
  unfold count_rows. pose proof (filter_length_le p t). lia.
Qed.

(** X17. The index statement never fails.  Over no index at all the
    count is 0 and the number of unused indexes, their percentage and
    the average scan count are NULL: the numerator of the percentage is
    NULL, and no division by the zero count takes place.  Over fewer
    than 10^14 indexes the unused ones are those with no scan, and
    their percentage is [100 * unused / total] rounded to two decimals,
    ties away from zero, between 0 and 100. *)
Theorem index_statement_percent (idx_scans : list Z) :
  exists row,
    index_query idx_scans = inr row /\
    row !! "total_indexes" = Some (VInt (Z.of_nat (length idx_scans))) /\
    (idx_scans = [] ->
     row !! "unused_indexes" = Some VNone /\
     row !! "unused_indexes_percent" = Some VNone /\
     row !! "avg_index_scans" = Some VNone) /\
    (idx_scans <> [] -> Z.of_nat (length idx_scans) < 10 ^ 14 ->
     row !! "unused_indexes" = Some (VInt (count_rows (fun s => s =? 0) idx_scans)) /\
     row !! "unused_indexes_percent" =
       Some (VDecimal
               (Dec (div_half_away (10000 * count_rows (fun s => s =? 0) idx_scans)
                       (Z.of_nat (length idx_scans))) 2)) /\
     0 <= div_half_away (10000 * count_rows (fun s => s =? 0) idx_scans)
            (Z.of_nat (length idx_scans)) <= 10000).
Proof.
  destruct idx_scans as [ | s l].
  { eexists. split; [reflexivity | ]. split; [reflexivity | ]. split; [done | done]. }
  set (scans := s :: l).
  assert (0 < Z.of_nat (length scans)) as Hn by (simpl; lia).
  pose proof (count_rows_range (fun s => s =? 0) scans) as Hu.
  assert (sum_int (unused <$> scans) = Value (count_rows (fun s => s =? 0) scans)) as Hsum
    by (rewrite <- sum_unused; reflexivity).
  destruct (percent_value (count_rows (fun s => s =? 0) scans)
              (Z.of_nat (length scans)) 2 ltac:(lia)) as [q Hq].
  assert (exists m, strict1 (fun q => Value (num_round q 2)) (avg_int scans) = Value m)
    as [m Hm].
  { unfold avg_int, scans at 1. unfold num_div.
    change (nval (num_of_int (Z.of_nat (length scans)))) with (Z.of_nat (length scans)).
    destruct (Z.of_nat (length scans) =? 0) eqn:E; [apply Z.eqb_eq in E; lia | ].
    simpl. eauto. }
  unfold index_query. cbv zeta. rewrite Hsum, Hq, Hm.
  eexists. split; [reflexivity | ]. split; [reflexivity | ]. split; [done | ].
  intros _ Hsmall. split; [reflexivity | ].
  rewrite percent_exact in Hq by (try exact Hsmall; lia). injection Hq as <-.
  split; [reflexivity | ].
  apply div_half_away_range; lia.
Qed.

(** Four indexes, two of them never scanned. *)
Example index_query_rows :
  index_query [0; 12; 0; 7] =
  inr (<[ "total_indexes" := VInt 4 ]>
      (<[ "unused_indexes" := VInt 2 ]>
      (<[ "unused_indexes_percent" := VDecimal (Dec 5000 2) ]>
      (<[ "avg_index_scans" := VDecimal (Dec 475 2) ]> ∅)))).
Proof. vm_compute. reflexivity. Qed.

(** *** Properties of the bloat statement *)

Lemma select_rows_total {A} (f : A -> sql_error + dict) (t : list A) :
  Forall (fun r => exists row, f r = inr row) t ->
  exists rows,
    select_rows f t = inr rows /\ Forall2 (fun r row => f r = inr row) t rows.
Proof.
  induction 1 as [ | r t [row Hrow] _ (rows & Hrows & Hall)]; simpl.
  - by exists [].
  - rewrite Hrow, Hrows. exists (row :: rows). split; [done | ]. by constructor.
Qed.

Lemma StronglySorted_Forall2 {A B} (R : A -> B -> Prop) (S : relation A) (S' : relation B)
  (l : list A) (k : list B) :
  (forall a b a' b', R a b -> R a' b' -> S a a' -> S' b b') ->
  Forall2 R l k -> StronglySorted S l -> StronglySorted S' k.
Proof.
  intros HS. induction 1 as [ | a b l k Hab Hlk IH]; intros Hs; [constructor | ].
  apply StronglySorted_inv in Hs as [Hl Ha].
  constructor; [by apply IH | ].
  clear IH Hl. induction Hlk as [ | a' b' l k Hab' Hlk IH]; [constructor | ].
  apply Forall_cons in Ha as [Ha Hl].
  constructor; [by eapply HS | by apply IH].
Qed.

Lemma bloat_select_row (r : tuples_row) :
  0 <= n_live_tup r -> n_live_tup r + n_dead_tup r < 10 ^ 14 ->
  bloated r = true ->
  exists row,
    bloat_select r = inr row /\
    row !! "live_rows" = Some (VInt (n_live_tup r)) /\
    row !! "dead_rows" = Some (VInt (n_dead_tup r)) /\
    row !! "dead_rows_percent" =
      Some (VDecimal (Dec (div_half_away (10000 * n_dead_tup r)
                             (n_live_tup r + n_dead_tup r)) 2)).
Proof.
  intros Hlive Hsmall Hdead. unfold bloated in Hdead. apply Z.ltb_lt in Hdead.
  assert (dead_rows_percent r =
          Value (Num (div_half_away (10000 * n_dead_tup r)
                        (n_live_tup r + n_dead_tup r)) 2)) as Hpct.
  { unfold dead_rows_percent, int8_add, in_int8, int8_min, int8_max.
    assert ((- 2 ^ 63 <=? n_live_tup r + n_dead_tup r) &&
            (n_live_tup r + n_dead_tup r <=? 2 ^ 63 - 1) = true) as ->.
    { apply andb_true_iff. split; apply Z.leb_le; lia. }
    simpl strict1. unfold nullif_int.
    destruct (n_live_tup r + n_dead_tup r =? 0) eqn:E; [apply Z.eqb_eq in E; lia | ].
    rewrite percent_exact by (simpl; lia). reflexivity. }
  unfold bloat_select. rewrite Hpct. eexists. repeat split; reflexivity.
Qed.

#[local] Instance dead_desc_total : Total dead_desc.
Proof. intros a b. unfold dead_desc. lia. Qed.

#[local] Instance dead_desc_trans : Transitive dead_desc.
Proof. intros a b c. unfold dead_desc. lia. Qed.

(** X18. The bloat statement, for tables whose live-row counts are
    not negative and whose rows number fewer than 10^14: it returns
    the tables with more than 1000 dead rows, at most ten of them and
    all of them when there are fewer, the table with the most dead rows
    first; and every row returned holds a percentage that is not NULL,
    [100 * dead / (live + dead)] rounded to two decimals, ties away
    from zero, between 0 and 100. *)
Theorem bloat_statement_rows (t : list tuples_row) :
  Forall (fun r => 0 <= n_live_tup r /\ n_live_tup r + n_dead_tup r < 10 ^ 14) t ->
  exists rows sorted,
    bloat_query t = inr rows /\
    sorted ≡ₚ List.filter bloated t /\
    StronglySorted dead_desc sorted /\
    Forall2 (fun r row => bloat_select r = inr row) (take 10 sorted) rows /\
    length rows = Nat.min 10 (length (List.filter bloated t)) /\
    Forall bloat_row_ok rows /\
    StronglySorted (fun a b => row_int "dead_rows" b <= row_int "dead_rows" a) rows.
Proof.
  intros Ht.
  set (kept := List.filter bloated t).
  set (sorted := merge_sort dead_desc kept).
  assert (sorted ≡ₚ kept) as Hperm by apply merge_sort_Permutation.
  assert (Forall (fun r => 0 <= n_live_tup r /\
                           n_live_tup r + n_dead_tup r < 10 ^ 14 /\
                           bloated r = true) sorted) as Hall.
  { apply Forall_forall. intros r Hr. rewrite Hperm in Hr.
    apply list_elem_of_In, filter_In in Hr as [Hin Hb].
    rewrite Forall_forall in Ht. apply list_elem_of_In in Hin.
    destruct (Ht r Hin). done. }
  destruct (select_rows_total bloat_select sorted) as (rows & Hrows & Hrel).
  { eapply Forall_impl; [exact Hall | ]. intros r (H1 & H2 & H3).
    destruct (bloat_select_row r H1 H2 H3) as (row & Hrow & _). eauto. }
  exists (take 10 rows), sorted.
  split; [unfold bloat_query; fold kept; fold sorted; by rewrite Hrows | ].
  split; [exact Hperm | ].
  assert (StronglySorted dead_desc sorted) as Hsorted0
    by (apply StronglySorted_merge_sort; apply _).
  split; [exact Hsorted0 | ].
  assert (Forall2 (fun r row => bloat_select r = inr row) (take 10 sorted) (take 10 rows))
    as Hrel' by (by apply Forall2_take).
  split; [exact Hrel' | ].
  assert (length rows = length kept) as Hlen.
  { rewrite <- (Forall2_length _ _ _ Hrel). by rewrite Hperm. }
  split; [rewrite length_take; lia | ].
  apply Forall_take with (n := 10%nat) in Hall.
  assert (StronglySorted dead_desc (take 10 sorted)) as Hsorted
    by (by apply StronglySorted_take).
  assert (Forall2 (fun r row =>
                     row !! "live_rows" = Some (VInt (n_live_tup r)) /\
                     row !! "dead_rows" = Some (VInt (n_dead_tup r)) /\
                     row !! "dead_rows_percent" =
                       Some (VDecimal (Dec (div_half_away (10000 * n_dead_tup r)
                                              (n_live_tup r + n_dead_tup r)) 2)) /\
                     0 <= n_live_tup r /\ 1000 < n_dead_tup r)
            (take 10 sorted) (take 10 rows)) as Hrows'.
  { clear Hsorted. induction Hrel' as [ | r row l k Hr Hlk IH]; [constructor | ].
    apply Forall_cons in Hall as [(H1 & H2 & H3) Hall].
    constructor; [ | by apply IH].
    destruct (bloat_select_row r H1 H2 H3) as (row' & Hrow' & Hl & Hd & Hp).
    assert (row' = row) as <- by congruence.
    unfold bloated in H3. apply Z.ltb_lt in H3. done. }
  split.
  - clear Hsorted Hrel' Hall.
    induction Hrows' as [ | r row l k (Hl & Hd & Hp & H1 & H3) Hlk IH]; constructor;
      [ | exact IH].
    exists (n_live_tup r), (n_dead_tup r).
    split; [done | ]. split; [done | ]. split; [done | ]. split; [done | ].
    apply div_half_away_range; lia.
  - eapply StronglySorted_Forall2; [ | exact Hrows' | exact Hsorted].
    intros a b a' b' (_ & Ha & _) (_ & Ha' & _) Hdesc.
    unfold row_int. by rewrite Ha, Ha'.
Qed.

Lemma bloat_statement_rows_witness :
  exists rows,
    bloat_query sample_tuples = inr rows /\
    length rows = 2%nat /\
    Forall bloat_row_ok rows.
Proof.
  destruct (bloat_statement_rows sample_tuples) as
    (rows & sorted & Hrows & _ & _ & _ & Hlen & Hok & _).
  { repeat constructor; simpl; lia. }
  exists rows. split; [exact Hrows | ]. split; [exact Hlen | exact Hok].
Defined.

(** The sample tables: the one with 20 dead rows is left out, the one
    with all rows dead comes first. *)
Example bloat_query_rows :
  match bloat_query sample_tuples with
  | inr rows =>
      (fun row : dict => (row !! "table_name", row !! "dead_rows_percent")) <$> rows
  | inl _ => []
  end
  = [ (Some (VStr "events"), Some (VDecimal (Dec 10000 2)));
      (Some (VStr "orders"), Some (VDecimal (Dec 2500 2))) ].
Proof. vm_compute. reflexivity. Qed.

(** *** Properties of the lock statement *)




(** *** Properties of the table statistics statement *)

Lemma avg_int_value (xs : list Z) :
  xs <> [] -> exists q, avg_int xs = Value q.
Proof.
  destruct xs as [ | x xs]; [done | ]. intros _. unfold avg_int, num_div.
  change (nval (num_of_int (Z.of_nat (length (x :: xs)))))
    with (Z.of_nat (length (x :: xs))).
  destruct (Z.of_nat (length (x :: xs)) =? 0) eqn:E; [ | eauto].
  apply Z.eqb_eq in E. simpl in E. lia.
Qed.

Lemma foldr_max_bound (x : Z) (xs : list Z) :
  Forall (fun y => y <= foldr Z.max x xs) (x :: xs) /\
  foldr Z.max x xs ∈ x :: xs.
Proof.
  induction xs as [ | y xs [IH1 IH2]]; simpl.
  - split; [repeat constructor; lia | by left].
  - apply Forall_cons in IH1 as [Hx Hxs]. split.
    + constructor; [lia | ]. constructor; [lia | ].
      eapply Forall_impl; [exact Hxs | ]. simpl. intros z Hz. lia.
    + destruct (Z.max_spec y (foldr Z.max x xs)) as [[_ ->] | [_ ->]].
      * apply elem_of_cons in IH2 as [-> | IH2]; [by left | ].
        right. by right.
      * right. by left.
Qed.

Lemma omap_Some {A} (xs : list A) : omap id (Some <$> xs) = xs.
Proof. induction xs as [ | x xs IH]; [done | ]. cbn. f_equal. exact IH. Qed.

(** X23. The table statistics statement never fails.  Over no table
    the count is 0 and the two averages, the maximum and the total are
    NULL; over some tables the total of dead rows is the sum of their
    dead-row counts, and the maximum is the live-row count of one of
    them, below which no other lies. *)
Theorem table_statement_totals (t : list tuples_row) :
  exists row,
    table_query t = inr row /\
    row !! "total_tables" = Some (VInt (Z.of_nat (length t))) /\
    (t = [] ->
     row !! "avg_rows_per_table" = Some VNone /\
     row !! "max_rows_in_table" = Some VNone /\
     row !! "avg_dead_rows" = Some VNone /\
     row !! "total_dead_rows" = Some VNone) /\
    (t <> [] ->
     row !! "total_dead_rows" =
       Some (VDecimal (Dec (foldr Z.add 0 (n_dead_tup <$> t)) 0)) /\
     exists most,
       row !! "max_rows_in_table" = Some (VInt most) /\
       Forall (fun r => n_live_tup r <= most) t /\
       Exists (fun r => n_live_tup r = most) t).
Proof.
  destruct t as [ | r t].
  { eexists. split; [reflexivity | ]. split; [reflexivity | ]. split; [done | done]. }
  set (rows := r :: t).
  destruct (avg_int_value (n_live_tup <$> rows)) as [ql Hql]; [by unfold rows | ].
  destruct (avg_int_value (n_dead_tup <$> rows)) as [qd Hqd]; [by unfold rows | ].
  unfold table_query. cbv zeta. rewrite Hql, Hqd. cbn [strict1].
  eexists. split; [reflexivity | ]. split; [reflexivity | ]. split; [done | ].
  intros _. split.
  - rewrite !lookup_insert_ne by done. rewrite lookup_insert. f_equal.
    unfold sum_column. rewrite omap_Some. reflexivity.
  - exists (foldr Z.max (n_live_tup r) (n_live_tup <$> t)).
    split; [reflexivity | ].
    destruct (foldr_max_bound (n_live_tup r) (n_live_tup <$> t)) as [Hall Hin].
    split.
    + change (n_live_tup r :: (n_live_tup <$> t)) with (n_live_tup <$> rows) in Hall.
      exact (proj1 (Forall_fmap _ _ _) Hall).
    + change (n_live_tup r :: (n_live_tup <$> t)) with (n_live_tup <$> rows) in Hin.
      apply list_elem_of_fmap in Hin as (r' & Hr' & Hin).
      apply Exists_exists. exists r'. split; [exact Hin | done].
Qed.

(** The sample tables: three of them, 8020 dead rows in all, at most
    9000 live rows in one. *)
Example table_query_rows :
  table_query sample_tuples =
  inr (<[ "total_tables" := VInt 3 ]>
      (<[ "avg_rows_per_table" := VDecimal (Dec 3167 0) ]>
      (<[ "max_rows_in_table" := VInt 9000 ]>
      (<[ "avg_dead_rows" := VDecimal (Dec 2673 0) ]>
      (<[ "total_dead_rows" := VDecimal (Dec 8020 0) ]> ∅))))).
Proof. vm_compute. reflexivity. Qed.
